(** * Bank document automation: field discovery, semantic mapping, fill dispatch

    A shallow embedding of the template-understanding pipeline of the
    repository (mapping_engine.py, rag_service.py, main.py, canonical_schema.py)
    together with the properties of its specification.

    Modelling conventions.
    - Python [str] values are Rocq [string]s; the character predicates are the
      ASCII restriction of Python's.
    - Python [float] values (distances, page coordinates, font sizes) are
      modelled by rationals [Q], a decimal literal by the rational it spells;
      comparisons are exact and the rounding of float arithmetic is not
      modelled.
    - A Python dict used as a record is a Rocq [Record]; a key that the code
      reads through [.get] and that producers may leave out is an [option].
    - A Python dict used as a finite map is a stdpp [gmap]; a list updated by
      index uses the stdpp list insert.
    - A raised exception is the [None] of an [option] result; the schema
      store, whose callers tell its exceptions apart, returns an [Outcome]
      that names the class of the exception.
    - The files the code reads and writes, the clock and the external calls
      form an explicit [World] that every operation threads; writing a file
      succeeds. *)

From Stdlib Require Import Ascii QArith Qminmax Qabs Qround Lqa.
From stdpp Require Import gmap strings list fin_maps pretty sorting.

Open Scope list_scope.

(** ** Python string operations (ASCII) *)

Module PyStr.

Definition code (c : ascii) : nat := Ascii.nat_of_ascii c.

(** [str.isspace] on one character. *)
Definition is_space (c : ascii) : bool :=
  let n := code c in
  ((9 <=? n) && (n <=? 13)) || ((28 <=? n) && (n <=? 32)).

Definition is_upper_char (c : ascii) : bool :=
  let n := code c in (65 <=? n) && (n <=? 90).

Definition is_lower_char (c : ascii) : bool :=
  let n := code c in (97 <=? n) && (n <=? 122).

Definition is_digit (c : ascii) : bool :=
  let n := code c in (48 <=? n) && (n <=? 57).

Definition is_alpha (c : ascii) : bool := is_upper_char c || is_lower_char c.

Definition is_alnum (c : ascii) : bool := is_alpha c || is_digit c.

Definition lower_char (c : ascii) : ascii :=
  if is_upper_char c then Ascii.ascii_of_nat (code c + 32) else c.

Definition upper_char (c : ascii) : ascii :=
  if is_lower_char c then Ascii.ascii_of_nat (code c - 32) else c.

Fixpoint map_chars (f : ascii -> ascii) (s : string) : string :=
  match s with
  | EmptyString => EmptyString
  | String c s' => String (f c) (map_chars f s')
  end.

(** [s.lower()] *)
Definition lower (s : string) : string := map_chars lower_char s.

(** The characters of [s] that satisfy [keep], joined again. *)
Fixpoint filter_chars (keep : ascii -> bool) (s : string) : string :=
  match s with
  | EmptyString => EmptyString
  | String c s' =>
      if keep c then String c (filter_chars keep s') else filter_chars keep s'
  end.

Fixpoint all_chars (p : ascii -> bool) (s : string) : bool :=
  match s with
  | EmptyString => true
  | String c s' => p c && all_chars p s'
  end.

Fixpoint any_chars (p : ascii -> bool) (s : string) : bool :=
  match s with
  | EmptyString => false
  | String c s' => p c || any_chars p s'
  end.

(** [s.lstrip()], [s.rstrip()], [s.strip()] *)
Fixpoint lstrip (s : string) : string :=
  match s with
  | EmptyString => EmptyString
  | String c s' => if is_space c then lstrip s' else s
  end.

Fixpoint rstrip (s : string) : string :=
  match s with
  | EmptyString => EmptyString
  | String c s' =>
      match rstrip s' with
      | EmptyString => if is_space c then EmptyString else String c EmptyString
      | r => String c r
      end
  end.

Definition strip (s : string) : string := rstrip (lstrip s).

(** [s.isupper()]: no lowercase letter and at least one uppercase letter. *)
Definition isupper (s : string) : bool :=
  all_chars (fun c => negb (is_lower_char c)) s && any_chars is_upper_char s.

(** [s.istitle()]: uppercase letters only follow uncased characters,
    lowercase letters only follow cased ones, and there is a cased
    character. *)
Fixpoint istitle_go (prev_cased seen : bool) (s : string) : bool :=
  match s with
  | EmptyString => seen
  | String c s' =>
      if is_upper_char c then
        if prev_cased then false else istitle_go true true s'
      else if is_lower_char c then
        if prev_cased then istitle_go true true s' else false
      else istitle_go false seen s'
  end.

Definition istitle (s : string) : bool := istitle_go false false s.

(** [s.title()] *)
Fixpoint title_go (prev_cased : bool) (s : string) : string :=
  match s with
  | EmptyString => EmptyString
  | String c s' =>
      if is_alpha c then
        String (if prev_cased then lower_char c else upper_char c)
               (title_go true s')
      else String c (title_go false s')
  end.

Definition title (s : string) : string := title_go false s.

(** [sub in s] *)
Fixpoint contains (sub s : string) : bool :=
  String.prefix sub s ||
  match s with
  | EmptyString => false
  | String _ s' => contains sub s'
  end.

(** [s.split(sep)] for a non-empty separator: the pieces between the
    non-overlapping occurrences of [sep], found left to right.  [skip]
    counts the characters of a matched separator still to be dropped and
    [cur] is the piece being collected. *)
Fixpoint split_go (sep : string) (skip : nat) (cur : string) (s : string)
  : list string :=
  match s with
  | EmptyString => [cur]
  | String c s' =>
      match skip with
      | S k => split_go sep k cur s'
      | O =>
          if String.prefix sep s
          then cur :: split_go sep (String.length sep - 1) EmptyString s'
          else split_go sep 0 (cur +:+ String c EmptyString) s'
      end
  end.

Definition split (sep s : string) : list string := split_go sep 0 EmptyString s.

(** [sep.join(parts)] *)
Fixpoint join (sep : string) (parts : list string) : string :=
  match parts with
  | [] => EmptyString
  | [p] => p
  | p :: rest => p +:+ sep +:+ join sep rest
  end.

(** [s.replace(old, new)] for a non-empty [old]. *)
Definition replace (old new s : string) : string := join new (split old s).

End PyStr.

(** ** Numbers *)

(** [x < y] and [x > y] on the rationals that stand for Python floats. *)
Definition Qlt_bool (x y : Q) : bool := negb (Qle_bool y x).

(** ** Data model *)

(** A rectangle [[x1, y1, x2, y2]] in page units. *)
Record Rect := { rx1 : Q; ry1 : Q; rx2 : Q; ry2 : Q }.

(** The metadata the similarity search returns with a candidate
    (rag_service.ingest_schema stores exactly these three keys). *)
Record Metadata := {
  md_field_id : string;
  md_canonical_name : string;
  md_data_type : string }.

(** One candidate: [{"field_id", "score", "metadata"}]; a lower score is a
    closer match. *)
Record Candidate := {
  c_field_id : string;
  c_score : Q;
  c_metadata : Metadata }.

(** The [explanation] text of a proposal.  The source renders it with
    f-strings ([{distance:.2f}]); the embedding keeps the parts that the
    text is made of. *)
Inductive Explanation :=
| NoStrongMatch
| StrongMatch (distance : Q)
| LikelyMatch (distance : Q) (ambiguous_with : option string)
| WeakMatch (distance : Q).

(** [mapping_proposal] *)
Record Proposal := {
  p_canonical_field_id : option string;
  p_suggested_new_field_name : string;
  p_confidence : string;
  p_explanation : Explanation;
  p_candidates : list string;
  p_scores : list Q }.

(** A field dict: the raw descriptor that discovery builds, extended in
    place by the mapping engine.  The descriptor keys that discovery always
    sets are plain fields; keys set only by some producer are options.  The
    keys [required], [rect_pct] and [page_dims] are carried by the source but
    never read by the code embedded here and are left out. *)
Record Field := {
  f_id : string;
  f_label : string;
  f_name : string;
  f_type : string;
  f_section : string;
  f_context : string;
  f_placeholder : option string;
  f_source : string;
  f_rect : option Rect;
  f_page : nat;
  f_export_options : option (list string);
  f_original_name : option string;
  f_mapping_status : option string;
  f_confidence : option string;
  f_mapping_source : option string;
  f_mapping_proposal : option Proposal;
  f_reviewed_by : option string }.

(** [field.update({...})] for the keys the mapping engine writes. *)
Definition set_mapping (f : Field) (original_name : option string)
    (name : string) (status confidence source : string)
    (proposal : Proposal) (reviewed_by : option string) : Field :=
  {| f_id := f_id f; f_label := f_label f; f_name := name;
     f_type := f_type f; f_section := f_section f; f_context := f_context f;
     f_placeholder := f_placeholder f; f_source := f_source f;
     f_rect := f_rect f; f_page := f_page f;
     f_export_options := f_export_options f;
     f_original_name := original_name;
     f_mapping_status := Some status;
     f_confidence := Some confidence;
     f_mapping_source := Some source;
     f_mapping_proposal := Some proposal;
     f_reviewed_by := reviewed_by |}.

(** The JSON object of one per-template mapping file. *)
Record MappingFile := {
  mf_template_id : string;
  mf_last_updated : nat;
  mf_mappings : list Field }.

(** One line of [corrections.log]. *)
Record Correction := {
  cr_timestamp : nat;
  cr_template : string;
  cr_field_label : string;
  cr_ai_guess : string;
  cr_human_correction : string }.

(** A positioned text run as the PDF toolkit hands it to a visitor:
    the text, [tm[4]], [tm[5]], the font's [/BaseFont] and the font size.
    [run_base_font] is [None] when there is no font dict or it has no
    [/BaseFont]; the source treats both as "not bold". *)
Record TextRun := {
  run_text : string;
  run_x : Q;
  run_y : Q;
  run_base_font : option string;
  run_font_size : Q }.

Record Page := { page_runs : list TextRun }.

(** The [/AP /N] entry of a form field: a dict with its keys in order, or an
    object without [keys]. *)
Inductive Appearance :=
| ApStates (keys : list string)
| ApOther.

(** One value of [reader.get_fields()]. *)
Record FormField := {
  ff_FT : option string;
  ff_AP_N : Appearance;
  ff_Opt : option (list string) }.

(** A template document as the PDF toolkit presents it. *)
Record Pdf := {
  pdf_pages : list Page;
  pdf_has_acroform : bool;
  pdf_fields : option (list (string * FormField)) }.

(** An entry of the coordinate map of [extract_form_fields_with_coords]. *)
Record Meta := { meta_page : nat; meta_rect : Rect }.

(** The dict passed to [AuditLogger.log_run]. *)
Record RunData := {
  rd_run_id : string;
  rd_template_id : string;
  rd_operator_id : string;
  rd_timestamp : nat;
  rd_mapping_snapshot_id : string;
  rd_mapping_snapshot : list Field;
  rd_input_payload_keys : list string;
  rd_filled_pdf_path : string }.

(** What one fill writes into the output document. *)
Record DrawCmd := {
  dc_clip : Q * Q * Q * Q;
  dc_font : string;
  dc_font_size : Q;
  dc_x : Q;
  dc_y : Q;
  dc_text : string }.

Record FilledDoc := {
  fd_template : string;
  fd_values : gmap string string;
  fd_need_appearances : bool;
  fd_overlays : list (nat * list DrawCmd) }.

(** Calls that leave the process. *)
Inductive Event :=
| EvPdfRead (path : string)
| EvSearchBatch (queries : list string).

(** The state the pipeline lives in: a clock, the template files and the
    per-template mapping files with their modification times, the two
    append-only logs, the snapshot files and the filled documents. *)
Record World := {
  w_now : nat;
  w_templates : gmap string (nat * Pdf);
  w_mapping_files : gmap string (nat * MappingFile);
  w_corrections : list Correction;
  w_run_history : list RunData;
  w_snapshots : gmap string (list Field);
  w_filled : gmap string FilledDoc;
  w_events : list Event }.

Definition with_mapping_files (w : World) (m : gmap string (nat * MappingFile)) : World :=
  {| w_now := w_now w; w_templates := w_templates w; w_mapping_files := m;
     w_corrections := w_corrections w; w_run_history := w_run_history w;
     w_snapshots := w_snapshots w; w_filled := w_filled w;
     w_events := w_events w |}.

Definition with_corrections (w : World) (l : list Correction) : World :=
  {| w_now := w_now w; w_templates := w_templates w;
     w_mapping_files := w_mapping_files w;
     w_corrections := l; w_run_history := w_run_history w;
     w_snapshots := w_snapshots w; w_filled := w_filled w;
     w_events := w_events w |}.

Definition with_event (w : World) (e : Event) : World :=
  {| w_now := w_now w; w_templates := w_templates w;
     w_mapping_files := w_mapping_files w;
     w_corrections := w_corrections w; w_run_history := w_run_history w;
     w_snapshots := w_snapshots w; w_filled := w_filled w;
     w_events := w_events w ++ [e] |}.

Definition with_audit (w : World) (h : list RunData)
    (s : gmap string (list Field)) : World :=
  {| w_now := w_now w; w_templates := w_templates w;
     w_mapping_files := w_mapping_files w;
     w_corrections := w_corrections w; w_run_history := h;
     w_snapshots := s; w_filled := w_filled w;
     w_events := w_events w |}.

Definition with_filled (w : World) (d : gmap string FilledDoc) : World :=
  {| w_now := w_now w; w_templates := w_templates w;
     w_mapping_files := w_mapping_files w;
     w_corrections := w_corrections w; w_run_history := w_run_history w;
     w_snapshots := w_snapshots w; w_filled := d;
     w_events := w_events w |}.

(** ** rag_service.py: the similarity-search service *)

Module Rag.

(** The answer of [schema_collection.query]: parallel lists of lists, one
    row per query; [distances] may be missing. *)
Record QueryResult := {
  qr_ids : list (list string);
  qr_distances : option (list (list Q));
  qr_metadatas : list (list Metadata) }.

(** [RealRAGService]: the readiness flag set by the constructor and the
    vector index behind [schema_collection.query]. *)
Record RealRAGService := {
  is_ready : bool;
  schema_collection_query : list string -> nat -> QueryResult }.

(** The fixed synonym table of [search_canonical_field_batch]. *)
Definition synonym_list : list (string * string) :=
  [ ("dob", "date_of_birth");
    ("date of birth", "date_of_birth");
    ("birth date", "date_of_birth");
    ("fname", "first_name");
    ("first name", "first_name");
    ("given name", "first_name");
    ("lname", "last_name");
    ("last name", "last_name");
    ("surname", "last_name");
    ("family name", "last_name");
    ("email", "email_address");
    ("e-mail", "email_address");
    ("phone", "mobile_number");
    ("mobile", "mobile_number");
    ("cell", "mobile_number");
    ("address", "residential_address");
    ("residence", "residential_address");
    ("nric", "national_id");
    ("id number", "national_id");
    ("passport", "passport_number");
    ("nationality", "nationality");
    ("citizenship", "nationality");
    ("gender", "gender");
    ("sex", "gender");
    ("marital status", "marital_status");
    ("income", "annual_income");
    ("occupation", "occupation");
    ("job title", "occupation");
    ("employer", "employer_name");
    ("company", "employer_name");
    ("acc no", "account_number");
    ("account no", "account_number");
    ("account number", "account_number") ].

Definition synonym_map : gmap string string := list_to_map synonym_list.

(** The label extracted from a query text:
    [text.split("Field Label:")[1].split(".")[0].strip().lower()] when the
    marker occurs (falling back to [text.lower()] should the indexing
    fail), the text itself otherwise. *)
Definition label_part (text : string) : string :=
  if PyStr.contains "Field Label:" text then
    match PyStr.split "Field Label:" text !! 1 with
    | Some rest =>
        match PyStr.split "." rest !! 0 with
        | Some h => PyStr.lower (PyStr.strip h)
        | None => PyStr.lower text
        end
    | None => PyStr.lower text
    end
  else text.

(** [label_clean = label_part.replace("_", " ").strip()] *)
Definition label_clean (text : string) : string :=
  PyStr.strip (PyStr.replace "_" " " (label_part text)).

(** The fake "perfect match" of the fast path. *)
Definition synonym_hit (canonical_id : string) : list Candidate :=
  [ {| c_field_id := canonical_id;
       c_score := 0.05%Q;
       c_metadata :=
         {| md_field_id := canonical_id;
            md_canonical_name := PyStr.title (PyStr.replace "_" " " canonical_id);
            md_data_type := "text" |} |} ].

(** State of the first loop: [final_results], [vector_indices],
    [vector_queries]. *)
Definition Triage : Type :=
  list (option (list Candidate)) * list nat * list string.

Definition triage_step (st : Triage) (it : nat * string) : Triage :=
  let '(final_results, vector_indices, vector_queries) := st in
  let '(idx, text) := it in
  match synonym_map !! label_clean text with
  | Some canonical_id =>
      (<[idx := Some (synonym_hit canonical_id)]> final_results,
       vector_indices, vector_queries)
  | None =>
      (final_results, vector_indices ++ [idx], vector_queries ++ [text])
  end.

Definition enumerate {A} (l : list A) : list (nat * A) :=
  zip (seq 0 (length l)) l.

Definition triage (query_texts : list string) : Triage :=
  foldl triage_step (replicate (length query_texts) None, [], [])
        (enumerate query_texts).

(** The candidates of row [i] of a query answer; an index out of range
    raises. *)
Definition row_candidates (results : QueryResult) (i : nat)
  : option (list Candidate) :=
  row ← qr_ids results !! i;
  mapM (fun j =>
          fid ← row !! j;
          sc ← match qr_distances results with
               | Some d => d !! i ≫= (fun r => r !! j)
               | None => Some 0%Q
               end;
          md ← qr_metadatas results !! i ≫= (fun r => r !! j);
          Some {| c_field_id := fid; c_score := sc; c_metadata := md |})
       (seq 0 (length row)).

(** An answer of the vector index that has a row for each of [n] queries,
    with distances (when returned at all) and metadatas for every id of the
    row. *)
Definition well_shaped (results : QueryResult) (n : nat) : Prop :=
  forall i, (i < n)%nat ->
    exists row,
      qr_ids results !! i = Some row /\
      match qr_distances results with
      | Some d => exists drow, d !! i = Some drow /\ (length row <= length drow)%nat
      | None => True
      end /\
      exists mrow,
        qr_metadatas results !! i = Some mrow /\ (length row <= length mrow)%nat.

Definition fill_step (results : QueryResult)
    (acc : option (list (option (list Candidate)))) (it : nat * nat)
  : option (list (option (list Candidate))) :=
  final_results ← acc;
  candidates ← row_candidates results it.1;
  Some (<[it.2 := Some candidates]> final_results).

(** [search_canonical_field_batch(query_texts, n_results)] *)
Definition search_canonical_field_batch (self : RealRAGService)
    (query_texts : list string) (n_results : nat)
  : option (list (option (list Candidate))) :=
  if negb (is_ready self) || bool_decide (query_texts = []) then
    Some (replicate (length query_texts) (Some []))
  else
    let '(final_results, vector_indices, vector_queries) := triage query_texts in
    match vector_queries with
    | [] => Some final_results
    | _ =>
        let results := schema_collection_query self vector_queries n_results in
        match qr_ids results with
        | [] => Some final_results
        | _ => foldl (fill_step results) (Some final_results)
                     (enumerate vector_indices)
        end
    end.

End Rag.

(** ** mapping_engine.py: the semantic mapping engine *)

Module Engine.

(** [get_mapping_file_path]: the sanitised template id followed by
    [.mapping.json], inside the mappings directory. *)
Definition safe_char (c : ascii) : bool :=
  PyStr.is_alpha c || PyStr.is_digit c ||
  bool_decide (c ∈ ["_"%char; "-"%char; "."%char]).

Definition get_mapping_file_path (template_id : string) : string :=
  "mappings/" +:+ PyStr.filter_chars safe_char template_id +:+ ".mapping.json".

(** [load_saved_params]: the stored object, or the empty dict. *)
Definition load_saved_params (w : World) (template_id : string)
  : option MappingFile :=
  snd <$> w_mapping_files w !! get_mapping_file_path template_id.

(** [save_mappings]: a full overwrite stamped with the current time. *)
Definition save_mappings (w : World) (template_id : string)
    (field_mappings : list Field) : World :=
  with_mapping_files w
    (<[get_mapping_file_path template_id :=
         (w_now w, {| mf_template_id := template_id;
                      mf_last_updated := w_now w;
                      mf_mappings := field_mappings |})]>
       (w_mapping_files w)).

(** The lookup table of prior records, keyed by both [id] and [name];
    later writes win. *)
Definition saved_map_step (saved_map : gmap string Field) (m : Field)
  : gmap string Field :=
  <[f_name m := m]> (<[f_id m := m]> saved_map).

Definition build_saved_map (saved_data : option MappingFile) : gmap string Field :=
  match saved_data with
  | Some d => foldl saved_map_step ∅ (mf_mappings d)
  | None => ∅
  end.

Definition is_preserved_status (s : option string) : bool :=
  match s with
  | Some st => bool_decide (st ∈ ["approved"; "manual_override"])
  | None => false
  end.

(** The prior record that makes the engine keep a field as it is. *)
Definition preserved (saved_map : gmap string Field) (field : Field)
  : option Field :=
  match saved_map !! f_id field with
  | Some existing =>
      if is_preserved_status (f_mapping_status existing)
      then Some existing else None
  | None => None
  end.

Definition query_text (field : Field) : string :=
  "Field Label: " +:+ f_label field +:+ ". Context: " +:+ f_context field
    +:+ ". Section: " +:+ f_section field +:+ ". Placeholder: "
    +:+ default "" (f_placeholder field).

(** The update of a field from a preserved record;
    [existing['mapping_proposal']] raises when the key is missing. *)
Definition reuse (field existing : Field) : option Field :=
  proposal ← f_mapping_proposal existing;
  status ← f_mapping_status existing;
  Some (set_mapping field (f_original_name field) (f_name existing) status
          (default "High" (f_confidence existing))
          (default "historical" (f_mapping_source existing))
          proposal (f_reviewed_by existing)).

(** State of the first loop: the field list (updated in place),
    [to_process_indices] and [queries]. *)
Definition Pending : Type := list Field * list nat * list string.

Definition first_loop_step (saved_map : gmap string Field)
    (acc : option Pending) (it : nat * Field) : option Pending :=
  '(template_fields, to_process_indices, queries) ← acc;
  let '(i, field) := it in
  match preserved saved_map field with
  | Some existing =>
      field' ← reuse field existing;
      Some (<[i := field']> template_fields, to_process_indices, queries)
  | None =>
      Some (template_fields, to_process_indices ++ [i],
            queries ++ [query_text field])
  end.

Definition first_loop (saved_map : gmap string Field)
    (template_fields : list Field) : option Pending :=
  foldl (first_loop_step saved_map) (Some (template_fields, [], []))
        (Rag.enumerate template_fields).

(** Python truthiness of [best_match]. *)
Definition truthy (s : option string) : bool :=
  match s with
  | Some (String _ _) => true
  | _ => false
  end.

(** The tier of the best candidate:
    [(best_match, confidence, source, mapping_status, explanation)]. *)
Definition tier (candidates : list Candidate)
  : option string * string * string * string * Explanation :=
  match candidates with
  | [] => (None, "Low", "Unmapped", "suggest_new", NoStrongMatch)
  | top_candidate :: rest =>
      let distance := c_score top_candidate in
      if Qlt_bool distance 0.40 then
        (Some (md_field_id (c_metadata top_candidate)),
         "High", "auto_embedding_strong", "auto", StrongMatch distance)
      else if Qlt_bool distance 0.75 then
        (Some (md_field_id (c_metadata top_candidate)),
         "Medium", "auto_embedding_weak", "pending_review",
         LikelyMatch distance
           match rest with
           | second :: _ =>
               if Qlt_bool (Qabs (c_score top_candidate - c_score second)) 0.05
               then Some (md_canonical_name (c_metadata second)) else None
           | [] => None
           end)
      else (None, "Low", "Unmapped", "suggest_new", WeakMatch distance)
  end.

(** The body of the second loop: the field updated from its candidates
    ([None] and the empty list both count as "no candidates"). *)
Definition apply_candidates (field : Field)
    (candidates : option (list Candidate)) : Field :=
  let cands := default [] candidates in
  let '(best_match, confidence, source, mapping_status, explanation) :=
    tier cands in
  let field_id := f_id field in
  set_mapping field (Some field_id)
    (if truthy best_match then default field_id best_match else field_id)
    mapping_status confidence source
    {| p_canonical_field_id := best_match;
       p_suggested_new_field_name :=
         PyStr.replace " " "_" (PyStr.lower (f_label field));
       p_confidence := confidence;
       p_explanation := explanation;
       p_candidates := (fun c => md_field_id (c_metadata c)) <$> cands;
       p_scores := c_score <$> cands |}
    (f_reviewed_by field).

Definition second_loop_step (template_fields : list Field)
    (it : nat * option (list Candidate)) : list Field :=
  match template_fields !! it.1 with
  | Some field => <[it.1 := apply_candidates field it.2]> template_fields
  | None => template_fields
  end.

(** [map_template_fields(template_id, template_fields)] *)
Definition map_template_fields (svc : Rag.RealRAGService) (w : World)
    (template_id : string) (template_fields : list Field)
  : option (list Field * World) :=
  let saved_map := build_saved_map (load_saved_params w template_id) in
  '(fields1, to_process_indices, queries) ← first_loop saved_map template_fields;
  match queries with
  | [] => Some (fields1, save_mappings w template_id fields1)
  | _ =>
      let w1 := with_event w (EvSearchBatch queries) in
      batch_results ← Rag.search_canonical_field_batch svc queries 5;
      let fields2 :=
        foldl second_loop_step fields1 (zip to_process_indices batch_results) in
      Some (fields2, save_mappings w1 template_id fields2)
  end.

(** [log_correction]: one line appended to [corrections.log]. *)
Definition log_correction (w : World) (template label original_ai correct_human : string)
  : World :=
  with_corrections w
    (w_corrections w ++
       [ {| cr_timestamp := w_now w; cr_template := template;
            cr_field_label := label; cr_ai_guess := original_ai;
            cr_human_correction := correct_human |} ]).

(** The id a stored record is found by:
    [field.get('original_name', field.get('id', ''))]. *)
Definition record_key (field : Field) : string :=
  default (f_id field) (f_original_name field).

(** The assignments made to the located record. *)
Definition overwrite (found : Field) (canonical_id status user : string)
  : option Field :=
  proposal ← f_mapping_proposal found;
  Some (set_mapping found (f_original_name found) canonical_id status
          "High" "manual_correction"
          {| p_canonical_field_id := Some canonical_id;
             p_suggested_new_field_name := p_suggested_new_field_name proposal;
             p_confidence := p_confidence proposal;
             p_explanation := p_explanation proposal;
             p_candidates := p_candidates proposal;
             p_scores := p_scores proposal |}
          (Some user)).

(** The list [update_mapping] starts from: the stored mappings, or the
    empty list when there is no file. *)
Definition stored_mappings (w : World) (template_id : string) : list Field :=
  match load_saved_params w template_id with
  | Some d => mf_mappings d
  | None => []
  end.

(** [update_mapping(template_id, field_id, canonical_id, status, user)];
    the result is the returned flag and the new world. *)
Definition update_mapping (w : World) (template_id field_id canonical_id : string)
    (status user : string) : option (bool * World) :=
  let mapped_fields := stored_mappings w template_id in
  match list_find (fun field => record_key field = field_id) mapped_fields with
  | Some (i, found) =>
      let original_guess :=
        f_mapping_proposal found ≫= p_canonical_field_id in
      let w1 :=
        if truthy original_guess &&
           negb (bool_decide (original_guess = Some canonical_id))
        then log_correction w template_id (f_label found)
               (default "" original_guess) canonical_id
        else w in
      found' ← overwrite found canonical_id status user;
      Some (true, save_mappings w1 template_id (<[i := found']> mapped_fields))
  | None => Some (true, save_mappings w template_id mapped_fields)
  end.

(** The defaults of the [status] and [user] arguments. *)
Definition default_status : string := "manual_override".
Definition default_user : string := "human".

End Engine.

(** ** main.py: field discovery, fill dispatch and audit *)

Module Main.

(** Python's [max(a, b)] and [min(a, b)] on two numbers. *)
Definition py_max (a b : Q) : Q := if Qlt_bool a b then b else a.
Definition py_min (a b : Q) : Q := if Qlt_bool b a then b else a.

(** *** Section resolver *)

Definition section_keywords : list string :=
  [ "section"; "part"; "details"; "information"; "declaration";
    "agreement"; "authorization"; "certification"; "beneficiary";
    "instructions"; "application"; "applicant"; "profile" ].

(** [visitor_header]: the header a text run contributes, if any. *)
Definition visitor_header (r : TextRun) : option (Q * string) :=
  let clean := PyStr.strip (run_text r) in
  if (String.length clean <? 3)%nat then None
  else
    let clean_lower := PyStr.lower clean in
    let by_font :=
      Qlt_bool 10 (run_font_size r) &&
      (PyStr.isupper clean || PyStr.istitle clean) in
    let by_keyword :=
      existsb (fun k => PyStr.contains k clean_lower) section_keywords &&
      (String.length clean <? 60)%nat in
    let by_bold :=
      match run_base_font r with
      | Some base => PyStr.contains "Bold" base && (String.length clean <? 60)%nat
      | None => false
      end in
    if by_font || by_keyword || by_bold
    then Some (run_y r, PyStr.strip (PyStr.replace ":" "" clean))
    else None.

(** [headers.sort(key=lambda x: x[0], reverse=True)]: a stable sort by
    descending y. *)
Fixpoint insert_desc (h : Q * string) (l : list (Q * string)) : list (Q * string) :=
  match l with
  | [] => [h]
  | h' :: l' =>
      if Qle_bool (fst h') (fst h) then h :: l else h' :: insert_desc h l'
  end.

Definition sort_desc (l : list (Q * string)) : list (Q * string) :=
  foldr insert_desc [] l.

Definition page_headers (page : Page) : list (Q * string) :=
  sort_desc (omap visitor_header (page_runs page)).

(** [find_section_headers(reader)]: page number (from 1) to headers. *)
Definition find_section_headers (pdf : Pdf) : gmap nat (list (Q * string)) :=
  foldl (fun m it => <[S it.1 := page_headers it.2]> m) ∅
        (Rag.enumerate (pdf_pages pdf)).

(** The loop over a page's headers: every header above [field_y] replaces
    the section, the first one that is not ends the loop. *)
Fixpoint scan_headers (field_y : Q) (detected_section : string)
    (headers : list (Q * string)) : string :=
  match headers with
  | [] => detected_section
  | (hy, htext) :: rest =>
      if Qlt_bool field_y hy then scan_headers field_y htext rest
      else detected_section
  end.

(** [field_y]: [max(rect[1], rect[3])], or 0 without a rectangle. *)
Definition field_y (rect : option Rect) : Q :=
  match rect with
  | Some r => py_max (ry1 r) (ry2 r)
  | None => 0%Q
  end.

Definition detect_section (section_map : gmap nat (list (Q * string)))
    (page_num : nat) (rect : option Rect) : string :=
  match section_map !! page_num with
  | Some headers => scan_headers (field_y rect) "General" headers
  | None => "General"
  end.

(** *** Field discovery *)

(** The functions of main.py that no property below depends on stay
    abstract: the coordinate walk, the label resolver and the scanner for
    flat documents. *)
Record Scanners := {
  extract_form_fields_with_coords : Pdf -> gmap string Meta;
  find_nearby_label : Page -> Rect -> string;
  scan_for_static_fields : Pdf -> list Field }.

(** The export values of a checkbox: the appearance states other than
    [/Off], or the [/Opt] list when [/AP /N] is not a dictionary. *)
Definition export_options_of (field_data : FormField) : list string :=
  if bool_decide (ff_FT field_data = Some "/Btn") then
    match ff_AP_N field_data with
    | ApStates keys => filter (fun k => k ≠ "/Off") keys
    | ApOther => default [] (ff_Opt field_data)
    end
  else [].

Definition raw_field (sc : Scanners) (pdf : Pdf)
    (section_map : gmap nat (list (Q * string)))
    (field_name : string) (field_data : FormField) : Field :=
  let meta := extract_form_fields_with_coords sc pdf !! field_name in
  let page_num := default 1%nat (meta_page <$> meta) in
  let rect := meta_rect <$> meta in
  let detected_section := detect_section section_map page_num rect in
  let visual_label :=
    match rect, pdf_pages pdf !! (page_num - 1)%nat with
    | Some r, Some page =>
        if bool_decide (page_num = 0%nat) then "" else find_nearby_label sc page r
    | _, _ => ""
    end in
  let heuristic_label :=
    PyStr.title (PyStr.replace "_" " "
                   (default "" (last (PyStr.split "." field_name)))) in
  let final_label :=
    if bool_decide (visual_label = "") then heuristic_label else visual_label in
  let context :=
    "Section: " +:+ detected_section +:+ "." +:+
    (if bool_decide (visual_label = "") then ""
     else " Visual Label: '" +:+ visual_label +:+ "'.") +:+
    " Page: " +:+ pretty page_num in
  {| f_id := field_name; f_label := final_label; f_name := field_name;
     f_type := if bool_decide (ff_FT field_data = Some "/Btn")
               then "checkbox" else "text";
     f_section := detected_section; f_context := context;
     f_placeholder := Some ""; f_source := "acroform"; f_rect := rect;
     f_page := page_num;
     f_export_options := Some (export_options_of field_data);
     f_original_name := None; f_mapping_status := None;
     f_confidence := None; f_mapping_source := None;
     f_mapping_proposal := None; f_reviewed_by := None |}.

(** [os.path.basename] *)
Definition basename (path : string) : string :=
  default "" (last (PyStr.split "/" path)).

(** The cache check at the head of [analyze_template]: the stored list,
    when the mapping file exists, is at least as new as the template and
    holds a mapping. *)
Definition cached_mappings (w : World) (template_path : string)
  : option (list Field) :=
  '(map_mtime, saved) ←
     w_mapping_files w !! Engine.get_mapping_file_path (basename template_path);
  '(pdf_mtime, _) ← w_templates w !! template_path;
  if (pdf_mtime <=? map_mtime)%nat && (0 <? length (mf_mappings saved))%nat
  then Some (mf_mappings saved) else None.

(** The interactive strategy, run when the document has form fields or a
    form root. *)
Definition acroform_fields (sc : Scanners) (pdf : Pdf) : option (list Field) :=
  let fields_found := default [] (pdf_fields pdf) in
  if bool_decide (fields_found ≠ []) || pdf_has_acroform pdf then
    let section_map := find_section_headers pdf in
    Some ((fun it => raw_field sc pdf section_map it.1 it.2) <$> fields_found)
  else None.

(** [analyze_template(template_path)].  A failure inside the interactive
    strategy is caught and followed by the static scan. *)
Definition analyze_template (sc : Scanners) (svc : Rag.RealRAGService)
    (w : World) (template_path : string) : option (list Field * World) :=
  match cached_mappings w template_path with
  | Some mappings => Some (mappings, w)
  | None =>
      '(_, pdf) ← w_templates w !! template_path;
      let filename := basename template_path in
      let w1 := with_event w (EvPdfRead template_path) in
      let static_scan :=
        match scan_for_static_fields sc pdf with
        | [] => Some ([], w1)
        | static_fields =>
            Engine.map_template_fields svc w1 filename static_fields
        end in
      match acroform_fields sc pdf with
      | Some raw_fields =>
          match Engine.map_template_fields svc w1 filename raw_fields with
          | Some r => Some r
          | None => static_scan
          end
      | None => static_scan
      end
  end.

(** *** Fill dispatch *)

(** A data record: an ordered dict from canonical id to value, the values
    taken as the strings [str(val)]: the fill reads every value through
    [str], except [registered_name] and [operator_id], which are strings
    here. *)
Definition DataRecord : Type := list (string * string).

(** [record.get(key, dflt)] *)
Fixpoint record_get (record : DataRecord) (key dflt : string) : string :=
  match record with
  | [] => dflt
  | (k, v) :: rest => if bool_decide (k = key) then v else record_get rest key dflt
  end.

Definition truthy_tokens : list string := ["true"; "yes"; "1"; "on"].

(** The routing of one field: [acroform_data] and [overlay_fields] after
    the loop body. *)
Definition dispatch_step (record : DataRecord)
    (st : gmap string string * list Field) (f : Field)
  : gmap string string * list Field :=
  let '(acroform_data, overlay_fields) := st in
  let val := record_get record (f_name f) "" in
  if bool_decide (PyStr.strip val = "") then st
  else if bool_decide (f_source f = "acroform") && negb (bool_decide (f_id f = ""))
  then
    let internal_name := f_id f in
    if bool_decide (f_type f = "checkbox") then
      if bool_decide (PyStr.lower val ∈ truthy_tokens) then
        match default [] (f_export_options f) with
        | first :: _ => (<[internal_name := first]> acroform_data, overlay_fields)
        | [] => (<[internal_name := "/Yes"]> acroform_data, overlay_fields)
        end
      else st
    else (<[internal_name := val]> acroform_data, overlay_fields)
  else (acroform_data, overlay_fields ++ [f]).

Definition dispatch (record : DataRecord) (fields : list Field)
  : gmap string string * list Field :=
  foldl (dispatch_step record) (∅, []) fields.

(** [_draw_text_field(c, text, x, y, w, h)] *)
Definition _draw_text_field (text : string) (x y w h : Q) : DrawCmd :=
  let max_font_size := py_min 12 (h * 0.8) in
  let draw_y := (y + (h / 2) - (max_font_size / 2) + 1)%Q in
  {| dc_clip := (x, y, w, h);
     dc_font := "Helvetica";
     dc_font_size := max_font_size;
     dc_x := (x + 2)%Q;
     dc_y := draw_y;
     dc_text := PyStr.strip text |}.

(** One iteration of the loop of [_apply_overlay]. *)
Definition overlay_cmd (record : DataRecord) (field : Field) : option DrawCmd :=
  let val := record_get record (f_name field) "" in
  if bool_decide (PyStr.strip val = "") then None
  else
    rect ← f_rect field;
    let x := py_min (rx1 rect) (rx2 rect) in
    let y := py_min (ry1 rect) (ry2 rect) in
    let w := Qabs (rx2 rect - rx1 rect) in
    let h := Qabs (ry2 rect - ry1 rect) in
    Some (_draw_text_field val x y w h).

(** [_apply_overlay(page, fields, record)]: what the loop draws on the
    canvas of one page.  The method then merges the first page of the
    canvas document into the page; that page is missing when the loop drew
    nothing, and the [IndexError] this raises is in [fill] below. *)
Definition _apply_overlay (fields : list Field) (record : DataRecord)
  : list DrawCmd :=
  omap (overlay_cmd record) fields.

(** The overlays of a fill: for each page index that has overlay fields,
    the commands drawn on that page. *)
Definition overlays (n_pages : nat) (overlay_fields : list Field)
    (record : DataRecord) : list (nat * list DrawCmd) :=
  omap (fun i =>
          match filter (fun f => f_page f = S i) overlay_fields with
          | [] => None
          | fs => Some (i, _apply_overlay fs record)
          end)
       (seq 0 n_pages).

(** The form update raises ([PyPdfError]) on the first page when there is
    form data and the document, which the writer is a copy of, has no
    [/AcroForm]. *)
Definition form_update_raises (pdf : Pdf) (acroform_data : gmap string string)
  : bool :=
  negb (bool_decide (acroform_data = ∅)) &&
  negb (bool_decide (pdf_pages pdf = [])) && negb (pdf_has_acroform pdf).

(** The canvas document of a page has no first page to merge
    ([IndexError]) when nothing was drawn on it. *)
Definition draws_nothing (page_overlay : nat * list DrawCmd) : bool :=
  match page_overlay.2 with
  | [] => true
  | _ :: _ => false
  end.

(** [UniversalDocumentFiller(template_path).fill(record, output_path)]:
    the returned field list and the world with the output document.  The
    output is written at the end, so a run that raises leaves no
    document. *)
Definition fill (sc : Scanners) (svc : Rag.RealRAGService) (w : World)
    (template_path : string) (record : DataRecord) (output_path : string)
  : option (list Field * World) :=
  '(_, pdf) ← w_templates w !! template_path;
  let w0 := with_event w (EvPdfRead template_path) in
  '(fields, w1) ← analyze_template sc svc w0 template_path;
  let '(acroform_data, overlay_fields) := dispatch record fields in
  if form_update_raises pdf acroform_data then None
  else
    let page_overlays :=
      overlays (length (pdf_pages pdf)) overlay_fields record in
    if existsb draws_nothing page_overlays then None
    else
      let doc :=
        {| fd_template := template_path;
           fd_values := acroform_data;
           fd_need_appearances := negb (bool_decide (acroform_data = ∅));
           fd_overlays := page_overlays |} in
      Some (fields, with_filled w1 (<[output_path := doc]> (w_filled w1))).

(** *** Audit *)

(** [AuditLogger.log_run(run_data)] *)
Definition log_run (w : World) (run_data : RunData) : World :=
  let history := w_run_history w ++ [run_data] in
  let snapshot_id := rd_mapping_snapshot_id run_data in
  if bool_decide (snapshot_id = "") then with_audit w history (w_snapshots w)
  else
    let s_id :=
      PyStr.filter_chars
        (fun c => PyStr.is_alnum c || bool_decide (c ∈ ["_"%char; "-"%char]))
        snapshot_id in
    with_audit w history
      (<["filled_metadata/" +:+ s_id +:+ "_mapping.json" :=
           rd_mapping_snapshot run_data]> (w_snapshots w)).

(** [run_id[-6:]] *)
Definition last6 (s : string) : string :=
  String.substring (String.length s - 6) 6 s.

(** The sanitised [registered_name] used in file names. *)
Definition safe_name (record : DataRecord) : string :=
  PyStr.replace " " "_"
    (PyStr.strip
       (PyStr.filter_chars
          (fun c => PyStr.is_alpha c || PyStr.is_digit c || bool_decide (c = " "%char))
          (record_get record "registered_name" "Unknown"))).

(** The audit entry handed to [log_run]. *)
Definition run_data_of (w : World) (run_id template_filename : string)
    (record : DataRecord) (mapping_snapshot : list Field) (output_path : string)
  : RunData :=
  {| rd_run_id := run_id;
     rd_template_id := template_filename;
     rd_operator_id := record_get record "operator_id" "system";
     rd_timestamp := w_now w;
     rd_mapping_snapshot_id := safe_name record +:+ "_" +:+ last6 run_id;
     rd_mapping_snapshot := mapping_snapshot;
     rd_input_payload_keys := fst <$> record;
     rd_filled_pdf_path := output_path |}.

(** [fill_single_record(record, template_filename)]; [run_id] is the
    fresh uuid and the clock renders the date directory. *)
Definition fill_single_record (sc : Scanners) (svc : Rag.RealRAGService)
    (w : World) (run_id : string) (record : DataRecord)
    (template_filename : string) : option (string * World) :=
  let template_path := "templates/" +:+ template_filename in
  _ ← w_templates w !! template_path;
  let output_path :=
    "filled/" +:+ pretty (w_now w) +:+ "/" +:+ safe_name record +:+ "_"
      +:+ last6 run_id +:+ "_" +:+ template_filename in
  '(mapping_snapshot, w1) ← fill sc svc w template_path record output_path;
  Some (output_path,
        log_run w1 (run_data_of w1 run_id template_filename record
                      mapping_snapshot output_path)).

End Main.

(** ** The specification's wording, where it differs from the code *)

Module Spec.

(** Section inference as the specification words it: from the field's lower
    rectangle edge. *)
Definition section_by_lower_edge (section_map : gmap nat (list (Q * string)))
    (page_num : nat) (rect : Rect) : string :=
  match section_map !! page_num with
  | Some headers =>
      Main.scan_headers (Main.py_min (ry1 rect) (ry2 rect)) "General" headers
  | None => "General"
  end.


(** Vertical centring as the specification words it: within the
    rectangle, which starts at [y] and is [h] high, the text band (from the
    baseline up by the font size) has as much room under it as over it. *)
Definition vertically_centered (y h : Q) (cmd : DrawCmd) : Prop :=
  (dc_y cmd - y == (y + h) - (dc_y cmd + dc_font_size cmd))%Q.

End Spec.

(** ** Concrete inputs used to exercise the statements *)

Module Fixtures.

Definition text_field (i l : string) : Field :=
  {| f_id := i; f_label := l; f_name := i; f_type := "text";
     f_section := "General"; f_context := "Section: General. Page: 1";
     f_placeholder := Some ""; f_source := "acroform";
     f_rect := None; f_page := 1; f_export_options := Some [];
     f_original_name := None; f_mapping_status := None;
     f_confidence := None; f_mapping_source := None;
     f_mapping_proposal := None; f_reviewed_by := None |}.

Definition candidate (i : string) (d : Q) : Candidate :=
  {| c_field_id := i; c_score := d;
     c_metadata := {| md_field_id := i; md_canonical_name := i;
                      md_data_type := "text" |} |}.

Definition empty_world : World :=
  {| w_now := 5; w_templates := ∅; w_mapping_files := ∅;
     w_corrections := []; w_run_history := []; w_snapshots := ∅;
     w_filled := ∅; w_events := [] |}.

(** A vector index that answers every query with one candidate
    [customer_id] at distance 0.40. *)
Definition index_answer (qs : list string) (n : nat) : Rag.QueryResult :=
  {| Rag.qr_ids := (fun _ => ["customer_id"]) <$> qs;
     Rag.qr_distances := Some ((fun _ => [0.40%Q]) <$> qs);
     Rag.qr_metadatas :=
       (fun _ => [ {| md_field_id := "customer_id";
                      md_canonical_name := "Customer Id";
                      md_data_type := "text" |} ]) <$> qs |}.

Definition service (ready : bool) : Rag.RealRAGService :=
  {| Rag.is_ready := ready; Rag.schema_collection_query := index_answer |}.

(** The fields of a small form and the world after their first mapping
    pass. *)
Definition form_fields : list Field :=
  [ text_field "txt_dob" "Date of Birth"; text_field "cust" "Customer" ].

Definition mapped_world : World :=
  default empty_world
    (snd <$> Engine.map_template_fields (service true) empty_world "form.pdf"
               form_fields).

(** No scanner finds anything: the discovery functions that stay abstract,
    at their simplest. *)
Definition blind_scanners : Main.Scanners :=
  {| Main.extract_form_fields_with_coords := fun _ => ∅;
     Main.find_nearby_label := fun _ _ => "";
     Main.scan_for_static_fields := fun _ => [] |}.

Definition empty_pdf : Pdf :=
  {| pdf_pages := [ {| page_runs := [] |} ]; pdf_has_acroform := false;
     pdf_fields := None |}.

(** The template [form.pdf] was stored at time 3, its mapping file written
    at time 5. *)
Definition cached_world : World :=
  {| w_now := 9;
     w_templates := {[ "templates/form.pdf" := (3%nat, empty_pdf) ]};
     w_mapping_files := w_mapping_files mapped_world;
     w_corrections := []; w_run_history := []; w_snapshots := ∅;
     w_filled := ∅; w_events := [] |}.

(** A one-page form: the header [APPLICANT DETAILS] printed at y = 705 and
    one text widget [txt_name] with the rectangle [[100, 700, 250, 715]], so
    that the header lies between the widget's lower and upper edge. *)
Definition header_pdf : Pdf :=
  {| pdf_pages :=
       [ {| page_runs :=
              [ {| run_text := "APPLICANT DETAILS"; run_x := 72; run_y := 705;
                   run_base_font := Some "Helvetica-Bold";
                   run_font_size := 12 |} ] |} ];
     pdf_has_acroform := true;
     pdf_fields :=
       Some [ ("txt_name",
               {| ff_FT := Some "/Tx"; ff_AP_N := ApStates []; ff_Opt := None |}) ] |}.

Definition name_rect : Rect :=
  {| rx1 := 100; ry1 := 700; rx2 := 250; ry2 := 715 |}.

Definition coords_scanners : Main.Scanners :=
  {| Main.extract_form_fields_with_coords :=
       fun _ => {[ "txt_name" := {| meta_page := 1; meta_rect := name_rect |} ]};
     Main.find_nearby_label := fun _ _ => "";
     Main.scan_for_static_fields := fun _ => [] |}.

(** A checkbox widget mapped to [is_us_person] with two export values. *)
Definition checkbox_field : Field :=
  {| f_id := "chk_us"; f_label := "US Person"; f_name := "is_us_person";
     f_type := "checkbox"; f_section := "General";
     f_context := "Section: General. Page: 1";
     f_placeholder := Some ""; f_source := "acroform";
     f_rect := None; f_page := 1;
     f_export_options := Some ["/Yes"; "/On"];
     f_original_name := Some "chk_us";
     f_mapping_status := Some "approved"; f_confidence := Some "High";
     f_mapping_source := Some "manual_correction";
     f_mapping_proposal := None; f_reviewed_by := Some "human" |}.

(** A form with a widget named [first_name] and a widget named [fname],
    both labelled [First Name]: the world after the first mapping pass, and
    after a human has overridden the mapping of [first_name]. *)
Definition kyc_fields : list Field :=
  [ text_field "first_name" "First Name"; text_field "fname" "First Name" ].

Definition kyc_mapped : World :=
  default empty_world
    (snd <$> Engine.map_template_fields (service true) empty_world "kyc.pdf"
               kyc_fields).

Definition kyc_overridden : World :=
  default empty_world
    (snd <$> Engine.update_mapping kyc_mapped "kyc.pdf" "first_name"
               "legal_first_name" "manual_override" "human").

(** Two records with the same keys that differ in one value only. *)
Definition record_a : Main.DataRecord :=
  [ ("registered_name", "Acme Corp"); ("operator_id", "op7");
    ("date_of_birth", "1990-01-01") ].

Definition record_b : Main.DataRecord :=
  [ ("registered_name", "Acme Corp"); ("operator_id", "op7");
    ("date_of_birth", "1985-05-05") ].

(** An overlay field with the rectangle [[100, 700, 250, 715]]. *)
Definition overlay_field : Field :=
  {| f_id := "static_Name_0_72"; f_label := "Name"; f_name := "registered_name";
     f_type := "text"; f_section := "General";
     f_context := "Page 1. Label detected: 'Name'";
     f_placeholder := None; f_source := "static_scan";
     f_rect := Some {| rx1 := 100; ry1 := 700; rx2 := 250; ry2 := 715 |};
     f_page := 1; f_export_options := None;
     f_original_name := Some "static_Name_0_72";
     f_mapping_status := Some "auto"; f_confidence := Some "High";
     f_mapping_source := Some "auto_embedding_strong";
     f_mapping_proposal := None; f_reviewed_by := None |}.

End Fixtures.

(** ** main.py: the label resolver and the scanner for flat documents

    The two discovery functions that [Main.Scanners] keeps abstract, as the
    code has them, on the text runs that the page visitor is called with. *)

Module Discovery.

(** *** [find_nearby_label] *)

Inductive Zone := Above | Left.

(** [visitor_label]: the entry a text run adds to [nearby_text], for the
    rectangle [[x1, y1, x2, y2]] as given. *)
Definition visitor_label (rect : Rect) (run : TextRun)
  : option (Zone * Q * string) :=
  let text := PyStr.strip (run_text run) in
  if (String.length text <? 2)%nat then None
  else
    let tx := run_x run in
    let ty := run_y run in
    if Qlt_bool (rx1 rect - 10) tx && Qlt_bool tx (rx2 rect + 10) &&
       (Qlt_bool (ry2 rect) ty && Qlt_bool ty (ry2 rect + 40))
    then Some (Above, ty, text)
    else if Qlt_bool (ry1 rect - 5) ty && Qlt_bool ty (ry2 rect + 15) &&
            (Qlt_bool (rx1 rect - 250) tx && Qlt_bool tx (rx1 rect))
    then Some (Left, tx, text)
    else None.

(** [l.sort(key=lambda x: x[1])]: a stable sort by ascending key. *)
Fixpoint insert_asc (h : Q * string) (l : list (Q * string)) : list (Q * string) :=
  match l with
  | [] => [h]
  | h' :: l' =>
      if Qle_bool (fst h) (fst h') then h :: l else h' :: insert_asc h l'
  end.

Definition sort_asc (l : list (Q * string)) : list (Q * string) :=
  foldr insert_asc [] l.

(** The entries of one zone, as (key, text). *)
Definition matches (zone : Zone) (nearby_text : list (Zone * Q * string))
  : list (Q * string) :=
  omap (fun e =>
          match e, zone with
          | (Above, k, t), Above => Some (k, t)
          | (Left, k, t), Left => Some (k, t)
          | _, _ => None
          end) nearby_text.

Definition first_text (l : list (Q * string)) : option string :=
  snd <$> head l.

(** [find_nearby_label(page, rect)] for a rectangle that is there. *)
Definition find_nearby_label (page : Page) (rect : Rect) : string :=
  let nearby_text := omap (visitor_label rect) (page_runs page) in
  match nearby_text with
  | [] => ""
  | _ =>
      let w := (rx2 rect - rx1 rect)%Q in
      let h := (ry2 rect - ry1 rect)%Q in
      let is_checkbox := Qlt_bool w 20 && Qlt_bool h 20 in
      let above_matches := matches Above nearby_text in
      let left_matches := matches Left nearby_text in
      match (if is_checkbox then first_text (Main.sort_desc left_matches)
             else None) with
      | Some t => t
      | None =>
          match first_text (sort_asc above_matches) with
          | Some t => t
          | None =>
              match first_text (Main.sort_desc left_matches) with
              | Some t => t
              | None => ""
              end
          end
      end
  end.

(** *** [scan_for_static_fields] *)

Definition keywords : list string :=
  [ "Name"; "Date"; "Signature"; "Account"; "Address"; "Phone"; "Mobile";
    "Email"; "SSN"; "Title"; "City"; "State"; "Zip"; "Country";
    "Nationality"; "Gender"; "Sex"; "Marital"; "Income"; "Occupation";
    "Employer"; "Reference"; "Beneficiary"; "Relationship"; "Tax"; "ID";
    "Number"; "No."; "Code"; "Amount"; "Value" ].

(** A page as the scanner reads it: the media box size and the text runs. *)
Record StaticPage := { sp_width : Q; sp_height : Q; sp_runs : list TextRun }.

(** An extracted item: [text], [x], [y], [w]. *)
Record Item := { it_text : string; it_x : Q; it_y : Q; it_w : Q }.

(** [visitor_body]; the width estimate uses the length of the text as
    given and [fontSize or 10]. *)
Definition visitor_body (run : TextRun) : option Item :=
  if (1 <? String.length (PyStr.strip (run_text run)))%nat then
    Some {| it_text := PyStr.strip (run_text run);
            it_x := run_x run; it_y := run_y run;
            it_w := inject_Z (Z.of_nat (String.length (run_text run)))
                    * (if Qeq_bool (run_font_size run) 0 then 10
                       else run_font_size run)
                    * 0.5 |}
  else None.

(** [s.endswith(':')] *)
Fixpoint ends_with_colon (s : string) : bool :=
  match s with
  | EmptyString => false
  | String c EmptyString => Ascii.eqb c ":"
  | String _ s' => ends_with_colon s'
  end.

(** [int(x)] on a float: the integer part, towards zero. *)
Definition py_int (x : Q) : Z :=
  if Qle_bool 0 x then Qfloor x else Qceiling x.

Definition clean_text (item : Item) : string :=
  PyStr.strip (PyStr.replace ":" "" (it_text item)).

(** The three heuristics that make an item a label candidate. *)
Definition is_label (item : Item) : bool :=
  let clean := clean_text item in
  ends_with_colon (PyStr.strip (it_text item)) ||
  existsb (fun k => PyStr.contains (PyStr.lower k) (PyStr.lower clean)) keywords ||
  (PyStr.isupper clean && (3 <? String.length clean)%nat).

Definition static_field_id (item : Item) (page_num : nat) : string :=
  PyStr.filter_chars
    (fun c => PyStr.is_alnum c || Ascii.eqb c "_")
    ("static_" +:+ clean_text item +:+ "_" +:+ pretty page_num +:+ "_"
       +:+ pretty (py_int (it_x item))).

(** The body of the loop over the items of page [page_num] (from 0):
    nothing for an item that is no label or whose write zone would start
    beyond the page, one field otherwise; the division for [rect_pct]
    raises on a page without width or height. *)
Definition static_field (page : StaticPage) (page_num : nat) (item : Item)
  : option (list Field) :=
  if is_label item then
    let target_x := (it_x item + it_w item + 5)%Q in
    let target_y := it_y item in
    if Qlt_bool (sp_width page - 20) target_x then Some []
    else if Qeq_bool (sp_width page) 0 || Qeq_bool (sp_height page) 0 then None
    else
      let field_id := static_field_id item page_num in
      Some [ {| f_id := field_id; f_label := clean_text item; f_name := field_id;
                f_type := "text"; f_section := "General";
                f_context := "Page " +:+ pretty (S page_num)
                             +:+ ". Label detected: '" +:+ clean_text item +:+ "'";
                f_placeholder := None; f_source := "static_scan";
                f_rect := Some {| rx1 := target_x; ry1 := target_y;
                                  rx2 := target_x + 150; ry2 := target_y + 15 |};
                f_page := S page_num; f_export_options := None;
                f_original_name := None; f_mapping_status := None;
                f_confidence := None; f_mapping_source := None;
                f_mapping_proposal := None; f_reviewed_by := None |} ]
  else Some [].

Definition scan_page (page_num : nat) (page : StaticPage) : option (list Field) :=
  @concat Field <$> mapM (static_field page page_num) (omap visitor_body (sp_runs page)).

(** [scan_for_static_fields] on the pages of the document. *)
Definition scan_for_static_fields (pages : list StaticPage) : option (list Field) :=
  @concat Field <$> mapM (fun it => scan_page it.1 it.2) (Rag.enumerate pages).

End Discovery.

(** ** canonical_schema.py: the canonical schema store *)

Module Schema.

(** An exception, by the name of its class. *)
Inductive Outcome (A : Type) :=
| Ok (a : A)
| Raise (exception : string).
Arguments Ok {A} a.
Arguments Raise {A} exception.

(** The dataclass [CanonicalField]. *)
Record CanonicalField := {
  field_id : string;
  canonical_name : string;
  display_label : string;
  description : string;
  synonyms : list string;
  data_type : string;
  section : string;
  required_flag : bool;
  pii_sensitivity_level : string;
  policy_tags : list string;
  validation_regex : option string;
  min_value : option Q;
  max_value : option Q;
  allowed_values : option (list string);
  example_values : option (list string);
  mapping_rationale : option string }.

(** [to_embedding_string] *)
Definition to_embedding_string (f : CanonicalField) : string :=
  display_label f +:+ ": " +:+ description f +:+ ". Synonyms: "
    +:+ PyStr.join ", " (synonyms f) +:+ ". Section: " +:+ section f +:+ ".".

(** A JSON object of the schema file, or the dict handed to [add_field]:
    every key may be missing. *)
Record Item := {
  i_field_id : option string;
  i_canonical_name : option string;
  i_display_label : option string;
  i_description : option string;
  i_synonyms : option (list string);
  i_data_type : option string;
  i_section : option string;
  i_required_flag : option bool;
  i_pii_sensitivity_level : option string;
  i_policy_tags : option (list string);
  i_validation_regex : option string;
  i_min_value : option Q;
  i_max_value : option Q;
  i_allowed_values : option (list string);
  i_example_values : option (list string);
  i_mapping_rationale : option string }.

(** [item[key]] *)
Definition required {A B} (v : option A) (k : A -> Outcome B) : Outcome B :=
  match v with
  | Some a => k a
  | None => Raise "KeyError"
  end.


(** The constructor call of [add_field]. *)
Definition field_of_new_item (field_data : Item) : Outcome CanonicalField :=
  required (i_field_id field_data) (fun fid =>
  required (i_canonical_name field_data) (fun cname =>
  Ok {| field_id := fid; canonical_name := cname;
        display_label := default cname (i_display_label field_data);
        description := default "" (i_description field_data);
        synonyms := default [] (i_synonyms field_data);
        data_type := default "string" (i_data_type field_data);
        section := default "General" (i_section field_data);
        required_flag := default false (i_required_flag field_data);
        pii_sensitivity_level :=
          default "Low" (i_pii_sensitivity_level field_data);
        policy_tags := default [] (i_policy_tags field_data);
        validation_regex := i_validation_regex field_data;
        min_value := i_min_value field_data;
        max_value := i_max_value field_data;
        allowed_values := i_allowed_values field_data;
        example_values := i_example_values field_data;
        mapping_rationale := i_mapping_rationale field_data |})).

(** [{k: v for k, v in vars(f).items() if v is not None}] *)
Definition item_of_field (f : CanonicalField) : Item :=
  {| i_field_id := Some (field_id f);
     i_canonical_name := Some (canonical_name f);
     i_display_label := Some (display_label f);
     i_description := Some (description f);
     i_synonyms := Some (synonyms f);
     i_data_type := Some (data_type f);
     i_section := Some (section f);
     i_required_flag := Some (required_flag f);
     i_pii_sensitivity_level := Some (pii_sensitivity_level f);
     i_policy_tags := Some (policy_tags f);
     i_validation_regex := validation_regex f;
     i_min_value := min_value f; i_max_value := max_value f;
     i_allowed_values := allowed_values f;
     i_example_values := example_values f;
     i_mapping_rationale := mapping_rationale f |}.

(** A Python dict with string keys, in insertion order. *)
Definition Dict (V : Type) : Type := list (string * V).

Fixpoint dict_get {V} (d : Dict V) (k : string) : option V :=
  match d with
  | [] => None
  | (k', v) :: rest => if bool_decide (k' = k) then Some v else dict_get rest k
  end.

(** [d[k] = v]: the value is replaced where the key is, a new key goes to
    the end. *)
Fixpoint dict_set {V} (d : Dict V) (k : string) (v : V) : Dict V :=
  match d with
  | [] => [(k, v)]
  | (k', v') :: rest =>
      if bool_decide (k' = k) then (k', v) :: rest
      else (k', v') :: dict_set rest k v
  end.

(** [del d[k]] *)
Definition dict_del {V} (d : Dict V) (k : string) : Dict V :=
  filter (fun kv => kv.1 <> k) d.

(** [CanonicalSchemaService]: the [fields] dict and the content of the
    schema file ([None] when there is no file). *)
Record Service := {
  fields : Dict CanonicalField;
  schema_file : option (list Item) }.



Definition get_field (self : Service) (fid : string) : option CanonicalField :=
  dict_get (fields self) fid.

Definition get_all_fields (self : Service) : list CanonicalField :=
  (fields self).*2.

(** [save_schema] *)
Definition save_schema (self : Service) : Service :=
  {| fields := fields self;
     schema_file := Some (item_of_field <$> get_all_fields self) |}.

(** [add_field(field_data)]: the new field and the service after it. *)
Definition add_field (self : Service) (field_data : Item)
  : Outcome (CanonicalField * Service) :=
  required (i_field_id field_data) (fun fid =>
    if bool_decide (is_Some (dict_get (fields self) fid))
    then Raise "ValueError"
    else
      match field_of_new_item field_data with
      | Ok f =>
          Ok (f, save_schema {| fields := dict_set (fields self) (field_id f) f;
                                schema_file := schema_file self |})
      | Raise e => Raise e
      end).

(** One entry of the [updates] dict of [update_field], by what
    [hasattr(field, k)] finds for its key: one of the sixteen attributes of
    the dataclass, with a new value of the declared type; a name the object
    does not have, which the loop skips; or a name the object has besides
    its fields: a method ([to_embedding_string]) or a dunder ([__dict__],
    [__class__], ...). *)
Inductive Assign :=
| set_field_id (v : string)
| set_canonical_name (v : string)
| set_display_label (v : string)
| set_description (v : string)
| set_synonyms (v : list string)
| set_data_type (v : string)
| set_section (v : string)
| set_required_flag (v : bool)
| set_pii_sensitivity_level (v : string)
| set_policy_tags (v : list string)
| set_validation_regex (v : option string)
| set_min_value (v : option Q)
| set_max_value (v : option Q)
| set_allowed_values (v : option (list string))
| set_example_values (v : option (list string))
| set_mapping_rationale (v : option string)
| no_such_attribute (k : string)
| other_attribute (k : string).

(** The updates this embedding follows: all but those of the third kind. *)
Definition embedded (a : Assign) : bool :=
  match a with other_attribute _ => false | _ => true end.

(** [if hasattr(field, k): setattr(field, k, v)].  For a name of the third
    kind the assignment goes through as well: by the name it stores a new
    instance attribute (which [save_schema] then writes to the file),
    replaces the instance dict or raises [TypeError].  None of this is
    embedded: the result is [None] there. *)
Definition setattr (f : CanonicalField) (a : Assign) : option CanonicalField :=
  let mk fid cn dl de sy dt se rq pi pt vr mn mx al ex mr :=
    Some
      {| field_id := fid; canonical_name := cn; display_label := dl;
         description := de; synonyms := sy; data_type := dt; section := se;
         required_flag := rq; pii_sensitivity_level := pi; policy_tags := pt;
         validation_regex := vr; min_value := mn; max_value := mx;
         allowed_values := al; example_values := ex;
         mapping_rationale := mr |} in
  let '(Build_CanonicalField fid cn dl de sy dt se rq pi pt vr mn mx al ex mr) := f in
  match a with
  | set_field_id v => mk v cn dl de sy dt se rq pi pt vr mn mx al ex mr
  | set_canonical_name v => mk fid v dl de sy dt se rq pi pt vr mn mx al ex mr
  | set_display_label v => mk fid cn v de sy dt se rq pi pt vr mn mx al ex mr
  | set_description v => mk fid cn dl v sy dt se rq pi pt vr mn mx al ex mr
  | set_synonyms v => mk fid cn dl de v dt se rq pi pt vr mn mx al ex mr
  | set_data_type v => mk fid cn dl de sy v se rq pi pt vr mn mx al ex mr
  | set_section v => mk fid cn dl de sy dt v rq pi pt vr mn mx al ex mr
  | set_required_flag v => mk fid cn dl de sy dt se v pi pt vr mn mx al ex mr
  | set_pii_sensitivity_level v => mk fid cn dl de sy dt se rq v pt vr mn mx al ex mr
  | set_policy_tags v => mk fid cn dl de sy dt se rq pi v vr mn mx al ex mr
  | set_validation_regex v => mk fid cn dl de sy dt se rq pi pt v mn mx al ex mr
  | set_min_value v => mk fid cn dl de sy dt se rq pi pt vr v mx al ex mr
  | set_max_value v => mk fid cn dl de sy dt se rq pi pt vr mn v al ex mr
  | set_allowed_values v => mk fid cn dl de sy dt se rq pi pt vr mn mx v ex mr
  | set_example_values v => mk fid cn dl de sy dt se rq pi pt vr mn mx al v mr
  | set_mapping_rationale v => mk fid cn dl de sy dt se rq pi pt vr mn mx al ex v
  | no_such_attribute _ => Some f
  | other_attribute _ => None
  end.

(** The loop over [updates.items()]. *)
Definition apply_updates (field : CanonicalField) (updates : list Assign)
  : option CanonicalField :=
  foldl (fun acc a => acc ≫= fun f => setattr f a) (Some field) updates.

(** [update_field(field_id, updates)]: the field is changed in place, under
    the key it already has.  The result is [None] where the updates leave
    the embedding (see [setattr]); an unknown id raises before the updates
    are looked at. *)
Definition update_field (self : Service) (fid : string) (updates : list Assign)
  : option (Outcome (CanonicalField * Service)) :=
  match dict_get (fields self) fid with
  | None => Some (Raise "KeyError")
  | Some field =>
      field' ← apply_updates field updates;
      Some (Ok (field', save_schema {| fields := dict_set (fields self) fid field';
                                       schema_file := schema_file self |}))
  end.

(** [delete_field(field_id)] *)
Definition delete_field (self : Service) (fid : string) : Service :=
  if bool_decide (is_Some (dict_get (fields self) fid))
  then save_schema {| fields := dict_del (fields self) fid;
                      schema_file := schema_file self |}
  else self.

(** An update that assigns the attribute [field_id]. *)
Definition assigns_field_id (a : Assign) : bool :=
  match a with set_field_id _ => true | _ => false end.

(** The dict keeps every field under its own id, once. *)
Definition keyed (self : Service) : Prop :=
  Forall (fun kv => kv.1 = field_id kv.2) (fields self) /\
  NoDup (fields self).*1.

End Schema.

(** ** rag_service.py: validation and enrichment of an application *)

Module Validation.

(** A calendar date: year, month, day. *)
Definition Date : Type := Z * Z * Z.

(** What the method takes from outside: today's date, the parser behind
    [datetime.strptime(s, "%Y-%m-%d")] ([None] for a [ValueError]) and the
    [documents] that the policy collection returns for a query. *)
Record Env := {
  today : Date;
  strptime : string -> option Date;
  policy_query : list string -> nat -> list (list string) }.

(** [(a, b) < (c, d)] on pairs of numbers. *)
Definition pair_lt (p q : Z * Z) : bool :=
  (p.1 <? q.1)%Z || ((p.1 =? q.1)%Z && (p.2 <? q.2)%Z).

(** One date is on or before another. *)
Definition on_or_before (a b : Date) : Prop :=
  let '(y1, m1, d1) := a in
  let '(y2, m2, d2) := b in
  (y1 < y2 \/ (y1 = y2 /\ (m1 < m2 \/ (m1 = m2 /\ d1 <= d2))))%Z.

(** [calculate_age(dob_str)] *)
Definition calculate_age (env : Env) (dob_str : string) : Z :=
  match strptime env dob_str with
  | Some (dob_year, dob_month, dob_day) =>
      let '(year, month, day) := today env in
      (year - dob_year
       - (if pair_lt (month, day) (dob_month, dob_day) then 1 else 0))%Z
  | None => (-1)%Z
  end.

(** [query_knowledge_base(query_text, n_results=2)] *)
Definition query_knowledge_base (svc : Rag.RealRAGService) (env : Env)
    (query_text : string) : list string :=
  if Rag.is_ready svc then
    match policy_query env [query_text] 2 with
    | first :: _ => first
    | [] => []
    end
  else [].

(** A value of the JSON payload: a string, or a value of another type, of
    which the code looks at the truth value and at [str(val)] where it
    looks at all. *)
Inductive Value :=
| Str (s : string)
| Other (truth : bool) (rendered : string).

(** The payload: an ordered dict with string keys. *)
Definition Payload : Type := list (string * Value).

(** [bool(val)] and [str(val)] *)
Definition truthy (v : Value) : bool :=
  match v with
  | Str s => negb (bool_decide (s = ""))
  | Other truth _ => truth
  end.

Definition str (v : Value) : string :=
  match v with
  | Str s => s
  | Other _ rendered => rendered
  end.

(** [data.get(k)] *)
Fixpoint payload_get (data : Payload) (k : string) : option Value :=
  match data with
  | [] => None
  | (k', v) :: rest => if bool_decide (k' = k) then Some v else payload_get rest k
  end.

(** [data[k] = v] *)
Fixpoint payload_set (data : Payload) (k : string) (v : Value) : Payload :=
  match data with
  | [] => [(k, v)]
  | (k', v') :: rest =>
      if bool_decide (k' = k) then (k', v) :: rest
      else (k', v') :: payload_set rest k v
  end.

(** [next((k for k in data.keys() if p(k)), None)] and then [data[k]]:
    the value under the first key that [p] picks. *)
Definition picked_value (p : string -> bool) (data : Payload) : option Value :=
  snd <$> head (filter (fun kv => p kv.1 = true) data).

Definition is_dob_key (k : string) : bool :=
  PyStr.contains "dob" (PyStr.lower k) || PyStr.contains "birth" (PyStr.lower k).

Definition is_account_key (k : string) : bool :=
  PyStr.contains "account" (PyStr.lower k) && PyStr.contains "number" (PyStr.lower k).

Definition newline : string := String (Ascii.ascii_of_nat 10) EmptyString.

(** [re.match("^[a-zA-Z0-9]*$", s)]: letters and digits only, where [$]
    also matches before one final line break. *)
Fixpoint alnum_match (s : string) : bool :=
  match s with
  | EmptyString => true
  | String c s' =>
      if PyStr.is_alnum c then alnum_match s'
      else bool_decide (String c s' = newline)
  end.

(** The names of the required fields that the data lacks:
    [not val or not str(val).strip()]. *)
Definition is_missing (data : Payload) (f : Schema.CanonicalField) : bool :=
  match payload_get data (Schema.field_id f) with
  | Some v => negb (truthy v) || bool_decide (PyStr.strip (str v) = "")
  | None => true
  end.

Definition missing_required (all_fields : list Schema.CanonicalField)
    (data : Payload) : list string :=
  Schema.canonical_name <$>
    filter (fun f => Schema.required_flag f = true /\ is_missing data f = true)
           all_fields.

(** The log lines of the retrieval step. *)
Definition retrieval_logs (retrieved_docs : list string) : list string :=
  match retrieved_docs with
  | [] => ["RAG: No specific policy documents found (using default rules)."]
  | _ =>
      ("RAG: Found " +:+ pretty (length retrieved_docs)
         +:+ " relevant policy documents.")
      :: imap (fun i doc =>
                 "RAG: [Context " +:+ pretty (S i) +:+ "] "
                   +:+ PyStr.replace newline " " (String.substring 0 100 doc)
                   +:+ "...")
              retrieved_docs
  end.

(** The value that a rule reads as a string: nothing to check when the key
    is missing or its value is falsy, the string when the value is one, and
    a [TypeError] when a truthy value of another type reaches [strptime],
    [len] or [re.match]. *)
Inductive Checked :=
| Skip
| Text (s : string)
| NotText.

Definition checked (v : option Value) : Checked :=
  match v with
  | None => Skip
  | Some (Str "") => Skip
  | Some (Str s) => Text s
  | Some (Other false _) => Skip
  | Some (Other true _) => NotText
  end.

(** The age rule: [inl] with the log lines it adds when the method goes
    on, [inr] with the lines it adds when it rejects, [None] when
    [calculate_age] raises. *)
Definition age_rule (env : Env) (data : Payload)
  : option (list string + list string) :=
  match checked (picked_value is_dob_key data) with
  | Skip => Some (inl [])
  | NotText => None
  | Text dob =>
      let age := calculate_age env dob in
      if (age <? 0)%Z then Some (inl [])
      else if (age <? 18)%Z then
        Some (inr ["RAG: CRITICAL FAILURE - Applicant is " +:+ pretty age
                     +:+ ". Policy 'Global_KYC' requires 18+."])
      else Some (inl ["RAG: Age " +:+ pretty age
                        +:+ " verified against retrieved policy."])
  end.

(** The account-number rule, in the same way. *)
Definition account_rule (data : Payload)
  : option (list string + list string) :=
  match checked (picked_value is_account_key data) with
  | Skip => Some (inl [])
  | NotText => None
  | Text acc_num =>
      let unusual :=
        if (8 <=? String.length acc_num)%nat && (String.length acc_num <=? 12)%nat
        then []
        else ["RAG: WARNING - Account Number length unusual ("
                +:+ pretty (String.length acc_num) +:+ ")."] in
      if alnum_match acc_num
      then Some (inl (unusual ++ ["RAG: Account Number format verified."]))
      else Some (inr (unusual
                      ++ ["RAG: ERROR - Account Number must be alphanumeric."]))
  end.

(** [data.get('nationality', '').lower()]: an [AttributeError] when the
    value is there and is no string. *)
Definition nationality_lower (data : Payload) : option string :=
  match payload_get data "nationality" with
  | None => Some ""
  | Some (Str s) => Some (PyStr.lower s)
  | Some (Other _ _) => None
  end.

(** [data.get('country') == 'US'] *)
Definition country_is_US (data : Payload) : bool :=
  match payload_get data "country" with
  | Some (Str s) => bool_decide (s = "US")
  | _ => false
  end.

(** [validate_and_enrich(data)]: the verdict, the data and the log, or
    [None] when the method raises. *)
Definition validate_and_enrich (svc : Rag.RealRAGService) (env : Env)
    (all_fields : list Schema.CanonicalField) (data : Payload)
  : option (bool * Payload * list string) :=
  let query :=
    "Account opening requirements for "
      +:+ default "general" (str <$> payload_get data "nationality")
      +:+ " citizen age "
      +:+ default "unknown" (str <$> payload_get data "age") in
  let logs0 :=
    [ "RAG: System Initialized (Real Vector DB Mode).";
      "RAG: Searching Knowledge Base for: '" +:+ query +:+ "'..." ]
    ++ retrieval_logs (query_knowledge_base svc env query) in
  let logs1 :=
    match missing_required all_fields data with
    | [] => logs0
    | missing =>
        logs0 ++ [ "RAG: WARNING - Missing required fields: "
                     +:+ PyStr.join ", " missing ]
    end in
  age ← age_rule env data;
  match age with
  | inr failure => Some (false, data, logs1 ++ failure)
  | inl age_logs =>
      account ← account_rule data;
      match account with
      | inr failure => Some (false, data, (logs1 ++ age_logs) ++ failure)
      | inl account_logs =>
          nationality ← nationality_lower data;
          let us :=
            bool_decide (nationality = "us") || country_is_US data in
          Some (true,
                payload_set data "fatca_status"
                  (Str (if us then "W-9" else "W-8BEN")),
                ((logs1 ++ age_logs) ++ account_logs)
                ++ [ if us
                     then "RAG: Enriched FATCA Status = 'W-9' (based on US Nationality)."
                     else "RAG: Enriched FATCA Status = 'W-8BEN'.";
                     "RAG: Validation & Enrichment Complete." ])
      end
  end.

End Validation.

(** ** Parts of a field record *)

Module Frame.

(** The descriptor part of a field, which the mapping engine never writes. *)
Definition same_descriptor (f f' : Field) : Prop :=
  f_id f' = f_id f /\ f_label f' = f_label f /\ f_type f' = f_type f /\
  f_section f' = f_section f /\ f_context f' = f_context f /\
  f_placeholder f' = f_placeholder f /\ f_source f' = f_source f /\
  f_rect f' = f_rect f /\ f_page f' = f_page f /\
  f_export_options f' = f_export_options f.

(** The mapping part of a field is filled in. *)
Definition is_mapped (f : Field) : Prop :=
  is_Some (f_mapping_status f) /\ is_Some (f_confidence f) /\
  is_Some (f_mapping_source f) /\ is_Some (f_mapping_proposal f).

End Frame.

(** ** More sample data *)

Module Samples.

(** The small form of [Fixtures] after a human has corrected the mapping of
    [txt_dob], and the result of the next mapping pass over it. *)
Definition form_overridden : World :=
  default Fixtures.empty_world
    (snd <$> Engine.update_mapping Fixtures.mapped_world "form.pdf" "txt_dob"
               "birth_date_v2" "manual_override" "human").

Definition remapped_fields : list Field :=
  default []
    (fst <$> Engine.map_template_fields (Fixtures.service true) form_overridden
               "form.pdf" Fixtures.form_fields).

Definition remapped_world : World :=
  default Fixtures.empty_world
    (snd <$> Engine.map_template_fields (Fixtures.service true) form_overridden
               "form.pdf" Fixtures.form_fields).

(** The form with the header, stored at time 3 and not analysed yet, and
    what its first analysis returns. *)
Definition header_world : World :=
  {| w_now := 9;
     w_templates := {[ "templates/form.pdf" := (3%nat, Fixtures.header_pdf) ]};
     w_mapping_files := ∅;
     w_corrections := []; w_run_history := []; w_snapshots := ∅;
     w_filled := ∅; w_events := [] |}.

Definition analysed_fields : list Field :=
  default []
    (fst <$> Main.analyze_template Fixtures.coords_scanners
               (Fixtures.service true) header_world "templates/form.pdf").

Definition analysed_world : World :=
  default Fixtures.empty_world
    (snd <$> Main.analyze_template Fixtures.coords_scanners
               (Fixtures.service true) header_world "templates/form.pdf").

(** A flat page of letter size with the label [Name:] printed at (72, 700)
    in 12 points. *)
Definition name_run : TextRun :=
  {| run_text := "Name:"; run_x := 72; run_y := 700;
     run_base_font := Some "Helvetica"; run_font_size := 12 |}.

Definition flat_pages : list Discovery.StaticPage :=
  [ {| Discovery.sp_width := 612; Discovery.sp_height := 792;
       Discovery.sp_runs := [name_run] |} ].

Definition flat_fields : list Field :=
  default [] (Discovery.scan_for_static_fields flat_pages).

(** A schema store with two fields, and the record of a third. *)
Definition schema_field (fid cname dtype : string) (req : bool)
  : Schema.CanonicalField :=
  {| Schema.field_id := fid; Schema.canonical_name := cname;
     Schema.display_label := cname; Schema.description := "";
     Schema.synonyms := []; Schema.data_type := dtype;
     Schema.section := "PERSONAL"; Schema.required_flag := req;
     Schema.pii_sensitivity_level := "Medium"; Schema.policy_tags := [];
     Schema.validation_regex := None; Schema.min_value := None;
     Schema.max_value := None; Schema.allowed_values := None;
     Schema.example_values := None; Schema.mapping_rationale := None |}.

Definition schema : Schema.Service :=
  {| Schema.fields :=
       [ ("first_name", schema_field "first_name" "First Name" "text" true);
         ("date_of_birth", schema_field "date_of_birth" "Date of Birth" "date" false) ];
     Schema.schema_file := None |}.

Definition loan_amount : Schema.Item :=
  {| Schema.i_field_id := Some "loan_amount_requested";
     Schema.i_canonical_name := Some "Loan Amount";
     Schema.i_display_label := None; Schema.i_description := None;
     Schema.i_synonyms := Some ["Requested Amount"; "Facility Amount"];
     Schema.i_data_type := Some "number";
     Schema.i_section := Some "LOAN_DETAILS";
     Schema.i_required_flag := None; Schema.i_pii_sensitivity_level := None;
     Schema.i_policy_tags := None; Schema.i_validation_regex := None;
     Schema.i_min_value := None; Schema.i_max_value := None;
     Schema.i_allowed_values := None; Schema.i_example_values := None;
     Schema.i_mapping_rationale := None |}.

(** The small form of [Fixtures] as a document with a form root and its
    two text widgets, stored at time 3, with the mapping file of its first
    analysis (written at time 5). *)
Definition form_pdf : Pdf :=
  {| pdf_pages := [ {| page_runs := [] |} ]; pdf_has_acroform := true;
     pdf_fields :=
       Some [ ("txt_dob",
               {| ff_FT := Some "/Tx"; ff_AP_N := ApStates []; ff_Opt := None |});
              ("cust",
               {| ff_FT := Some "/Tx"; ff_AP_N := ApStates []; ff_Opt := None |}) ] |}.

Definition filed_world : World :=
  {| w_now := 9;
     w_templates := {[ "templates/form.pdf" := (3%nat, form_pdf) ]};
     w_mapping_files := w_mapping_files Fixtures.mapped_world;
     w_corrections := []; w_run_history := []; w_snapshots := ∅;
     w_filled := ∅; w_events := [] |}.



(** A flat one-page document on which the static scan finds the write zone
    [[100, 700, 250, 715]] of the label [First Name]. *)
Definition name_zone : Field :=
  {| f_id := "static_FirstName_0_39"; f_label := "First Name";
     f_name := "static_FirstName_0_39"; f_type := "text";
     f_section := "General";
     f_context := "Page 1. Label detected: 'First Name'";
     f_placeholder := None; f_source := "static_scan";
     f_rect := Some Fixtures.name_rect; f_page := 1;
     f_export_options := None; f_original_name := None;
     f_mapping_status := None; f_confidence := None;
     f_mapping_source := None; f_mapping_proposal := None;
     f_reviewed_by := None |}.

Definition flat_scanners : Main.Scanners :=
  {| Main.extract_form_fields_with_coords := fun _ => ∅;
     Main.find_nearby_label := fun _ _ => "";
     Main.scan_for_static_fields := fun _ => [name_zone] |}.

Definition flat_world : World :=
  {| w_now := 9;
     w_templates := {[ "templates/flat.pdf" := (3%nat, Fixtures.empty_pdf) ]};
     w_mapping_files := ∅;
     w_corrections := []; w_run_history := []; w_snapshots := ∅;
     w_filled := ∅; w_events := [] |}.

(** An application of a US national. *)
Definition applicant : Validation.Payload :=
  [ ("name", Validation.Str "Ann Lee");
    ("nationality", Validation.Str "US");
    ("account_number", Validation.Str "AB12345678") ].

(** The 14th of June 2026, with a parser that knows one date. *)
Definition env : Validation.Env :=
  {| Validation.today := (2026, 6, 14)%Z;
     Validation.strptime :=
       fun s => if bool_decide (s = "2010-06-15")
                then Some (2010, 6, 15)%Z else None;
     Validation.policy_query := fun _ _ => [] |}.

End Samples.

(** * Properties *)

(** ** Comparisons *)

Lemma Qlt_bool_iff (x y : Q) : Qlt_bool x y = true <-> (x < y)%Q.
Proof.
  unfold Qlt_bool. rewrite negb_true_iff.
  split.
  - intros H. apply Qnot_le_lt. intros Hle.
    apply Qle_bool_iff in Hle. congruence.
  - intros H. destruct (Qle_bool y x) eqn:E; [|reflexivity].
    apply Qle_bool_iff in E. exfalso. exact (Qlt_not_le _ _ H E).
Qed.

Lemma Qlt_bool_false_iff (x y : Q) : Qlt_bool x y = false <-> (y <= x)%Q.
Proof.
  unfold Qlt_bool. rewrite negb_false_iff. apply Qle_bool_iff.
Qed.

(** ** Confidence tiers (mapping_engine.map_template_fields, second loop) *)

Section Tiering.

Variable field : Field.

Lemma tier_high (top : Candidate) (rest : list Candidate) :
  (c_score top < 0.40)%Q ->
  Engine.tier (top :: rest) =
    (Some (md_field_id (c_metadata top)), "High", "auto_embedding_strong",
     "auto", StrongMatch (c_score top)).
Proof.
  intros H. apply Qlt_bool_iff in H. simpl. by rewrite H.
Qed.

Lemma tier_medium (top : Candidate) (rest : list Candidate) :
  (0.40 <= c_score top)%Q -> (c_score top < 0.75)%Q ->
  exists note,
    Engine.tier (top :: rest) =
      (Some (md_field_id (c_metadata top)), "Medium", "auto_embedding_weak",
       "pending_review", LikelyMatch (c_score top) note).
Proof.
  intros H1 H2. apply Qlt_bool_false_iff in H1. apply Qlt_bool_iff in H2.
  simpl. rewrite H1, H2. eauto.
Qed.

Lemma tier_low (top : Candidate) (rest : list Candidate) :
  (0.75 <= c_score top)%Q ->
  Engine.tier (top :: rest) =
    (None, "Low", "Unmapped", "suggest_new", WeakMatch (c_score top)).
Proof.
  intros H.
  assert (H1 : (0.40 <= c_score top)%Q).
  { eapply Qle_trans; [|exact H]. by vm_compute. }
  apply Qlt_bool_false_iff in H, H1. simpl. by rewrite H1, H.
Qed.

(** The tiers on the body of the second loop. *)
Lemma apply_candidates_tiers :
  (forall top rest,
      (c_score top < 0.40)%Q ->
      let out := Engine.apply_candidates field (Some (top :: rest)) in
      f_confidence out = Some "High" /\ f_mapping_status out = Some "auto") /\
  (forall top rest,
      (c_score top == 0.40)%Q \/
      ((0.40 <= c_score top)%Q /\ (c_score top < 0.75)%Q) ->
      let out := Engine.apply_candidates field (Some (top :: rest)) in
      f_confidence out = Some "Medium" /\
      f_mapping_status out = Some "pending_review") /\
  (forall candidates,
      candidates = None \/ candidates = Some [] \/
      (exists top rest, candidates = Some (top :: rest) /\
                        (0.75 <= c_score top)%Q) ->
      let out := Engine.apply_candidates field candidates in
      f_mapping_status out = Some "suggest_new" /\
      (p_canonical_field_id <$> f_mapping_proposal out) = Some None /\
      f_name out = f_id field).
Proof.
  split; [|split].
  - intros top rest H out. subst out. unfold Engine.apply_candidates.
    cbv zeta. cbn [default from_option id]. rewrite (tier_high _ _ H). done.
  - intros top rest H out. subst out.
    assert (H' : (0.40 <= c_score top)%Q /\ (c_score top < 0.75)%Q).
    { destruct H as [H|H]; [|exact H].
      split.
      - rewrite H. apply Qle_refl.
      - rewrite H. by vm_compute. }
    destruct H' as [H1 H2].
    destruct (tier_medium top rest H1 H2) as [note Hn].
    unfold Engine.apply_candidates. cbv zeta. cbn [default from_option id].
    rewrite Hn. done.
  - intros candidates H out. subst out.
    destruct H as [-> | [-> | (top & rest & -> & H)]]; [done | done |].
    unfold Engine.apply_candidates. cbv zeta. cbn [default from_option id].
    rewrite (tier_low _ _ H). done.
Qed.

End Tiering.


(** ** Human corrections (mapping_engine.update_mapping) *)

Section UpdateMapping.

Variables (w : World) (template_id field_id canonical_id status user : string).

Local Abbreviation stored := (Engine.stored_mappings w template_id).

Lemma load_after_save (w0 : World) (fields : list Field) :
  Engine.load_saved_params (Engine.save_mappings w0 template_id fields) template_id
  = Some {| mf_template_id := template_id; mf_last_updated := w_now w0;
            mf_mappings := fields |}.
Proof.
  unfold Engine.load_saved_params, Engine.save_mappings. simpl.
  by rewrite lookup_insert_eq.
Qed.

(** C4.  When the located record carries a proposal [A] and the caller
    supplies [canonical_id], the call succeeds, appends exactly one
    correction entry [{ai_guess: A, human_correction: canonical_id}] if the
    two differ and none if they are equal, and stores the record with
    [name = canonical_id], the supplied status (whose default is
    [manual_override]), confidence [High] and source
    [manual_correction]. *)
Theorem update_mapping_logs_correction
    (i : nat) (found : Field) (proposal : Proposal) (A : string) :
  stored !! i = Some found ->
  Engine.record_key found = field_id ->
  (forall j g, stored !! j = Some g -> (j < i)%nat ->
               Engine.record_key g <> field_id) ->
  f_mapping_proposal found = Some proposal ->
  p_canonical_field_id proposal = Some A ->
  A <> "" ->
  exists w' found',
    Engine.update_mapping w template_id field_id canonical_id status user
      = Some (true, w') /\
    w_corrections w' =
      w_corrections w ++
        (if decide (A = canonical_id) then []
         else [ {| cr_timestamp := w_now w; cr_template := template_id;
                   cr_field_label := f_label found; cr_ai_guess := A;
                   cr_human_correction := canonical_id |} ]) /\
    (mf_mappings <$> Engine.load_saved_params w' template_id)
      = Some (<[i := found']> stored) /\
    f_name found' = canonical_id /\
    f_mapping_status found' = Some status /\
    f_confidence found' = Some "High" /\
    f_mapping_source found' = Some "manual_correction" /\
    Engine.default_status = "manual_override".
Proof.
  intros Hi Hkey Hfirst Hprop HA Hne.
  assert (Hfind : list_find (fun f => Engine.record_key f = field_id)
                    stored = Some (i, found)).
  { apply list_find_Some. split; [exact Hi|]. split; [exact Hkey|].
    intros j y Hj Hlt. by apply (Hfirst j y). }
  unfold Engine.update_mapping. cbv zeta. rewrite Hfind.
  unfold Engine.overwrite. rewrite Hprop. cbn [mbind option_bind].
  rewrite HA.
  assert (Htruthy : Engine.truthy (Some A) = true).
  { destruct A; [congruence | reflexivity]. }
  rewrite Htruthy. cbn [andb].
  eexists _, _. split; [reflexivity|].
  split.
  { destruct (decide (A = canonical_id)) as [->|Hd].
    - rewrite bool_decide_eq_true_2 by reflexivity. cbn [negb].
      simpl. by rewrite app_nil_r.
    - rewrite bool_decide_eq_false_2 by congruence. cbn [negb]. reflexivity. }
  split; [by rewrite load_after_save|].
  done.
Qed.

(** C10.  When no stored record is found by [field_id], the call raises
    nothing and returns [True]; the per-template mapping file is rewritten
    with the same mapping list, stamped with the current time both as
    [last_updated] and as modification time, and no correction is logged. *)
Theorem update_mapping_unknown_field :
  Forall (fun f => Engine.record_key f <> field_id) stored ->
  exists w',
    Engine.update_mapping w template_id field_id canonical_id status user
      = Some (true, w') /\
    w_mapping_files w' !! Engine.get_mapping_file_path template_id
      = Some (w_now w, {| mf_template_id := template_id;
                          mf_last_updated := w_now w;
                          mf_mappings := stored |}) /\
    w_corrections w' = w_corrections w.
Proof.
  intros Hnone.
  assert (Hfind : list_find (fun f => Engine.record_key f = field_id)
                    stored = None).
  { by apply list_find_None. }
  unfold Engine.update_mapping. cbv zeta. rewrite Hfind.
  eexists. split; [reflexivity|].
  split; [|reflexivity].
  unfold Engine.save_mappings. simpl. by rewrite lookup_insert_eq.
Qed.

End UpdateMapping.

(** A human replaces the automatic proposal [date_of_birth] of the field
    [txt_dob]: one correction is logged. *)
Lemma update_mapping_logs_correction_witness :
  exists w',
    Engine.update_mapping Fixtures.mapped_world "form.pdf" "txt_dob"
      "birth_date_v2" "manual_override" "human" = Some (true, w') /\
    length (w_corrections w') = 1%nat.
Proof.
  destruct (update_mapping_logs_correction Fixtures.mapped_world "form.pdf"
              "txt_dob" "birth_date_v2" "manual_override" "human" 0
              (default (Fixtures.text_field "" "")
                 (Engine.stored_mappings Fixtures.mapped_world "form.pdf" !! 0%nat))
              (default
                 {| p_canonical_field_id := None;
                    p_suggested_new_field_name := ""; p_confidence := "";
                    p_explanation := NoStrongMatch; p_candidates := [];
                    p_scores := [] |}
                 (Engine.stored_mappings Fixtures.mapped_world "form.pdf" !! 0%nat
                    ≫= f_mapping_proposal))
              "date_of_birth")
    as (w' & found' & Hrun & Hlog & _).
  - by vm_compute.
  - by vm_compute.
  - intros j g _ Hlt. lia.
  - by vm_compute.
  - by vm_compute.
  - discriminate.
  - exists w'. split; [exact Hrun|]. rewrite Hlog. reflexivity.
Defined.

(** An update for a field id that the stored list does not know. *)
Lemma update_mapping_unknown_field_witness :
  exists w',
    Engine.update_mapping Fixtures.mapped_world "form.pdf" "no_such_field"
      "first_name" "manual_override" "human" = Some (true, w') /\
    w_corrections w' = [].
Proof.
  destruct (update_mapping_unknown_field Fixtures.mapped_world "form.pdf"
              "no_such_field" "first_name" "manual_override" "human")
    as (w' & Hrun & _ & Hlog).
  - vm_compute. repeat constructor; discriminate.
  - exists w'. split; [exact Hrun|]. rewrite Hlog. reflexivity.
Defined.

(** ** The analysis cache (main.analyze_template) *)

(** C5.  When the mapping file of a template is newer than the template
    file and holds at least one mapping, [analyze_template] returns the
    stored list as it is and leaves the world untouched: no document is
    read, no search is made, no file is written. *)
Theorem analyze_template_cache_hit
    (sc : Main.Scanners) (svc : Rag.RealRAGService) (w : World)
    (template_path : string) (pdf_mtime map_mtime : nat) (pdf : Pdf)
    (saved : MappingFile) :
  w_templates w !! template_path = Some (pdf_mtime, pdf) ->
  w_mapping_files w !! Engine.get_mapping_file_path (Main.basename template_path)
    = Some (map_mtime, saved) ->
  (pdf_mtime < map_mtime)%nat ->
  mf_mappings saved <> [] ->
  Main.analyze_template sc svc w template_path = Some (mf_mappings saved, w).
Proof.
  intros Htpl Hmap Hnewer Hne.
  unfold Main.analyze_template, Main.cached_mappings.
  rewrite Hmap, Htpl. cbn [mbind option_bind].
  assert (H1 : (pdf_mtime <=? map_mtime)%nat = true) by (apply Nat.leb_le; lia).
  assert (H2 : (0 <? length (mf_mappings saved))%nat = true).
  { apply Nat.ltb_lt. destruct (mf_mappings saved); [done | simpl; lia]. }
  by rewrite H1, H2.
Qed.

Lemma analyze_template_cache_hit_witness :
  Main.analyze_template Fixtures.blind_scanners (Fixtures.service false)
    Fixtures.cached_world "templates/form.pdf"
  = Some (Engine.stored_mappings Fixtures.cached_world "form.pdf",
          Fixtures.cached_world).
Proof.
  apply (analyze_template_cache_hit Fixtures.blind_scanners
           (Fixtures.service false) Fixtures.cached_world "templates/form.pdf"
           3 5 Fixtures.empty_pdf
           {| mf_template_id := "form.pdf"; mf_last_updated := 5;
              mf_mappings := Engine.stored_mappings Fixtures.cached_world "form.pdf" |}).
  - by vm_compute.
  - by vm_compute.
  - lia.
  - by vm_compute.
Defined.

(** ** Overlay drawing (main.UniversalDocumentFiller) *)

Lemma py_min_Qmin (a b : Q) : (Main.py_min a b == Qmin a b)%Q.
Proof.
  unfold Main.py_min. destruct (Qlt_bool b a) eqn:E.
  - apply Qlt_bool_iff in E. symmetry. apply Q.min_r. by apply Qlt_le_weak.
  - apply Qlt_bool_false_iff in E. symmetry. by apply Q.min_l.
Qed.

(** What one iteration of the overlay loop draws for a field with a
    rectangle and a non-blank value. *)
Lemma overlay_cmd_geometry
    (record : Main.DataRecord) (field : Field) (rect : Rect) :
  f_rect field = Some rect ->
  PyStr.strip (Main.record_get record (f_name field) "") <> "" ->
  let x := Main.py_min (rx1 rect) (rx2 rect) in
  let y := Main.py_min (ry1 rect) (ry2 rect) in
  let w := Qabs (rx2 rect - rx1 rect) in
  let h := Qabs (ry2 rect - ry1 rect) in
  exists cmd,
    Main.overlay_cmd record field = Some cmd /\
    dc_clip cmd = (x, y, w, h) /\
    dc_text cmd = PyStr.strip (Main.record_get record (f_name field) "") /\
    dc_font cmd = "Helvetica" /\
    (dc_font_size cmd == Qmin 12 (h * 0.8))%Q /\
    (dc_x cmd == x + 2)%Q /\
    (dc_y cmd == y + h / 2 - dc_font_size cmd / 2 + 1)%Q /\
    ((dc_y cmd - y) - ((y + h) - (dc_y cmd + dc_font_size cmd)) == 2)%Q /\
    ((h == 15)%Q ->
     (dc_font_size cmd == 12)%Q /\ (dc_y cmd == y + 2.5)%Q /\
     (y < dc_y cmd)%Q /\ (dc_y cmd < y + h)%Q /\
     (dc_y cmd - y == 2.5)%Q /\
     ((y + h) - (dc_y cmd + dc_font_size cmd) == 0.5)%Q).
Proof.
  intros Hrect Hval x y w h.
  unfold Main.overlay_cmd. rewrite bool_decide_eq_false_2 by exact Hval.
  rewrite Hrect. cbn [mbind option_bind].
  fold x y w h. eexists. split; [reflexivity|].
  unfold Main._draw_text_field.
  cbn [dc_clip dc_text dc_font dc_font_size dc_x dc_y].
  split; [reflexivity|]. split; [reflexivity|]. split; [reflexivity|].
  split; [apply py_min_Qmin|]. split; [reflexivity|].
  split; [reflexivity|]. split; [field|].
  intros Hh.
  assert (Hfs : Main.py_min 12 (h * 0.8) = 12%Q).
  { unfold Main.py_min.
    assert (E : Qlt_bool (h * 0.8) 12 = false).
    { apply Qlt_bool_false_iff. rewrite Hh. by vm_compute. }
    by rewrite E. }
  rewrite Hfs. split; [reflexivity|].
  assert (Hy : (y + h / 2 - 12 / 2 + 1 == y + 2.5)%Q).
  { rewrite Hh. field. }
  split; [exact Hy|]. rewrite Hy, Hh.
  split; [|split; [|split]].
  - rewrite <- (Qplus_0_r y) at 1. apply Qplus_lt_r. by vm_compute.
  - apply Qplus_lt_r. by vm_compute.
  - field.
  - field.
Qed.


(** ** Section inference (main.find_section_headers, main.analyze_template) *)

Lemma enumerate_snoc {A} (l : list A) (x : A) :
  Rag.enumerate (l ++ [x]) = Rag.enumerate l ++ [(length l, x)].
Proof.
  unfold Rag.enumerate. rewrite length_app. simpl.
  rewrite Nat.add_1_r, seq_S. simpl.
  rewrite zip_with_app by (by rewrite length_seq). reflexivity.
Qed.

(** Headers in top-to-bottom order: every header is at least as high as the
    ones after it. *)
Abbreviation top_down :=
  (StronglySorted (fun a b : Q * string => (fst b <= fst a)%Q)).

Lemma insert_desc_elem (h x : Q * string) (l : list (Q * string)) :
  x ∈ Main.insert_desc h l <-> x = h \/ x ∈ l.
Proof.
  induction l as [|h' l IH]; simpl.
  - rewrite list_elem_of_singleton, elem_of_nil. tauto.
  - destruct (Qle_bool (fst h') (fst h)).
    + by rewrite elem_of_cons.
    + rewrite !elem_of_cons, IH. tauto.
Qed.

Lemma insert_desc_sorted (h : Q * string) (l : list (Q * string)) :
  top_down l -> top_down (Main.insert_desc h l).
Proof.
  induction l as [|h' l IH]; intros Hs; simpl.
  - repeat constructor.
  - apply StronglySorted_inv in Hs as [Hs Hall].
    destruct (Qle_bool (fst h') (fst h)) eqn:E.
    + apply Qle_bool_iff in E. constructor.
      * by constructor.
      * constructor; [exact E|].
        eapply Forall_impl; [exact Hall|]. simpl. intros a Ha.
        by eapply Qle_trans.
    + assert (Hlt : (fst h < fst h')%Q).
      { apply Qnot_le_lt. intros Hle. apply Qle_bool_iff in Hle. congruence. }
      constructor; [by apply IH|].
      apply Forall_forall. intros x Hx. apply insert_desc_elem in Hx as [->|Hx].
      * by apply Qlt_le_weak.
      * rewrite Forall_forall in Hall. by apply Hall.
Qed.

Lemma sort_desc_sorted (l : list (Q * string)) : top_down (Main.sort_desc l).
Proof.
  induction l as [|h l IH]; simpl; [constructor | by apply insert_desc_sorted].
Qed.

Lemma sort_desc_elem (x : Q * string) (l : list (Q * string)) :
  x ∈ Main.sort_desc l <-> x ∈ l.
Proof.
  induction l as [|h l IH]; simpl; [done|].
  by rewrite insert_desc_elem, IH, elem_of_cons.
Qed.

(** The header loop on a top-down list: either no header lies above [y] and
    the section is unchanged, or the section is the text of a lowest header
    above [y]. *)
Lemma scan_headers_nearest (y : Q) (d : string) (hs : list (Q * string)) :
  top_down hs ->
  (Main.scan_headers y d hs = d /\ forall h, h ∈ hs -> (fst h <= y)%Q) \/
  (exists h, h ∈ hs /\ Main.scan_headers y d hs = snd h /\ (y < fst h)%Q /\
             forall h', h' ∈ hs -> (y < fst h')%Q -> (fst h <= fst h')%Q).
Proof.
  revert d. induction hs as [|[hy ht] rest IH]; intros d Hs.
  - left. split; [reflexivity|]. intros h Hh. by apply elem_of_nil in Hh.
  - apply StronglySorted_inv in Hs as [Hs Hall]. rewrite Forall_forall in Hall.
    simpl. destruct (Qlt_bool y hy) eqn:E.
    + apply Qlt_bool_iff in E. right.
      destruct (IH ht Hs) as [[Heq Hbelow] | (h & Hin & Heq & Hab & Hmin)].
      * exists (hy, ht). split; [by left|]. split; [exact Heq|].
        split; [exact E|]. intros h' Hh' Hab.
        apply elem_of_cons in Hh' as [->|Hh']; [apply Qle_refl|].
        exfalso. eapply Qlt_not_le; [exact Hab | by apply Hbelow].
      * exists h. split; [by right|]. split; [exact Heq|]. split; [exact Hab|].
        intros h' Hh' Hab'. apply elem_of_cons in Hh' as [->|Hh'].
        -- simpl. by apply (Hall h).
        -- by apply Hmin.
    + apply Qlt_bool_false_iff in E. left. split; [reflexivity|].
      intros h Hh. apply elem_of_cons in Hh as [->|Hh]; [exact E|].
      eapply Qle_trans; [|exact E]. by apply (Hall h).
Qed.

Lemma find_section_headers_lookup (pdf : Pdf) (n : nat) :
  Main.find_section_headers pdf !! n =
    match n with
    | O => None
    | S i => Main.page_headers <$> pdf_pages pdf !! i
    end.
Proof.
  unfold Main.find_section_headers.
  induction (pdf_pages pdf) as [|page pages IH] using rev_ind.
  - simpl. rewrite lookup_empty. by destruct n.
  - rewrite enumerate_snoc, foldl_app. simpl.
    destruct n as [|i].
    + rewrite lookup_insert_ne by done. exact IH.
    + destruct (decide (i = length pages)) as [->|Hne].
      * rewrite lookup_insert_eq.
        by rewrite lookup_app_r, Nat.sub_diag by lia.
      * rewrite lookup_insert_ne by congruence. rewrite IH.
        destruct (decide (i < length pages)%nat).
        -- by rewrite lookup_app_l by lia.
        -- rewrite !lookup_ge_None_2; [done | rewrite length_app; simpl; lia | lia].
Qed.

Lemma py_max_upper (a b : Q) :
  (a <= Main.py_max a b)%Q /\ (b <= Main.py_max a b)%Q /\
  (Main.py_max a b = a \/ Main.py_max a b = b).
Proof.
  unfold Main.py_max. destruct (Qlt_bool a b) eqn:E.
  - apply Qlt_bool_iff in E. split; [by apply Qlt_le_weak|].
    split; [apply Qle_refl | by right].
  - apply Qlt_bool_false_iff in E. split; [apply Qle_refl|].
    split; [exact E | by left].
Qed.

(** C7 as the code has it.  The section of an interactive field with a
    rectangle is inferred from the rectangle's upper edge, the larger of its
    two y coordinates: it is the text of a nearest header of the field's page
    that lies strictly above that edge, and [General] when the page has no
    such header. *)
Theorem section_from_upper_edge
    (sc : Main.Scanners) (pdf : Pdf) (field_name : string)
    (field_data : FormField) (meta : Meta) :
  Main.extract_form_fields_with_coords sc pdf !! field_name = Some meta ->
  let rect := meta_rect meta in
  let edge := Main.py_max (ry1 rect) (ry2 rect) in
  let headers :=
    default [] (Main.find_section_headers pdf !! meta_page meta) in
  let section :=
    f_section (Main.raw_field sc pdf (Main.find_section_headers pdf)
                 field_name field_data) in
  ((ry1 rect <= edge)%Q /\ (ry2 rect <= edge)%Q /\
   (edge = ry1 rect \/ edge = ry2 rect)) /\
  ((forall h, h ∈ headers -> (fst h <= edge)%Q) -> section = "General") /\
  ((exists h, h ∈ headers /\ (edge < fst h)%Q) ->
   exists h, h ∈ headers /\ section = snd h /\ (edge < fst h)%Q /\
             forall h', h' ∈ headers -> (edge < fst h')%Q ->
                        (fst h <= fst h')%Q).
Proof.
  intros Hmeta rect edge headers section.
  split; [apply py_max_upper|].
  assert (Hsec : section =
                 match Main.find_section_headers pdf !! meta_page meta with
                 | Some hs => Main.scan_headers edge "General" hs
                 | None => "General"
                 end).
  { subst section. unfold Main.raw_field. rewrite Hmeta. reflexivity. }
  assert (Hsorted : top_down headers).
  { subst headers. rewrite find_section_headers_lookup.
    destruct (meta_page meta) as [|i]; [constructor|].
    destruct (pdf_pages pdf !! i); simpl; [apply sort_desc_sorted | constructor]. }
  assert (Hscan : section = Main.scan_headers edge "General" headers).
  { rewrite Hsec. subst headers.
    by destruct (Main.find_section_headers pdf !! meta_page meta). }
  destruct (scan_headers_nearest edge "General" headers Hsorted)
    as [[Heq Hbelow] | (h & Hin & Heq & Hab & Hmin)].
  - split; [intros _; congruence|].
    intros (h & Hin & Hab). exfalso.
    eapply Qlt_not_le; [exact Hab | by apply Hbelow].
  - split.
    + intros Hbelow. exfalso. eapply Qlt_not_le; [exact Hab | by apply Hbelow].
    + intros _. exists h. rewrite Hscan. done.
Qed.

(** A widget on the form of [Fixtures.header_pdf]: the only header lies
    below the upper edge, the section is [General]. *)
Lemma section_from_upper_edge_witness :
  f_section
    (Main.raw_field Fixtures.coords_scanners Fixtures.header_pdf
       (Main.find_section_headers Fixtures.header_pdf) "txt_name"
       {| ff_FT := Some "/Tx"; ff_AP_N := ApStates []; ff_Opt := None |})
  = "General".
Proof.
  destruct (section_from_upper_edge Fixtures.coords_scanners
              Fixtures.header_pdf "txt_name"
              {| ff_FT := Some "/Tx"; ff_AP_N := ApStates []; ff_Opt := None |}
              {| meta_page := 1; meta_rect := Fixtures.name_rect |})
    as (_ & Hgeneral & _).
  - by vm_compute.
  - apply Hgeneral. intros h Hh. vm_compute in Hh.
    apply list_elem_of_singleton in Hh as ->. by vm_compute.
Defined.

(** C7 as worded fails: a header between the two edges of a widget lies
    above its lower edge, yet the widget's section is [General]. *)
Lemma section_lower_edge_counterexample :
  let section_map := Main.find_section_headers Fixtures.header_pdf in
  section_map !! 1%nat = Some [(705%Q, "APPLICANT DETAILS")] /\
  (ry1 Fixtures.name_rect < 705)%Q /\
  Spec.section_by_lower_edge section_map 1 Fixtures.name_rect
    = "APPLICANT DETAILS" /\
  f_section
    (Main.raw_field Fixtures.coords_scanners Fixtures.header_pdf section_map
       "txt_name"
       {| ff_FT := Some "/Tx"; ff_AP_N := ApStates []; ff_Opt := None |})
    = "General".
Proof. by vm_compute. Qed.

(** ** Checkbox fill (main.UniversalDocumentFiller.fill) *)

Section Dispatch.

Variable record : Main.DataRecord.

Local Abbreviation step := (Main.dispatch_step record).







End Dispatch.


(** ** A fill that returns (main.UniversalDocumentFiller.fill) *)

(** What a returning [fill] went through: the template was there, the
    analysis returned the field list, neither the form update nor an
    overlay merge raised, and the output document is the one the dispatch
    of the fields describes. *)
Lemma fill_inv (sc : Main.Scanners) (svc : Rag.RealRAGService) (w w' : World)
    (template_path : string) (record : Main.DataRecord) (output_path : string)
    (fields : list Field) :
  Main.fill sc svc w template_path record output_path = Some (fields, w') ->
  exists mt pdf wa,
    w_templates w !! template_path = Some (mt, pdf) /\
    Main.analyze_template sc svc (with_event w (EvPdfRead template_path))
      template_path = Some (fields, wa) /\
    Main.form_update_raises pdf (Main.dispatch record fields).1 = false /\
    existsb Main.draws_nothing
      (Main.overlays (length (pdf_pages pdf)) (Main.dispatch record fields).2
         record) = false /\
    w' = with_filled wa
           (<[output_path :=
                {| fd_template := template_path;
                   fd_values := (Main.dispatch record fields).1;
                   fd_need_appearances :=
                     negb (bool_decide ((Main.dispatch record fields).1 = ∅));
                   fd_overlays :=
                     Main.overlays (length (pdf_pages pdf))
                       (Main.dispatch record fields).2 record |}]>
              (w_filled wa)).
Proof.
  unfold Main.fill.
  destruct (w_templates w !! template_path) as [[mt pdf]|];
    cbn [mbind option_bind]; [|discriminate].
  destruct (Main.analyze_template sc svc _ template_path) as [[fs wa]|];
    cbn [mbind option_bind]; [|discriminate].
  destruct (Main.dispatch record fs) as [acro ov] eqn:Ed.
  destruct (Main.form_update_raises pdf acro) eqn:Ef; [discriminate|].
  destruct (existsb Main.draws_nothing _) eqn:Eo; [discriminate|].
  intros [= <- <-]. exists mt, pdf, wa. rewrite Ed. by repeat split.
Qed.

(** ** Audit trail (main.fill_single_record, main.AuditLogger.log_run) *)

(** What a returning [fill_single_record] went through. *)
Lemma fill_single_record_inv (sc : Main.Scanners) (svc : Rag.RealRAGService)
    (w w' : World) (run_id : string) (record : Main.DataRecord)
    (template_filename output_path : string) :
  Main.fill_single_record sc svc w run_id record template_filename
    = Some (output_path, w') ->
  exists fields wf,
    output_path
      = "filled/" +:+ pretty (w_now w) +:+ "/" +:+ Main.safe_name record +:+ "_"
          +:+ Main.last6 run_id +:+ "_" +:+ template_filename /\
    Main.fill sc svc w ("templates/" +:+ template_filename) record output_path
      = Some (fields, wf) /\
    w' = Main.log_run wf
           (Main.run_data_of wf run_id template_filename record fields
              output_path).
Proof.
  unfold Main.fill_single_record.
  destruct (w_templates w !! _) as [[mt pdf]|]; cbn [mbind option_bind];
    [|discriminate].
  destruct (Main.fill sc svc w _ record _) as [[fields wf]|] eqn:Ef;
    cbn [mbind option_bind]; [|discriminate].
  intros [= <- <-]. by exists fields, wf.
Qed.

Section Audit.

Variables (sc : Main.Scanners) (svc : Rag.RealRAGService) (w : World).
Variables (run_id template_filename : string).

(** C9 as the code has it.  The audit entry of a run that completes lists
    the keys of the record.  Of the values, the entry and the snapshot file
    depend only on [operator_id] and on the sanitised [registered_name]: two
    completed runs on records with the same keys that agree on these two
    leave the same output path, the same run history and the same snapshot
    files. *)
Theorem audit_depends_on_keys_only (r1 r2 : Main.DataRecord)
    (p1 p2 : string) (w1 w2 : World) :
  r1.*1 = r2.*1 ->
  Main.record_get r1 "operator_id" "system"
    = Main.record_get r2 "operator_id" "system" ->
  Main.safe_name r1 = Main.safe_name r2 ->
  Main.fill_single_record sc svc w run_id r1 template_filename = Some (p1, w1) ->
  Main.fill_single_record sc svc w run_id r2 template_filename = Some (p2, w2) ->
  p1 = p2 /\ w_run_history w1 = w_run_history w2 /\
  w_snapshots w1 = w_snapshots w2 /\
  exists entry, last (w_run_history w1) = Some entry /\
                rd_input_payload_keys entry = r1.*1 /\
                rd_operator_id entry = Main.record_get r1 "operator_id" "system" /\
                rd_mapping_snapshot_id entry
                = Main.safe_name r1 +:+ "_" +:+ Main.last6 run_id.
Proof.
  intros Hkeys Hop Hname Hr1 Hr2.
  apply fill_single_record_inv in Hr1 as (fs1 & wf1 & -> & Hf1 & ->).
  apply fill_single_record_inv in Hr2 as (fs2 & wf2 & -> & Hf2 & ->).
  apply fill_inv in Hf1 as (mt1 & pdf1 & wa1 & Ht1 & Ha1 & _ & _ & ->).
  apply fill_inv in Hf2 as (mt2 & pdf2 & wa2 & Ht2 & Ha2 & _ & _ & ->).
  rewrite Ha1 in Ha2. injection Ha2 as <- <-.
  rewrite Hname. split; [reflexivity|].
  unfold Main.log_run, Main.run_data_of. cbn [rd_mapping_snapshot_id].
  rewrite Hname, Hop, Hkeys.
  case_bool_decide; cbn; (split; [reflexivity|]); (split; [reflexivity|]);
    eexists; (split; [apply last_snoc | by repeat split]).
Qed.

End Audit.

(** Two runs on a form with a cached mapping whose records differ in the
    date of birth only: both complete, with the same path and the same run
    history. *)
Lemma audit_depends_on_keys_only_witness :
  exists p1 w1 p2 w2,
    Main.fill_single_record Fixtures.blind_scanners (Fixtures.service false)
      Samples.filed_world "6f1c2a9e-ab12cd" Fixtures.record_a "form.pdf"
      = Some (p1, w1) /\
    Main.fill_single_record Fixtures.blind_scanners (Fixtures.service false)
      Samples.filed_world "6f1c2a9e-ab12cd" Fixtures.record_b "form.pdf"
      = Some (p2, w2) /\
    p1 = p2 /\ w_run_history w1 = w_run_history w2 /\
    w_snapshots w1 = w_snapshots w2.
Proof.
  destruct (Main.fill_single_record _ _ _ _ Fixtures.record_a _)
    as [[p1 w1]|] eqn:Ea; [|by vm_compute in Ea].
  destruct (Main.fill_single_record _ _ _ _ Fixtures.record_b _)
    as [[p2 w2]|] eqn:Eb; [|by vm_compute in Eb].
  destruct (audit_depends_on_keys_only Fixtures.blind_scanners
              (Fixtures.service false) Samples.filed_world
              "6f1c2a9e-ab12cd" "form.pdf" Fixtures.record_a Fixtures.record_b
              p1 p2 w1 w2 eq_refl eq_refl eq_refl Ea Eb)
    as (Hp & Hh & Hs & _).
  exists p1, w1, p2, w2. by repeat split.
Defined.

(** C9 as worded fails, on a run that completes: the value of
    [operator_id] is stored in the run history as it is, and the sanitised
    value of [registered_name] is part of the snapshot id and of the
    snapshot file name. *)
Lemma audit_values_counterexample :
  match Main.fill_single_record Fixtures.blind_scanners (Fixtures.service false)
          Samples.filed_world "6f1c2a9e-ab12cd" Fixtures.record_a "form.pdf"
  with
  | Some (_, w1) =>
      Main.record_get Fixtures.record_a "operator_id" "" = "op7" /\
      (rd_operator_id <$> last (w_run_history w1)) = Some "op7" /\
      Main.record_get Fixtures.record_a "registered_name" "" = "Acme Corp" /\
      (rd_mapping_snapshot_id <$> last (w_run_history w1))
        = Some "Acme_Corp_ab12cd" /\
      is_Some (w_snapshots w1 !! "filled_metadata/Acme_Corp_ab12cd_mapping.json")
  | None => False
  end.
Proof. vm_compute. repeat split; eauto. Qed.

(** ** The mapping pass (mapping_engine.map_template_fields) *)

(** The state of the first loop after a prefix of the field list: preserved
    fields are rebuilt in place, the others are queued, in order, with their
    query texts. *)
Lemma first_loop_prefix (sm : gmap string Field) (pre post : list Field)
    (fs : list Field) (idxs : list nat) (qs : list string) :
  foldl (Engine.first_loop_step sm) (Some (pre ++ post, [], []))
        (Rag.enumerate pre) = Some (fs, idxs, qs) ->
  length fs = length (pre ++ post) /\
  length idxs = length qs /\
  NoDup idxs /\
  (forall j, j ∈ idxs -> (j < length pre)%nat) /\
  (forall i, (length pre <= i)%nat -> fs !! i = (pre ++ post) !! i) /\
  (forall i f, pre !! i = Some f ->
     match Engine.preserved sm f with
     | Some ex =>
         fs !! i = Engine.reuse f ex /\ is_Some (Engine.reuse f ex) /\ i ∉ idxs
     | None =>
         fs !! i = Some f /\
         exists k, idxs !! k = Some i /\ qs !! k = Some (Engine.query_text f)
     end).
Proof.
  revert post fs idxs qs. induction pre as [|x pre IH] using rev_ind;
    intros post fs idxs qs Hrun.
  - simpl in Hrun. injection Hrun as <- <- <-.
    repeat split; try done; [constructor|].
    intros j Hj. by apply elem_of_nil in Hj.
  - rewrite enumerate_snoc, foldl_app in Hrun. simpl in Hrun.
    rewrite <- app_assoc in Hrun |- *. simpl in Hrun |- *.
    destruct (foldl (Engine.first_loop_step sm) _ (Rag.enumerate pre))
      as [[[fs0 idxs0] qs0]|] eqn:E0; [|discriminate].
    destruct (IH _ _ _ _ E0) as (Hlen & Hlq & Hnd & Hlt & Hrest & Hpre).
    assert (Hx : fs0 !! length pre = Some x).
    { rewrite Hrest by lia. by rewrite list_lookup_middle. }
    unfold Engine.first_loop_step in Hrun. cbn [mbind option_bind] in Hrun.
    destruct (Engine.preserved sm x) as [ex|] eqn:Ep.
    + destruct (Engine.reuse x ex) as [x'|] eqn:Er; [|discriminate].
      cbn [mbind option_bind] in Hrun. injection Hrun as <- <- <-.
      split; [by rewrite length_insert|]. split; [exact Hlq|].
      split; [exact Hnd|].
      split; [intros j Hj; rewrite length_app; simpl; specialize (Hlt j Hj); lia|].
      split.
      { intros i Hi. rewrite length_app in Hi. simpl in Hi.
        rewrite list_lookup_insert_ne by lia. apply Hrest. lia. }
      intros i f Hf. apply lookup_app_Some in Hf as [Hf | [Hge Hf]].
      * pose proof (lookup_lt_Some _ _ _ Hf) as Hi.
        specialize (Hpre i f Hf). rewrite list_lookup_insert_ne by lia.
        exact Hpre.
      * destruct (i - length pre)%nat eqn:Ei; [|by destruct n].
        simpl in Hf. injection Hf as <-. assert (i = length pre) as -> by lia.
        rewrite Ep, Er. split.
        { apply list_lookup_insert_eq. rewrite Hlen, length_app. simpl. lia. }
        split; [eauto|]. intros Hin. specialize (Hlt _ Hin). lia.
    + injection Hrun as <- <- <-.
      split; [exact Hlen|]. split; [rewrite !length_app; simpl; lia|].
      split.
      { apply NoDup_app. split; [exact Hnd|]. split; [|apply NoDup_singleton].
        intros j Hj Hj'. apply list_elem_of_singleton in Hj' as ->.
        specialize (Hlt _ Hj). lia. }
      split.
      { intros j Hj. rewrite length_app. simpl.
        apply elem_of_app in Hj as [Hj|Hj].
        - specialize (Hlt j Hj). lia.
        - apply list_elem_of_singleton in Hj as ->. lia. }
      split.
      { intros i Hi. rewrite length_app in Hi. simpl in Hi. apply Hrest. lia. }
      intros i f Hf. apply lookup_app_Some in Hf as [Hf | [Hge Hf]].
      * pose proof (lookup_lt_Some _ _ _ Hf) as Hi.
        specialize (Hpre i f Hf). destruct (Engine.preserved sm f).
        -- destruct Hpre as (H1 & H2 & H3). split; [exact H1|]. split; [exact H2|].
           intros Hin. apply elem_of_app in Hin as [Hin|Hin]; [by apply H3|].
           apply list_elem_of_singleton in Hin. lia.
        -- destruct Hpre as (H1 & k & Hk1 & Hk2). split; [exact H1|].
           exists k. split; by apply lookup_app_l_Some.
      * destruct (i - length pre)%nat eqn:Ei; [|by destruct n].
        simpl in Hf. injection Hf as <-. assert (i = length pre) as -> by lia.
        rewrite Ep. split; [exact Hx|]. exists (length idxs0).
        split.
        -- by rewrite lookup_app_r, Nat.sub_diag by lia.
        -- rewrite Hlq. by rewrite lookup_app_r, Nat.sub_diag by lia.
Qed.

Lemma second_loop_other (l : list (nat * option (list Candidate)))
    (fields : list Field) (i : nat) :
  i ∉ l.*1 -> foldl Engine.second_loop_step fields l !! i = fields !! i.
Proof.
  revert fields. induction l as [|[j c] l IH]; intros fields Hi; [done|].
  simpl in *. apply not_elem_of_cons in Hi as [Hne Hi].
  rewrite IH by exact Hi. unfold Engine.second_loop_step. simpl.
  destruct (fields !! j); [|done]. by rewrite list_lookup_insert_ne.
Qed.

Lemma second_loop_lookup (l : list (nat * option (list Candidate)))
    (fields : list Field) (i k : nat) (c : option (list Candidate)) (f : Field) :
  NoDup l.*1 -> l !! k = Some (i, c) -> fields !! i = Some f ->
  foldl Engine.second_loop_step fields l !! i
    = Some (Engine.apply_candidates f c).
Proof.
  revert fields k. induction l as [|[j c'] l IH]; intros fields k Hnd Hk Hf;
    [done|].
  simpl in *. apply NoDup_cons in Hnd as [Hj Hnd].
  destruct k as [|k]; simpl in Hk.
  - injection Hk as -> ->. rewrite second_loop_other by exact Hj.
    unfold Engine.second_loop_step. simpl. rewrite Hf.
    apply list_lookup_insert_eq. by eapply lookup_lt_Some.
  - assert (Hne : j <> i).
    { intros ->. apply Hj. apply list_elem_of_fmap.
      exists (i, c). split; [done|]. by eapply list_elem_of_lookup_2. }
    apply (IH _ k); [exact Hnd | exact Hk |].
    unfold Engine.second_loop_step. simpl.
    destruct (fields !! j); [|done]. by rewrite list_lookup_insert_ne.
Qed.

(** The first loop of the batch search: a query whose label is a synonym
    key gets the synthetic candidate and is kept away from the vector
    index. *)
Lemma triage_prefix (n : nat) (pre : list string)
    (final : list (option (list Candidate))) (vi : list nat) (vq : list string) :
  (length pre <= n)%nat ->
  foldl Rag.triage_step (replicate n None, [], []) (Rag.enumerate pre)
    = (final, vi, vq) ->
  length final = n /\
  (forall j, j ∈ vi -> (j < length pre)%nat) /\
  (forall k text cid,
      pre !! k = Some text ->
      Rag.synonym_map !! Rag.label_clean text = Some cid ->
      final !! k = Some (Some (Rag.synonym_hit cid)) /\ k ∉ vi).
Proof.
  revert final vi vq. induction pre as [|x pre IH] using rev_ind;
    intros final vi vq Hn Hrun.
  - simpl in Hrun. injection Hrun as <- <- <-.
    split; [apply length_replicate|]. split; [|done].
    intros j Hj. by apply elem_of_nil in Hj.
  - rewrite length_app in Hn. simpl in Hn.
    rewrite enumerate_snoc, foldl_app in Hrun. simpl in Hrun.
    destruct (foldl Rag.triage_step _ (Rag.enumerate pre))
      as [[final0 vi0] vq0] eqn:E0.
    destruct (IH _ _ _ ltac:(lia) eq_refl) as (Hlen & Hlt & Hhit).
    unfold Rag.triage_step in Hrun.
    destruct (Rag.synonym_map !! Rag.label_clean x) as [cx|] eqn:Ex.
    + injection Hrun as <- <- <-.
      split; [by rewrite length_insert|].
      split; [intros j Hj; rewrite length_app; simpl; specialize (Hlt j Hj); lia|].
      intros k text cid Hk Hc. apply lookup_app_Some in Hk as [Hk | [Hge Hk]].
      * pose proof (lookup_lt_Some _ _ _ Hk).
        rewrite list_lookup_insert_ne by lia. by apply (Hhit k text cid).
      * destruct (k - length pre)%nat eqn:Ek; [|by destruct n0].
        simpl in Hk. injection Hk as <-. assert (k = length pre) as -> by lia.
        rewrite Ex in Hc. injection Hc as <-. split.
        -- apply list_lookup_insert_eq. lia.
        -- intros Hin. specialize (Hlt _ Hin). lia.
    + injection Hrun as <- <- <-.
      split; [exact Hlen|].
      split.
      { intros j Hj. rewrite length_app. simpl.
        apply elem_of_app in Hj as [Hj|Hj].
        - specialize (Hlt j Hj). lia.
        - apply list_elem_of_singleton in Hj as ->. lia. }
      intros k text cid Hk Hc. apply lookup_app_Some in Hk as [Hk | [Hge Hk]].
      * pose proof (lookup_lt_Some _ _ _ Hk).
        destruct (Hhit k text cid Hk Hc) as [H1 H2]. split; [exact H1|].
        intros Hin. apply elem_of_app in Hin as [Hin|Hin]; [by apply H2|].
        apply list_elem_of_singleton in Hin. lia.
      * destruct (k - length pre)%nat eqn:Ek; [|by destruct n0].
        simpl in Hk. injection Hk as <-. congruence.
Qed.

Lemma fill_fold_other (results : Rag.QueryResult) (l : list (nat * nat))
    (final res : list (option (list Candidate))) (k : nat) :
  foldl (Rag.fill_step results) (Some final) l = Some res ->
  k ∉ l.*2 -> res !! k = final !! k.
Proof.
  revert final. induction l as [|[i j] l IH]; intros final Hrun Hk.
  - simpl in Hrun. by injection Hrun as <-.
  - simpl in *. apply not_elem_of_cons in Hk as [Hne Hk].
    destruct (Rag.row_candidates results i) as [cands|] eqn:Er.
    + cbn [mbind option_bind] in Hrun. rewrite (IH _ Hrun Hk).
      by rewrite list_lookup_insert_ne.
    + cbn [mbind option_bind] in Hrun. exfalso. clear -Hrun.
      induction l as [|a l IHl]; simpl in Hrun; [discriminate | auto].
Qed.

Lemma enumerate_snd {A} (l : list A) : (Rag.enumerate l).*2 = l.
Proof.
  unfold Rag.enumerate. apply snd_zip. by rewrite length_seq.
Qed.

Lemma search_synonym_hit (svc : Rag.RealRAGService) (qs : list string) (n : nat)
    (res : list (option (list Candidate))) (k : nat) (text cid : string) :
  Rag.is_ready svc = true ->
  Rag.search_canonical_field_batch svc qs n = Some res ->
  qs !! k = Some text ->
  Rag.synonym_map !! Rag.label_clean text = Some cid ->
  res !! k = Some (Some (Rag.synonym_hit cid)).
Proof.
  intros Hready Hrun Hk Hc. unfold Rag.search_canonical_field_batch in Hrun.
  rewrite Hready in Hrun. cbn [negb orb] in Hrun.
  rewrite bool_decide_eq_false_2 in Hrun by (intros ->; discriminate).
  destruct (Rag.triage qs) as [[final vi] vq] eqn:Et.
  destruct (triage_prefix (length qs) qs final vi vq ltac:(lia) Et)
    as (_ & _ & Hhit).
  destruct (Hhit k text cid Hk Hc) as [Hfin Hvi].
  destruct vq as [|q vq]; [by injection Hrun as <-|].
  destruct (Rag.qr_ids _) as [|r rs]; [by injection Hrun as <-|].
  rewrite (fill_fold_other _ _ _ _ k Hrun); [exact Hfin|].
  by rewrite enumerate_snd.
Qed.

Lemma search_not_ready (svc : Rag.RealRAGService) (qs : list string) (n : nat) :
  Rag.is_ready svc = false ->
  Rag.search_canonical_field_batch svc qs n
    = Some (replicate (length qs) (Some [])).
Proof.
  intros Hready. unfold Rag.search_canonical_field_batch. by rewrite Hready.
Qed.

Lemma first_loop_spec (sm : gmap string Field) (fields : list Field)
    (fs : list Field) (idxs : list nat) (qs : list string) :
  Engine.first_loop sm fields = Some (fs, idxs, qs) ->
  length fs = length fields /\
  length idxs = length qs /\
  NoDup idxs /\
  (forall i f, fields !! i = Some f ->
     match Engine.preserved sm f with
     | Some ex =>
         fs !! i = Engine.reuse f ex /\ is_Some (Engine.reuse f ex) /\ i ∉ idxs
     | None =>
         fs !! i = Some f /\
         exists k, idxs !! k = Some i /\ qs !! k = Some (Engine.query_text f)
     end).
Proof.
  intros Hrun. unfold Engine.first_loop in Hrun.
  pose proof (first_loop_prefix sm fields [] fs idxs qs) as P.
  rewrite app_nil_r in P. destruct (P Hrun) as (H1 & H2 & H3 & _ & _ & H6).
  done.
Qed.

Lemma zip_fst_elem {A B} (l : list A) (k : list B) (x : A) :
  x ∈ (zip l k).*1 -> x ∈ l.
Proof.
  intros Hx. apply list_elem_of_fmap in Hx as ([a b] & -> & Hin).
  by apply elem_of_zip_l in Hin.
Qed.

Lemma zip_fst_NoDup {A B} (l : list A) (k : list B) :
  NoDup l -> NoDup (zip l k).*1.
Proof.
  revert k. induction l as [|a l IH]; intros k Hnd; [constructor|].
  apply NoDup_cons in Hnd as [Ha Hnd]. destruct k as [|b k]; [constructor|].
  simpl. apply NoDup_cons. split; [|by apply IH].
  intros Hin. apply Ha. by apply zip_fst_elem in Hin.
Qed.

Section MappingPass.

Variables (svc : Rag.RealRAGService) (w : World) (template_id : string).
Variables (template_fields out : list Field) (w' : World).

Local Abbreviation saved_map :=
  (Engine.build_saved_map (Engine.load_saved_params w template_id)).

Hypothesis Hrun :
  Engine.map_template_fields svc w template_id template_fields = Some (out, w').

(** A field that is not preserved is sent to the batch search and updated
    from the candidates returned for its query. *)
Lemma map_template_fields_processed (i : nat) (f : Field) :
  template_fields !! i = Some f ->
  Engine.preserved saved_map f = None ->
  exists qs res k,
    Rag.search_canonical_field_batch svc qs 5 = Some res /\
    qs !! k = Some (Engine.query_text f) /\
    forall c, res !! k = Some c ->
              out !! i = Some (Engine.apply_candidates f c).
Proof.
  intros Hi Hp. unfold Engine.map_template_fields in Hrun.
  destruct (Engine.first_loop saved_map template_fields)
    as [[[fs idxs] qs]|] eqn:E1; [|discriminate].
  cbn [mbind option_bind] in Hrun.
  destruct (first_loop_spec _ _ _ _ _ E1) as (Hlen & Hlq & Hnd & Hall).
  specialize (Hall i f Hi). rewrite Hp in Hall.
  destruct Hall as (Hfs & k & Hk & Hq).
  destruct qs as [|q qs]; [done|].
  destruct (Rag.search_canonical_field_batch svc (q :: qs) 5) as [res|] eqn:Es;
    [|discriminate].
  cbn [mbind option_bind] in Hrun. injection Hrun as <- <-.
  exists (q :: qs), res, k. split; [exact Es|]. split; [exact Hq|].
  intros c Hc. apply (second_loop_lookup _ _ i k c f).
  - by apply zip_fst_NoDup.
  - apply lookup_zip_with_Some. by exists i, c.
  - exact Hfs.
Qed.

(** A preserved field is rebuilt from the prior record and left alone by
    the search loop. *)
Lemma map_template_fields_preserved (i : nat) (f existing : Field) :
  template_fields !! i = Some f ->
  Engine.preserved saved_map f = Some existing ->
  exists f', out !! i = Some f' /\
             f_name f' = f_name existing /\
             f_mapping_status f' = f_mapping_status existing.
Proof.
  intros Hi Hp. unfold Engine.map_template_fields in Hrun.
  destruct (Engine.first_loop saved_map template_fields)
    as [[[fs idxs] qs]|] eqn:E1; [|discriminate].
  cbn [mbind option_bind] in Hrun.
  destruct (first_loop_spec _ _ _ _ _ E1) as (Hlen & Hlq & Hnd & Hall).
  specialize (Hall i f Hi). rewrite Hp in Hall.
  destruct Hall as (Hfs & [f' Hf'] & Hni).
  assert (Hshape : f_name f' = f_name existing /\
                   f_mapping_status f' = f_mapping_status existing).
  { unfold Engine.reuse in Hf'.
    destruct (f_mapping_proposal existing); [|discriminate].
    destruct (f_mapping_status existing); [|discriminate].
    cbn [mbind option_bind] in Hf'. by injection Hf' as <-. }
  exists f'. split; [|exact Hshape]. rewrite <- Hf', <- Hfs.
  destruct qs as [|q qs].
  - by injection Hrun as <- <-.
  - destruct (Rag.search_canonical_field_batch svc (q :: qs) 5) as [res|];
      [|discriminate].
    cbn [mbind option_bind] in Hrun. injection Hrun as <- <-.
    apply second_loop_other. intros Hin. apply Hni.
    by apply zip_fst_elem in Hin.
Qed.

End MappingPass.

(** *** The pass returns *)

Lemma row_candidates_total (results : Rag.QueryResult) (n i : nat) :
  Rag.well_shaped results n -> (i < n)%nat ->
  is_Some (Rag.row_candidates results i).
Proof.
  intros Hws Hi. destruct (Hws i Hi) as (row & Hrow & Hd & mrow & Hm & Hlm).
  unfold Rag.row_candidates. rewrite Hrow. cbn [mbind option_bind].
  apply mapM_is_Some. apply Forall_forall. intros j Hj.
  apply elem_of_seq in Hj as [_ Hj]. simpl in Hj.
  destruct (lookup_lt_is_Some_2 row j Hj) as [fid Hfid].
  unfold compose. rewrite Hfid. cbn [mbind option_bind].
  rewrite Hm. cbn [mbind option_bind].
  destruct (lookup_lt_is_Some_2 mrow j ltac:(lia)) as [md Hmd]. 
  destruct (Rag.qr_distances results) as [d|].
  - destruct Hd as (drow & Hdrow & Hld). rewrite Hdrow. cbn [mbind option_bind].
    destruct (lookup_lt_is_Some_2 drow j ltac:(lia)) as [sc Hsc].
    rewrite Hsc. cbn [mbind option_bind]. rewrite Hmd. by eexists.
  - cbn [mbind option_bind]. rewrite Hmd. by eexists.
Qed.

Lemma fill_fold_total (results : Rag.QueryResult) (l : list (nat * nat))
    (final : list (option (list Candidate))) :
  (forall it, it ∈ l -> is_Some (Rag.row_candidates results it.1)) ->
  is_Some (foldl (Rag.fill_step results) (Some final) l).
Proof.
  revert final. induction l as [|[i j] l IH]; intros final Hall; [by eexists|].
  simpl. destruct (Hall (i, j)) as [c Hc]; [by left|]. simpl in Hc.
  rewrite Hc. cbn [mbind option_bind]. apply IH.
  intros it Hit. apply Hall. by right.
Qed.

Lemma triage_lengths (n : nat) (pre : list string)
    (final : list (option (list Candidate))) (vi : list nat) (vq : list string) :
  foldl Rag.triage_step (replicate n None, [], []) (Rag.enumerate pre)
    = (final, vi, vq) ->
  length vi = length vq.
Proof.
  revert final vi vq. induction pre as [|x pre IH] using rev_ind;
    intros final vi vq Hrun.
  - simpl in Hrun. by injection Hrun as <- <- <-.
  - rewrite enumerate_snoc, foldl_app in Hrun. simpl in Hrun.
    destruct (foldl Rag.triage_step _ (Rag.enumerate pre))
      as [[final0 vi0] vq0] eqn:E0.
    pose proof (IH _ _ _ eq_refl) as Hl. unfold Rag.triage_step in Hrun.
    destruct (Rag.synonym_map !! Rag.label_clean x).
    + by injection Hrun as <- <- <-.
    + injection Hrun as <- <- <-. rewrite !length_app. simpl. lia.
Qed.

Lemma enumerate_fst_lt {A} (l : list A) (it : nat * A) :
  it ∈ Rag.enumerate l -> (it.1 < length l)%nat.
Proof.
  intros Hin. destruct it as [i a]. apply elem_of_zip_l in Hin.
  apply elem_of_seq in Hin. simpl in *. lia.
Qed.

(** The batch search returns whenever the vector index answers in shape. *)
Lemma search_returns (svc : Rag.RealRAGService) (qs : list string) (n : nat) :
  (forall vq, Rag.well_shaped (Rag.schema_collection_query svc vq n) (length vq)) ->
  is_Some (Rag.search_canonical_field_batch svc qs n).
Proof.
  intros Hws. unfold Rag.search_canonical_field_batch.
  destruct (negb (Rag.is_ready svc) || bool_decide (qs = [])); [by eexists|].
  destruct (Rag.triage qs) as [[final vi] vq] eqn:Et.
  pose proof (triage_lengths _ _ _ _ _ Et) as Hl.
  destruct vq as [|q vq]; [by eexists|].
  destruct (Rag.qr_ids _) as [|r rs] eqn:Eids; [by eexists|].
  apply fill_fold_total. intros it Hit.
  apply (row_candidates_total _ (length (q :: vq))); [apply Hws|].
  apply enumerate_fst_lt in Hit. lia.
Qed.

Lemma saved_map_values (mappings : list Field) (k : string) (m : Field) :
  foldl Engine.saved_map_step ∅ mappings !! k = Some m -> m ∈ mappings.
Proof.
  induction mappings as [|x l IH] using rev_ind.
  - simpl. by rewrite lookup_empty.
  - rewrite foldl_app. simpl. unfold Engine.saved_map_step at 1.
    rewrite elem_of_app, list_elem_of_singleton.
    destruct (decide (f_name x = k)) as [<-|Hn].
    { rewrite lookup_insert_eq. intros [= <-]. by right. }
    rewrite lookup_insert_ne by done.
    destruct (decide (f_id x = k)) as [<-|Hi].
    { rewrite lookup_insert_eq. intros [= <-]. by right. }
    rewrite lookup_insert_ne by done. auto.
Qed.

Lemma first_loop_total (sm : gmap string Field) (pre post : list Field) :
  (forall f ex, f ∈ pre -> Engine.preserved sm f = Some ex ->
                is_Some (f_mapping_proposal ex)) ->
  is_Some (foldl (Engine.first_loop_step sm) (Some (pre ++ post, [], []))
             (Rag.enumerate pre)).
Proof.
  revert post. induction pre as [|x pre IH] using rev_ind; intros post Hall.
  - by eexists.
  - rewrite enumerate_snoc, foldl_app. simpl. rewrite <- app_assoc. simpl.
    destruct (IH (x :: post)) as [[[fs idxs] qs] E].
    { intros f ex Hf. apply Hall. apply elem_of_app. by left. }
    rewrite E. unfold Engine.first_loop_step. cbn [mbind option_bind].
    destruct (Engine.preserved sm x) as [ex|] eqn:Ep; [|by eexists].
    destruct (Hall x ex) as [p Hp];
      [apply elem_of_app; right; by left | exact Ep |].
    unfold Engine.reuse. rewrite Hp. cbn [mbind option_bind].
    unfold Engine.preserved in Ep. destruct (sm !! f_id x) as [e|]; [|done].
    destruct (Engine.is_preserved_status (f_mapping_status e)) eqn:Es; [|done].
    injection Ep as ->. destruct (f_mapping_status ex); [|done].
    by eexists.
Qed.

(** The pass returns when every stored record that is approved or manually
    overridden carries a proposal and the vector index answers in shape. *)
Lemma map_template_fields_returns (svc : Rag.RealRAGService) (w : World)
    (template_id : string) (template_fields : list Field) :
  Forall (fun m => Engine.is_preserved_status (f_mapping_status m) = true ->
                   is_Some (f_mapping_proposal m))
         (Engine.stored_mappings w template_id) ->
  (forall vq, Rag.well_shaped (Rag.schema_collection_query svc vq 5) (length vq)) ->
  is_Some (Engine.map_template_fields svc w template_id template_fields).
Proof.
  intros Hstored Hws. unfold Engine.map_template_fields.
  destruct (first_loop_total
              (Engine.build_saved_map (Engine.load_saved_params w template_id))
              template_fields []) as [[[fs idxs] qs] E].
  { intros f ex _ Hp. unfold Engine.preserved in Hp.
    destruct (_ !! f_id f) as [e|] eqn:El; [|done].
    destruct (Engine.is_preserved_status (f_mapping_status e)) eqn:Es; [|done].
    injection Hp as <-. rewrite Forall_forall in Hstored. apply Hstored; [|exact Es].
    unfold Engine.build_saved_map, Engine.stored_mappings in *.
    destruct (Engine.load_saved_params w template_id) as [d|].
    - by eapply saved_map_values.
    - by rewrite lookup_empty in El. }
  rewrite app_nil_r in E. unfold Engine.first_loop. rewrite E.
  cbn [mbind option_bind]. destruct qs as [|q qs]; [by eexists|].
  destruct (search_returns svc (q :: qs) 5 Hws) as [res Hres].
  rewrite Hres. cbn [mbind option_bind]. by eexists.
Qed.

(** *** The synonym fast path *)

Lemma synonym_values_nonempty (key cid : string) :
  Rag.synonym_map !! key = Some cid -> cid <> "".
Proof.
  intros Hk. apply elem_of_list_to_map_2 in Hk.
  assert (Hall : Forall (fun p : string * string => p.2 <> "") Rag.synonym_list).
  { apply (bool_decide_unpack _). by vm_compute. }
  rewrite Forall_forall in Hall. exact (Hall _ Hk).
Qed.

(** Without a ready service the table is not consulted: a field that is not
    preserved keeps its own id and is marked for a new canonical field. *)
Lemma not_ready_leaves_unmapped (svc : Rag.RealRAGService) (w w' : World)
    (template_id : string) (template_fields out : list Field)
    (i : nat) (f : Field) :
  Engine.map_template_fields svc w template_id template_fields = Some (out, w') ->
  template_fields !! i = Some f ->
  Engine.preserved
    (Engine.build_saved_map (Engine.load_saved_params w template_id)) f = None ->
  Rag.is_ready svc = false ->
  exists f', out !! i = Some f' /\
    f_name f' = f_id f /\ f_confidence f' = Some "Low" /\
    f_mapping_status f' = Some "suggest_new" /\
    f_mapping_source f' = Some "Unmapped".
Proof.
  intros Hrun Hi Hp Hready.
  destruct (map_template_fields_processed _ _ _ _ _ _ Hrun i f Hi Hp)
    as (qs & res & k & Hs & Hq & Hout).
  rewrite search_not_ready in Hs by exact Hready. injection Hs as <-.
  assert (Hres : replicate (length qs) (Some (@nil Candidate)) !! k
                 = Some (Some [])).
  { apply lookup_replicate_2. by eapply lookup_lt_Some. }
  eexists. split; [exact (Hout _ Hres)|]. done.
Qed.

(** C1 as the code has it.  A field that is not preserved from a prior
    record and whose normalised label is a key of the synonym table: when
    the service is ready, the pass gives it the table's canonical id as
    [name], with [High] confidence and status [auto], whatever the vector
    index answers; the hit travels as a synthetic candidate at distance 0.05
    through the ordinary tiers, so its [mapping_source] is
    [auto_embedding_strong]. *)
Theorem synonym_fast_path (svc : Rag.RealRAGService) (w w' : World)
    (template_id : string) (template_fields out : list Field)
    (i : nat) (f : Field) (cid : string) :
  Engine.map_template_fields svc w template_id template_fields = Some (out, w') ->
  template_fields !! i = Some f ->
  Engine.preserved
    (Engine.build_saved_map (Engine.load_saved_params w template_id)) f = None ->
  Rag.synonym_map !! Rag.label_clean (Engine.query_text f) = Some cid ->
  Rag.is_ready svc = true ->
  exists f', out !! i = Some f' /\
    f_name f' = cid /\ f_confidence f' = Some "High" /\
    f_mapping_status f' = Some "auto" /\
    f_mapping_source f' = Some "auto_embedding_strong" /\
    (p_scores <$> f_mapping_proposal f') = Some [0.05%Q].
Proof.
  intros Hrun Hi Hp Hc Hready.
  destruct (map_template_fields_processed _ _ _ _ _ _ Hrun i f Hi Hp)
    as (qs & res & k & Hs & Hq & Hout).
  pose proof (search_synonym_hit _ _ _ _ _ _ _ Hready Hs Hq Hc) as Hres.
  eexists. split; [exact (Hout _ Hres)|].
  pose proof (synonym_values_nonempty _ _ Hc) as Hne.
  unfold Engine.apply_candidates, Rag.synonym_hit. cbv zeta.
  cbn [default from_option id].
  rewrite tier_high by (by vm_compute). cbn.
  destruct cid; [done | done].
Qed.

(** The field [txt_dob], labelled [Date of Birth], on its first pass. *)
Lemma synonym_fast_path_witness :
  exists f',
    Engine.stored_mappings Fixtures.mapped_world "form.pdf" !! 0%nat = Some f' /\
    f_name f' = "date_of_birth" /\ f_confidence f' = Some "High".
Proof.
  destruct (synonym_fast_path (Fixtures.service true) Fixtures.empty_world
              Fixtures.mapped_world "form.pdf" Fixtures.form_fields
              (Engine.stored_mappings Fixtures.mapped_world "form.pdf")
              0 (Fixtures.text_field "txt_dob" "Date of Birth") "date_of_birth")
    as (f' & Hf' & Hn & Hc & _).
  - by vm_compute.
  - reflexivity.
  - by vm_compute.
  - by vm_compute.
  - reflexivity.
  - exists f'. by split.
Defined.

(** C1 as worded fails twice on the label [Date of Birth]: with the service
    ready the mapping source is [auto_embedding_strong], and with the
    service not ready the field is not mapped at all. *)
Lemma synonym_fast_path_counterexample :
  let f := Fixtures.text_field "txt_dob" "Date of Birth" in
  Rag.synonym_map !! Rag.label_clean (Engine.query_text f)
    = Some "date_of_birth" /\
  (fst <$> Engine.map_template_fields (Fixtures.service true)
             Fixtures.empty_world "form.pdf" [f])
    ≫= (fun out => f_mapping_source <$> out !! 0%nat)
    = Some (Some "auto_embedding_strong") /\
  (fst <$> Engine.map_template_fields (Fixtures.service false)
             Fixtures.empty_world "form.pdf" [f])
    ≫= (fun out => (fun f' => (f_name f', f_confidence f')) <$> out !! 0%nat)
    = Some ("txt_dob", Some "Low").
Proof. by vm_compute. Qed.

(** C3 on a reachable store.  After the first pass over
    [Fixtures.kyc_fields] and a human override of the widget [first_name],
    the stored record of [first_name] is [manual_override] with the name
    [legal_first_name]; the record of [fname] carries the name [first_name]
    and comes later, so it takes the lookup key [first_name].  The next pass
    sends [first_name] to the search again and the override is gone. *)
Theorem approved_mapping_shadowed :
  let stored := Engine.stored_mappings Fixtures.kyc_overridden "kyc.pdf" in
  (fun m => (f_id m, f_name m, f_mapping_status m)) <$> stored
    = [ ("first_name", "legal_first_name", Some "manual_override");
        ("fname", "first_name", Some "auto") ] /\
  match Engine.map_template_fields (Fixtures.service true)
          Fixtures.kyc_overridden "kyc.pdf" Fixtures.kyc_fields with
  | Some (out, w') =>
      (fun m => (f_name m, f_mapping_status m)) <$> out !! 0%nat
        = Some ("first_name", Some "auto") /\
      last (w_events w')
        = Some (EvSearchBatch (Engine.query_text <$> Fixtures.kyc_fields))
  | None => False
  end.
Proof. by vm_compute. Qed.

(** * Further properties: what the rest of the code shows *)

(** ** Character-level facts about the string operations *)

Lemma all_chars_filter (p : ascii -> bool) (s : string) :
  PyStr.all_chars p (PyStr.filter_chars p s) = true.
Proof.
  induction s as [|c s IH]; simpl; [done|].
  destruct (p c) eqn:E; simpl; [by rewrite E|done].
Qed.

Lemma filter_chars_all (p : ascii -> bool) (s : string) :
  PyStr.all_chars p s = true -> PyStr.filter_chars p s = s.
Proof.
  induction s as [|c s IH]; simpl; [done|].
  intros [Hc Hs]%andb_true_iff. rewrite Hc. by rewrite IH.
Qed.

Lemma all_chars_impl (p q : ascii -> bool) (s : string) :
  (forall c, p c = true -> q c = true) ->
  PyStr.all_chars p s = true -> PyStr.all_chars q s = true.
Proof.
  intros Hpq. induction s as [|c s IH]; simpl; [done|].
  intros [Hc Hs]%andb_true_iff. by rewrite (Hpq _ Hc), IH.
Qed.

Lemma all_chars_app (p : ascii -> bool) (s t : string) :
  PyStr.all_chars p (s +:+ t) = PyStr.all_chars p s && PyStr.all_chars p t.
Proof.
  induction s as [|c s IH]; simpl; [done|]. by rewrite IH, andb_assoc.
Qed.

(** A string that avoids a character does not contain it as a substring. *)
Lemma all_chars_not_contains (c : ascii) (s : string) :
  PyStr.all_chars (fun d => negb (Ascii.eqb d c)) s = true ->
  PyStr.contains (String c EmptyString) s = false.
Proof.
  induction s as [|d s IH]; simpl; [done|].
  intros [Hd Hs]%andb_true_iff. rewrite (IH Hs), orb_false_r.
  apply negb_true_iff in Hd. rewrite Ascii.eqb_sym in Hd.
  destruct (ascii_dec c d) as [->|Hne].
  - by rewrite Ascii.eqb_refl in Hd.
  - destruct (ascii_dec c d); [done|reflexivity].
Qed.

(** X1.  The mapping file of a template lies directly in the mappings
    directory whatever the template id is: its name is the id reduced to
    letters, digits, [_], [-] and [.], so it holds no path separator, and
    sanitising a sanitised id changes nothing. *)
Theorem mapping_file_path_safe (template_id : string) :
  exists name,
    Engine.get_mapping_file_path template_id
      = "mappings/" +:+ name +:+ ".mapping.json" /\
    PyStr.all_chars Engine.safe_char name = true /\
    PyStr.contains "/" name = false /\
    Engine.get_mapping_file_path name = Engine.get_mapping_file_path template_id.
Proof.
  exists (PyStr.filter_chars Engine.safe_char template_id).
  split; [reflexivity|]. split; [apply all_chars_filter|]. split.
  - apply all_chars_not_contains.
    eapply all_chars_impl; [|apply all_chars_filter].
    intros c Hc. apply negb_true_iff. apply Ascii.eqb_neq. intros ->.
    by vm_compute in Hc.
  - unfold Engine.get_mapping_file_path.
    by rewrite (filter_chars_all _ _ (all_chars_filter _ _)).
Qed.

(** ** The shape and the effects of a mapping pass (mapping_engine.map_template_fields) *)

Lemma fill_fold_length (results : Rag.QueryResult) (l : list (nat * nat))
    (final res : list (option (list Candidate))) :
  foldl (Rag.fill_step results) (Some final) l = Some res ->
  length res = length final.
Proof.
  revert final. induction l as [|[i j] l IH]; intros final Hrun.
  - simpl in Hrun. by injection Hrun as <-.
  - simpl in Hrun. destruct (Rag.row_candidates results i) as [cands|].
    + cbn [mbind option_bind] in Hrun. rewrite (IH _ Hrun).
      apply length_insert.
    + cbn [mbind option_bind] in Hrun. exfalso. clear -Hrun.
      induction l as [|a l IHl]; simpl in Hrun; [discriminate | auto].
Qed.

(** The batch search answers with one slot per query. *)
Lemma search_length (svc : Rag.RealRAGService)
    (qs : list string) (n : nat) (res : list (option (list Candidate))) :
  Rag.search_canonical_field_batch svc qs n = Some res ->
  length res = length qs.
Proof.
  unfold Rag.search_canonical_field_batch.
  destruct (negb (Rag.is_ready svc) || bool_decide (qs = [])).
  { intros [= <-]. apply length_replicate. }
  destruct (Rag.triage qs) as [[final vi] vq] eqn:Et.
  destruct (triage_prefix (length qs) qs final vi vq ltac:(lia) Et)
    as (Hlen & _ & _).
  destruct vq as [|q vq]; [by intros [= <-]|].
  destruct (Rag.qr_ids _) as [|r rs]; [by intros [= <-]|].
  intros Hrun. by rewrite (fill_fold_length _ _ _ _ Hrun).
Qed.

Lemma second_loop_length (l : list (nat * option (list Candidate)))
    (fields : list Field) :
  length (foldl Engine.second_loop_step fields l) = length fields.
Proof.
  revert fields. induction l as [|[j c] l IH]; intros fields; [done|].
  simpl. rewrite IH. unfold Engine.second_loop_step. simpl.
  destruct (fields !! j); [apply length_insert | done].
Qed.

(** The records a mapping pass returns. *)
Lemma map_pass_fields (svc : Rag.RealRAGService) (w w' : World)
    (template_id : string) (template_fields out : list Field) :
  Engine.map_template_fields svc w template_id template_fields = Some (out, w') ->
  length out = length template_fields /\
  forall i f, template_fields !! i = Some f ->
    exists f', out !! i = Some f' /\ Frame.same_descriptor f f' /\ Frame.is_mapped f'.
Proof.
  intros Hrun. split.
  - unfold Engine.map_template_fields in Hrun.
    destruct (Engine.first_loop _ template_fields)
      as [[[fs idxs] qs]|] eqn:E1; [|discriminate].
    cbn [mbind option_bind] in Hrun.
    destruct (first_loop_spec _ _ _ _ _ E1) as (Hlen & _).
    destruct qs as [|q qs]; [by injection Hrun as <- <-|].
    destruct (Rag.search_canonical_field_batch svc (q :: qs) 5) as [res|];
      [|discriminate].
    cbn [mbind option_bind] in Hrun. injection Hrun as <- <-.
    by rewrite second_loop_length.
  - intros i f Hi.
    destruct (Engine.preserved
                (Engine.build_saved_map (Engine.load_saved_params w template_id)) f)
      as [ex|] eqn:Ep.
    + pose proof Hrun as Hrun'. unfold Engine.map_template_fields in Hrun'.
      destruct (Engine.first_loop _ template_fields)
        as [[[fs idxs] qs]|] eqn:E1; [|discriminate].
      cbn [mbind option_bind] in Hrun'.
      destruct (first_loop_spec _ _ _ _ _ E1) as (Hlen & Hlq & Hnd & Hall).
      specialize (Hall i f Hi). rewrite Ep in Hall.
      destruct Hall as (Hfs & [f' Hf'] & Hni).
      assert (Hout : out !! i = Some f').
      { rewrite <- Hf', <- Hfs. destruct qs as [|q qs].
        - by injection Hrun' as <- <-.
        - destruct (Rag.search_canonical_field_batch svc (q :: qs) 5) as [res|];
            [|discriminate].
          cbn [mbind option_bind] in Hrun'. injection Hrun' as <- <-.
          apply second_loop_other. intros Hin. apply Hni.
          by apply zip_fst_elem in Hin. }
      exists f'. split; [exact Hout|].
      unfold Engine.reuse in Hf'.
      destruct (f_mapping_proposal ex); [|discriminate].
      destruct (f_mapping_status ex); [|discriminate].
      cbn [mbind option_bind] in Hf'. injection Hf' as <-.
      split; [by repeat split | by repeat split; eexists].
    + destruct (map_template_fields_processed _ _ _ _ _ _ Hrun i f Hi Ep)
        as (qs & res & k & Hs & Hq & Hout).
      apply search_length in Hs.
      destruct (lookup_lt_is_Some_2 res k) as [c Hc].
      { rewrite Hs. by eapply lookup_lt_Some. }
      exists (Engine.apply_candidates f c). split; [by apply Hout|].
      unfold Engine.apply_candidates. cbv zeta.
      destruct (Engine.tier _) as [[[[bm cf] src] st] ex].
      split; [by repeat split | by repeat split; eexists].
Qed.

(** What a mapping pass does to the world. *)
Lemma map_pass_world (svc : Rag.RealRAGService) (w w' : World)
    (template_id : string) (template_fields out : list Field) :
  Engine.map_template_fields svc w template_id template_fields = Some (out, w') ->
  w_mapping_files w' !! Engine.get_mapping_file_path template_id
    = Some (w_now w, {| mf_template_id := template_id;
                        mf_last_updated := w_now w;
                        mf_mappings := out |}) /\
  (forall path, path <> Engine.get_mapping_file_path template_id ->
                w_mapping_files w' !! path = w_mapping_files w !! path) /\
  w_templates w' = w_templates w /\ w_corrections w' = w_corrections w /\
  w_run_history w' = w_run_history w /\ w_snapshots w' = w_snapshots w /\
  w_filled w' = w_filled w /\ w_now w' = w_now w.
Proof.
  intros Hrun. unfold Engine.map_template_fields in Hrun.
  destruct (Engine.first_loop _ template_fields)
    as [[[fs idxs] qs]|]; [|discriminate].
  cbn [mbind option_bind] in Hrun.
  destruct qs as [|q qs].
  - injection Hrun as <- <-. unfold Engine.save_mappings. simpl.
    rewrite lookup_insert_eq. split; [done|]. split; [|done].
    intros path Hne. by rewrite lookup_insert_ne.
  - destruct (Rag.search_canonical_field_batch svc (q :: qs) 5) as [res|];
      [|discriminate].
    cbn [mbind option_bind] in Hrun. injection Hrun as <- <-.
    unfold Engine.save_mappings. simpl.
    rewrite lookup_insert_eq. split; [done|]. split; [|done].
    intros path Hne. by rewrite lookup_insert_ne.
Qed.

(** X3.  A mapping pass writes exactly one file: the mapping file of its
    template, stamped with the current time and holding the list it
    returns.  Every other mapping file, the templates, the corrections log,
    the run history, the snapshots, the filled documents and the clock are
    as before. *)
Theorem map_pass_persists (svc : Rag.RealRAGService) (w w' : World)
    (template_id : string) (template_fields out : list Field) :
  Engine.map_template_fields svc w template_id template_fields = Some (out, w') ->
  w_mapping_files w' !! Engine.get_mapping_file_path template_id
    = Some (w_now w, {| mf_template_id := template_id;
                        mf_last_updated := w_now w;
                        mf_mappings := out |}) /\
  (forall path, path <> Engine.get_mapping_file_path template_id ->
                w_mapping_files w' !! path = w_mapping_files w !! path) /\
  w_templates w' = w_templates w /\ w_corrections w' = w_corrections w /\
  w_run_history w' = w_run_history w /\ w_snapshots w' = w_snapshots w /\
  w_filled w' = w_filled w /\ w_now w' = w_now w.
Proof. apply map_pass_world. Qed.

(** X2.  A mapping pass returns one record per field, in the order of the
    fields; each record keeps the field's descriptor (id, label, type,
    section, context, placeholder, source, rectangle, page, export options)
    and carries a status, a confidence, a source and a proposal. *)
Theorem map_pass_keeps_fields (svc : Rag.RealRAGService) (w w' : World)
    (template_id : string) (template_fields out : list Field) :
  Engine.map_template_fields svc w template_id template_fields = Some (out, w') ->
  length out = length template_fields /\
  forall i f, template_fields !! i = Some f ->
    exists f', out !! i = Some f' /\
               Frame.same_descriptor f f' /\ Frame.is_mapped f'.
Proof. apply map_pass_fields. Qed.

(** ** Queries and preserved records (mapping_engine.map_template_fields, first loop) *)

(** The queries of the first loop are those of the fields that are not
    preserved, in the order of the fields. *)
Lemma first_loop_queries (sm : gmap string Field) (pre post : list Field)
    (fs : list Field) (idxs : list nat) (qs : list string) :
  foldl (Engine.first_loop_step sm) (Some (pre ++ post, [], []))
        (Rag.enumerate pre) = Some (fs, idxs, qs) ->
  qs = Engine.query_text <$>
         filter (fun f => Engine.preserved sm f = None) pre.
Proof.
  revert post fs idxs qs. induction pre as [|x pre IH] using rev_ind;
    intros post fs idxs qs Hrun.
  - simpl in Hrun. by injection Hrun as <- <- <-.
  - rewrite enumerate_snoc, foldl_app in Hrun. simpl in Hrun.
    rewrite <- app_assoc in Hrun. simpl in Hrun.
    destruct (foldl (Engine.first_loop_step sm) _ (Rag.enumerate pre))
      as [[[fs0 idxs0] qs0]|] eqn:E0; [|discriminate].
    pose proof (IH _ _ _ _ E0) as Hq.
    unfold Engine.first_loop_step in Hrun. cbn [mbind option_bind] in Hrun.
    rewrite filter_app, fmap_app.
    destruct (Engine.preserved sm x) as [ex|] eqn:Ep.
    + destruct (Engine.reuse x ex); [|discriminate].
      cbn [mbind option_bind] in Hrun. injection Hrun as <- <- <-.
      rewrite filter_cons_False by (rewrite Ep; done).
      by rewrite filter_nil, app_nil_r.
    + injection Hrun as <- <- <-.
      rewrite filter_cons_True by done. by rewrite Hq.
Qed.

Lemma map_pass_persists_witness :
  w_mapping_files Fixtures.mapped_world !! "mappings/form.pdf.mapping.json"
  = Some (5%nat,
          {| mf_template_id := "form.pdf"; mf_last_updated := 5;
             mf_mappings := Engine.stored_mappings Fixtures.mapped_world "form.pdf" |}).
Proof.
  apply (map_pass_persists (Fixtures.service true) Fixtures.empty_world
           Fixtures.mapped_world "form.pdf" Fixtures.form_fields
           (Engine.stored_mappings Fixtures.mapped_world "form.pdf")).
  by vm_compute.
Defined.


Lemma map_pass_keeps_fields_witness :
  length (Engine.stored_mappings Fixtures.mapped_world "form.pdf")
  = length Fixtures.form_fields /\
  forall i f, Fixtures.form_fields !! i = Some f ->
    exists f', Engine.stored_mappings Fixtures.mapped_world "form.pdf" !! i
               = Some f' /\
               Frame.same_descriptor f f' /\ Frame.is_mapped f'.
Proof.
  apply (map_pass_keeps_fields (Fixtures.service true) Fixtures.empty_world
           Fixtures.mapped_world "form.pdf").
  by vm_compute.
Defined.


(** X4.  A mapping pass asks the similarity service at most once, and only
    about the fields it does not preserve: the batch holds the query text
    of each such field, in the order of the fields, and when every field is
    preserved no search happens at all. *)
Theorem search_batch_is_unpreserved (svc : Rag.RealRAGService) (w w' : World)
    (template_id : string) (template_fields out : list Field) :
  Engine.map_template_fields svc w template_id template_fields = Some (out, w') ->
  let queries :=
    Engine.query_text <$>
      filter (fun f =>
                Engine.preserved
                  (Engine.build_saved_map
                     (Engine.load_saved_params w template_id)) f = None)
             template_fields in
  w_events w' =
    w_events w ++ match queries with
                  | [] => []
                  | _ => [EvSearchBatch queries]
                  end.
Proof.
  intros Hrun queries. unfold Engine.map_template_fields in Hrun.
  destruct (Engine.first_loop _ template_fields)
    as [[[fs idxs] qs]|] eqn:E1; [|discriminate].
  cbn [mbind option_bind] in Hrun.
  unfold Engine.first_loop in E1.
  pose proof (first_loop_queries
                (Engine.build_saved_map (Engine.load_saved_params w template_id))
                template_fields [] fs idxs qs) as Hq.
  rewrite app_nil_r in Hq. specialize (Hq E1). fold queries in Hq. subst qs.
  destruct queries as [|q qs].
  - injection Hrun as <- <-. simpl. by rewrite app_nil_r.
  - destruct (Rag.search_canonical_field_batch svc (q :: qs) 5) as [res|];
      [|discriminate].
    cbn [mbind option_bind] in Hrun. by injection Hrun as <- <-.
Qed.

Lemma search_batch_is_unpreserved_witness :
  w_events Samples.remapped_world
  = w_events Samples.form_overridden
      ++ [EvSearchBatch
            [Engine.query_text (Fixtures.text_field "cust" "Customer")]].
Proof.
  apply (search_batch_is_unpreserved (Fixtures.service true)
           Samples.form_overridden Samples.remapped_world "form.pdf"
           Fixtures.form_fields Samples.remapped_fields).
  by vm_compute.
Defined.

(** ** The tier of a field that the pass resolves by search *)

(** A field that is not preserved gets the candidates that the batch search
    returns in the slot of its query. *)
Lemma map_pass_resolved (svc : Rag.RealRAGService) (w w' : World)
    (template_id : string) (template_fields out : list Field)
    (i : nat) (f : Field) :
  Engine.map_template_fields svc w template_id template_fields = Some (out, w') ->
  template_fields !! i = Some f ->
  Engine.preserved
    (Engine.build_saved_map (Engine.load_saved_params w template_id)) f = None ->
  exists batch_results k candidates,
    Rag.search_canonical_field_batch svc
      (Engine.query_text <$>
         filter (fun g =>
                   Engine.preserved
                     (Engine.build_saved_map
                        (Engine.load_saved_params w template_id)) g = None)
                template_fields) 5 = Some batch_results /\
    (Engine.query_text <$>
       filter (fun g =>
                 Engine.preserved
                   (Engine.build_saved_map
                      (Engine.load_saved_params w template_id)) g = None)
              template_fields) !! k = Some (Engine.query_text f) /\
    batch_results !! k = Some candidates /\
    out !! i = Some (Engine.apply_candidates f candidates).
Proof.
  intros Hrun Hi Hp. unfold Engine.map_template_fields in Hrun.
  destruct (Engine.first_loop _ template_fields)
    as [[[fs idxs] qs]|] eqn:E1; [|discriminate].
  cbn [mbind option_bind] in Hrun.
  destruct (first_loop_spec _ _ _ _ _ E1) as (Hlen & Hlq & Hnd & Hall).
  specialize (Hall i f Hi). rewrite Hp in Hall.
  destruct Hall as (Hfs & k & Hk & Hq).
  pose proof (first_loop_queries
                (Engine.build_saved_map (Engine.load_saved_params w template_id))
                template_fields [] fs idxs qs) as Hqs.
  rewrite app_nil_r in Hqs. specialize (Hqs E1). rewrite <- Hqs.
  destruct qs as [|q qs]; [done|].
  destruct (Rag.search_canonical_field_batch svc (q :: qs) 5) as [res|] eqn:Es;
    [|discriminate].
  cbn [mbind option_bind] in Hrun. injection Hrun as <- <-.
  destruct (lookup_lt_is_Some_2 res k) as [c Hc].
  { rewrite (search_length _ _ _ _ Es). by eapply lookup_lt_Some. }
  exists res, k, c. split; [done|]. split; [exact Hq|]. split; [exact Hc|].
  apply (second_loop_lookup _ _ i k c f).
  - by apply zip_fst_NoDup.
  - apply lookup_zip_with_Some. by exists i, c.
  - exact Hfs.
Qed.

(** C2.  A field that the pass resolves by similarity search (it is not
    preserved) comes back with the tier of the candidates that the batch
    search returned for its query, and the tiers are half-open on the
    low side: a best distance strictly below 0.40 gives [High] and [auto];
    a distance from 0.40 (included) up to 0.75 (excluded) gives [Medium]
    and [pending_review]; a distance of 0.75 or more, or no candidate at
    all, gives [suggest_new] with no canonical id and the field's own id as
    [name]. *)
Theorem tiering_half_open (svc : Rag.RealRAGService) (w w' : World)
    (template_id : string) (template_fields out : list Field)
    (i : nat) (f : Field) :
  Engine.map_template_fields svc w template_id template_fields = Some (out, w') ->
  template_fields !! i = Some f ->
  Engine.preserved
    (Engine.build_saved_map (Engine.load_saved_params w template_id)) f = None ->
  let queries :=
    Engine.query_text <$>
      filter (fun g =>
                Engine.preserved
                  (Engine.build_saved_map
                     (Engine.load_saved_params w template_id)) g = None)
             template_fields in
  exists batch_results k candidates f',
    Rag.search_canonical_field_batch svc queries 5 = Some batch_results /\
    queries !! k = Some (Engine.query_text f) /\
    batch_results !! k = Some candidates /\
    out !! i = Some f' /\
    (forall top rest,
        candidates = Some (top :: rest) -> (c_score top < 0.40)%Q ->
        f_confidence f' = Some "High" /\ f_mapping_status f' = Some "auto") /\
    (forall top rest,
        candidates = Some (top :: rest) ->
        (c_score top == 0.40)%Q \/
        ((0.40 <= c_score top)%Q /\ (c_score top < 0.75)%Q) ->
        f_confidence f' = Some "Medium" /\
        f_mapping_status f' = Some "pending_review") /\
    (candidates = None \/ candidates = Some [] \/
     (exists top rest, candidates = Some (top :: rest) /\
                       (0.75 <= c_score top)%Q) ->
     f_mapping_status f' = Some "suggest_new" /\
     (p_canonical_field_id <$> f_mapping_proposal f') = Some None /\
     f_name f' = f_id f).
Proof.
  intros Hrun Hi Hp queries.
  destruct (map_pass_resolved _ _ _ _ _ _ _ _ Hrun Hi Hp)
    as (res & k & c & Hs & Hk & Hc & Hout).
  destruct (apply_candidates_tiers f) as (Hhigh & Hmed & Hlow).
  exists res, k, c, (Engine.apply_candidates f c).
  split; [exact Hs|]. split; [exact Hk|]. split; [exact Hc|].
  split; [exact Hout|]. split; [|split].
  - intros top rest -> Hlt. by apply Hhigh.
  - intros top rest -> Hmid. by apply Hmed.
  - intros Hnone. by apply Hlow.
Qed.

(** The field [cust] of the small form goes to the index, which answers at
    distance 0.40 exactly: the lower tier. *)
Lemma tiering_half_open_witness :
  exists f',
    Engine.stored_mappings Fixtures.mapped_world "form.pdf" !! 1%nat = Some f' /\
    f_confidence f' = Some "Medium" /\
    f_mapping_status f' = Some "pending_review".
Proof.
  destruct (tiering_half_open (Fixtures.service true) Fixtures.empty_world
              Fixtures.mapped_world "form.pdf" Fixtures.form_fields
              (Engine.stored_mappings Fixtures.mapped_world "form.pdf") 1
              (Fixtures.text_field "cust" "Customer"))
    as (res & k & c & f' & Hs & Hk & Hc & Hout & _ & Hmed & _).
  - by vm_compute.
  - reflexivity.
  - by vm_compute.
  - exists f'. split; [exact Hout|].
    vm_compute in Hs. injection Hs as <-.
    destruct k as [|[|k]]; vm_compute in Hk; [discriminate| |discriminate].
    vm_compute in Hc. injection Hc as <-.
    eapply Hmed; [reflexivity|]. left. reflexivity.
Defined.



(** The lookup table of prior records: a key belongs to the last record
    that carries it as [id] or as [name]. *)
Lemma saved_map_lookup (mappings : list Field) (j : nat) (m : Field) (k : string) :
  mappings !! j = Some m ->
  f_id m = k \/ f_name m = k ->
  (forall j' m', (j < j')%nat -> mappings !! j' = Some m' ->
                 f_id m' <> k /\ f_name m' <> k) ->
  foldl Engine.saved_map_step ∅ mappings !! k = Some m.
Proof.
  revert j m. induction mappings as [|x l IH] using rev_ind;
    intros j m Hj Hkey Hlater; [done|].
  rewrite foldl_app. simpl. unfold Engine.saved_map_step at 1.
  apply lookup_app_Some in Hj as [Hj | [Hge Hj]].
  - pose proof (lookup_lt_Some _ _ _ Hj) as Hlt.
    destruct (Hlater (length l) x) as [Hi Hn]; [lia | |].
    { by rewrite lookup_app_r, Nat.sub_diag by lia. }
    rewrite !lookup_insert_ne by done.
    apply (IH j m Hj Hkey). intros j' m' Hlt' Hm'.
    apply (Hlater j' m' Hlt'). by apply lookup_app_l_Some.
  - destruct (j - length l)%nat eqn:Ej; [|by destruct n].
    simpl in Hj. injection Hj as ->.
    destruct (decide (f_name m = k)) as [<-|Hn]; [by rewrite lookup_insert_eq|].
    rewrite lookup_insert_ne by done.
    destruct Hkey as [<-|Hk]; [|done]. by rewrite lookup_insert_eq.
Qed.

Section Preservation.

Variables (svc : Rag.RealRAGService) (w w' : World) (template_id : string).
Variables (template_fields out : list Field).

Hypothesis Hrun :
  Engine.map_template_fields svc w template_id template_fields = Some (out, w').

(** A field whose id leads to an approved or manually overridden record is
    rebuilt from that record. *)
Lemma preserved_lookup_reused (i j : nat) (f existing : Field) :
  template_fields !! i = Some f ->
  Engine.stored_mappings w template_id !! j = Some existing ->
  f_id existing = f_id f \/ f_name existing = f_id f ->
  (forall j' m', (j < j')%nat ->
                 Engine.stored_mappings w template_id !! j' = Some m' ->
                 f_id m' <> f_id f /\ f_name m' <> f_id f) ->
  Engine.is_preserved_status (f_mapping_status existing) = true ->
  exists f',
    out !! i = Some f' /\
    f_id f' = f_id f /\ f_label f' = f_label f /\ f_rect f' = f_rect f /\
    f_name f' = f_name existing /\
    f_mapping_status f' = f_mapping_status existing /\
    f_mapping_proposal f' = f_mapping_proposal existing /\
    f_reviewed_by f' = f_reviewed_by existing /\
    f_confidence f' = Some (default "High" (f_confidence existing)) /\
    f_mapping_source f'
      = Some (default "historical" (f_mapping_source existing)).
Proof.
  intros Hi Hj Hkey Hlater Hstatus.
  assert (Hp : Engine.preserved
                 (Engine.build_saved_map
                    (Engine.load_saved_params w template_id)) f
               = Some existing).
  { unfold Engine.preserved, Engine.build_saved_map.
    unfold Engine.stored_mappings in Hj, Hlater.
    destruct (Engine.load_saved_params w template_id) as [d|]; [|done].
    rewrite (saved_map_lookup _ j existing (f_id f) Hj Hkey Hlater).
    by rewrite Hstatus. }
  unfold Engine.map_template_fields in Hrun.
  destruct (Engine.first_loop _ template_fields)
    as [[[fs idxs] qs]|] eqn:E1; [|discriminate].
  cbn [mbind option_bind] in Hrun.
  destruct (first_loop_spec _ _ _ _ _ E1) as (Hlen & Hlq & Hnd & Hall).
  specialize (Hall i f Hi). rewrite Hp in Hall.
  destruct Hall as (Hfs & [f' Hf'] & Hni).
  assert (Hout : out !! i = Some f').
  { rewrite <- Hf', <- Hfs. destruct qs as [|q qs].
    - by injection Hrun as <- <-.
    - destruct (Rag.search_canonical_field_batch svc (q :: qs) 5) as [res|];
        [|discriminate].
      cbn [mbind option_bind] in Hrun. injection Hrun as <- <-.
      apply second_loop_other. intros Hin. apply Hni.
      by apply zip_fst_elem in Hin. }
  exists f'. split; [exact Hout|].
  unfold Engine.reuse in Hf'.
  destruct (f_mapping_proposal existing); [|discriminate].
  destruct (f_mapping_status existing); [|discriminate].
  cbn [mbind option_bind] in Hf'. by injection Hf' as <-.
Qed.

End Preservation.

(** X5.  Where the lookup by field id finds an approved or manually
    overridden record (the last stored record that carries the id as its
    [id] or [name]), the pass rebuilds the field from it: name, status,
    proposal and reviewer are the record's, the confidence defaults to
    [High] and the source to [historical], and the descriptor stays the
    field's own. *)
Theorem preserved_field_reused (svc : Rag.RealRAGService) (w w' : World)
    (template_id : string) (template_fields out : list Field)
    (i j : nat) (f existing : Field) :
  Engine.map_template_fields svc w template_id template_fields = Some (out, w') ->
  template_fields !! i = Some f ->
  Engine.stored_mappings w template_id !! j = Some existing ->
  f_id existing = f_id f \/ f_name existing = f_id f ->
  (forall j' m', (j < j')%nat ->
                 Engine.stored_mappings w template_id !! j' = Some m' ->
                 f_id m' <> f_id f /\ f_name m' <> f_id f) ->
  Engine.is_preserved_status (f_mapping_status existing) = true ->
  exists f',
    out !! i = Some f' /\
    f_id f' = f_id f /\ f_label f' = f_label f /\ f_rect f' = f_rect f /\
    f_name f' = f_name existing /\
    f_mapping_status f' = f_mapping_status existing /\
    f_mapping_proposal f' = f_mapping_proposal existing /\
    f_reviewed_by f' = f_reviewed_by existing /\
    f_confidence f' = Some (default "High" (f_confidence existing)) /\
    f_mapping_source f'
      = Some (default "historical" (f_mapping_source existing)).
Proof.
  intros Hrun.
  exact (preserved_lookup_reused svc w w' template_id template_fields out Hrun
           i j f existing).
Qed.

Lemma preserved_field_reused_witness :
  exists f',
    Samples.remapped_fields !! 0%nat = Some f' /\
    f_name f' = "birth_date_v2" /\
    f_mapping_status f' = Some "manual_override".
Proof.
  destruct (preserved_field_reused (Fixtures.service true)
              Samples.form_overridden Samples.remapped_world "form.pdf"
              Fixtures.form_fields Samples.remapped_fields 0 0
              (Fixtures.text_field "txt_dob" "Date of Birth")
              (default (Fixtures.text_field "" "")
                 (Engine.stored_mappings Samples.form_overridden "form.pdf"
                    !! 0%nat)))
    as (f' & Hout & _ & _ & _ & Hname & Hstatus & _).
  - by vm_compute.
  - reflexivity.
  - by vm_compute.
  - left. by vm_compute.
  - intros [|[|[|j']]] m' Hlt Hm; [lia| | |]; vm_compute in Hm;
      [injection Hm as <-; by vm_compute | discriminate | discriminate].
  - by vm_compute.
  - exists f'. split; [exact Hout|]. rewrite Hname, Hstatus.
    split; vm_compute; reflexivity.
Defined.


(** ** What a correction changes (mapping_engine.update_mapping) *)

Lemma stored_after_save (w0 : World) (template_id : string) (l : list Field) :
  Engine.stored_mappings (Engine.save_mappings w0 template_id l) template_id = l.
Proof. unfold Engine.stored_mappings. by rewrite load_after_save. Qed.

(** X6.  Whatever [update_mapping] is called with, when it returns it
    returns [True]; it appends at most one correction, which names the
    template, the new canonical id and a prior guess that is neither empty
    nor the new id; the stored list keeps its length and every record with
    another key; no other mapping file, template, run history or snapshot
    changes. *)
Theorem update_mapping_frame (w w' : World)
    (template_id field_id canonical_id status user : string) (b : bool) :
  Engine.update_mapping w template_id field_id canonical_id status user
    = Some (b, w') ->
  b = true /\
  (exists extra,
      w_corrections w' = w_corrections w ++ extra /\ (length extra <= 1)%nat /\
      forall e, e ∈ extra ->
        cr_template e = template_id /\ cr_human_correction e = canonical_id /\
        cr_ai_guess e <> canonical_id /\ cr_ai_guess e <> "") /\
  length (Engine.stored_mappings w' template_id)
    = length (Engine.stored_mappings w template_id) /\
  (forall j m, Engine.stored_mappings w template_id !! j = Some m ->
               Engine.record_key m <> field_id ->
               Engine.stored_mappings w' template_id !! j = Some m) /\
  (forall path, path <> Engine.get_mapping_file_path template_id ->
                w_mapping_files w' !! path = w_mapping_files w !! path) /\
  w_templates w' = w_templates w /\ w_run_history w' = w_run_history w /\
  w_snapshots w' = w_snapshots w.
Proof.
  unfold Engine.update_mapping. cbv zeta.
  destruct (list_find _ (Engine.stored_mappings w template_id))
    as [[i found]|] eqn:Ef.
  - apply list_find_Some in Ef as (Hi & Hkey & Hfirst).
    destruct (Engine.overwrite found canonical_id status user) as [found'|];
      [|discriminate].
    cbn [mbind option_bind]. intros [= <- <-].
    split; [done|]. split.
    { destruct (Engine.truthy _ && negb _) eqn:Eg.
      - eexists [_]. split; [reflexivity|]. split; [simpl; lia|].
        intros e ->%list_elem_of_singleton. simpl.
        apply andb_true_iff in Eg as [Ht Hn].
        apply negb_true_iff, bool_decide_eq_false in Hn.
        destruct (f_mapping_proposal found ≫= p_canonical_field_id)
          as [[|c g]|]; try done.
        simpl. repeat split; [congruence | discriminate].
      - exists []. rewrite app_nil_r. split; [done|]. split; [simpl; lia|].
        intros e He. by apply elem_of_nil in He. }
    rewrite stored_after_save. split; [apply length_insert|]. split.
    { intros j m Hj Hne. rewrite list_lookup_insert_ne; [done|].
      intros ->. rewrite Hi in Hj. injection Hj as ->. done. }
    split.
    { intros path Hne. unfold Engine.save_mappings. simpl.
      rewrite lookup_insert_ne by done. by destruct (_ && _). }
    by destruct (_ && _).
  - intros [= <- <-]. split; [done|]. split.
    { exists []. rewrite app_nil_r. split; [done|]. split; [simpl; lia|].
      intros e He. by apply elem_of_nil in He. }
    rewrite stored_after_save.
    split; [done|]. split; [done|]. split; [|done].
    intros path Hne. unfold Engine.save_mappings. simpl.
    by rewrite lookup_insert_ne.
Qed.

Lemma update_mapping_frame_witness :
  length (w_corrections Samples.form_overridden) = 1%nat /\
  Engine.stored_mappings Samples.form_overridden "form.pdf" !! 1%nat
  = Engine.stored_mappings Fixtures.mapped_world "form.pdf" !! 1%nat.
Proof.
  destruct (update_mapping_frame Fixtures.mapped_world Samples.form_overridden
              "form.pdf" "txt_dob" "birth_date_v2" "manual_override" "human" true)
    as (_ & _ & _ & Hother & _).
  - by vm_compute.
  - split; [by vm_compute|].
    destruct (Engine.stored_mappings Fixtures.mapped_world "form.pdf" !! 1%nat)
      as [m|] eqn:Em; [|by vm_compute in Em].
    rewrite (Hother 1%nat m Em); [done|].
    vm_compute in Em. injection Em as <-. by vm_compute.
Defined.


(** ** Corrections and later passes *)

(** The located record after a returning [update_mapping]. *)
Lemma update_mapping_found (w w1 : World)
    (template_id field_id canonical_id status user : string)
    (i : nat) (found : Field) (b : bool) :
  Engine.stored_mappings w template_id !! i = Some found ->
  Engine.record_key found = field_id ->
  (forall j g, Engine.stored_mappings w template_id !! j = Some g -> (j < i)%nat ->
               Engine.record_key g <> field_id) ->
  Engine.update_mapping w template_id field_id canonical_id status user
    = Some (b, w1) ->
  exists found',
    Engine.overwrite found canonical_id status user = Some found' /\
    Engine.stored_mappings w1 template_id
      = <[i := found']> (Engine.stored_mappings w template_id).
Proof.
  intros Hi Hkey Hfirst Hupd.
  assert (Hfind : list_find (fun f => Engine.record_key f = field_id)
                    (Engine.stored_mappings w template_id) = Some (i, found)).
  { apply list_find_Some. split; [exact Hi|]. split; [exact Hkey|].
    intros j y Hj Hlt. by apply (Hfirst j y). }
  unfold Engine.update_mapping in Hupd. cbv zeta in Hupd. rewrite Hfind in Hupd.
  destruct (Engine.overwrite found canonical_id status user) as [found'|];
    [|discriminate].
  cbn [mbind option_bind] in Hupd. injection Hupd as <- <-.
  exists found'. split; [done|]. by rewrite stored_after_save.
Qed.

(** X7.  A human decision survives the next mapping pass: after
    [update_mapping] with status [approved] or [manual_override], the pass
    returns the field with the chosen canonical id as name and as proposal,
    the given status and user, confidence [High] and source
    [manual_correction], provided no later stored record carries the field
    id as its [id] or [name]. *)
Theorem override_survives_remap (svc : Rag.RealRAGService) (w w1 w2 : World)
    (template_id field_id canonical_id status user : string)
    (template_fields out : list Field) (i n : nat) (found f : Field) :
  Engine.stored_mappings w template_id !! i = Some found ->
  f_id found = field_id ->
  Engine.record_key found = field_id ->
  (forall j g, Engine.stored_mappings w template_id !! j = Some g -> (j < i)%nat ->
               Engine.record_key g <> field_id) ->
  (forall j m, (i < j)%nat -> Engine.stored_mappings w template_id !! j = Some m ->
               f_id m <> field_id /\ f_name m <> field_id) ->
  status ∈ ["approved"; "manual_override"] ->
  Engine.update_mapping w template_id field_id canonical_id status user
    = Some (true, w1) ->
  Engine.map_template_fields svc w1 template_id template_fields = Some (out, w2) ->
  template_fields !! n = Some f ->
  f_id f = field_id ->
  exists f',
    out !! n = Some f' /\
    f_name f' = canonical_id /\ f_mapping_status f' = Some status /\
    f_confidence f' = Some "High" /\
    f_mapping_source f' = Some "manual_correction" /\
    f_reviewed_by f' = Some user /\
    (f_mapping_proposal f' ≫= p_canonical_field_id) = Some canonical_id.
Proof.
  intros Hi Hid Hkey Hfirst Hlater Hstatus Hupd Hmap Hn Hf.
  destruct (update_mapping_found _ _ _ _ _ _ _ _ _ _ Hi Hkey Hfirst Hupd)
    as (found' & Hov & Hst).
  unfold Engine.overwrite in Hov.
  destruct (f_mapping_proposal found) as [p|]; [|discriminate].
  cbn [mbind option_bind] in Hov. injection Hov as <-.
  pose proof (lookup_lt_Some _ _ _ Hi) as Hlt.
  edestruct (preserved_lookup_reused svc w1 w2 template_id template_fields out
               Hmap n i f) as (f' & Hout & _ & _ & _ & H1 & H2 & H3 & H4 & H5 & H6).
  - exact Hn.
  - rewrite Hst. by apply list_lookup_insert_eq.
  - left. simpl. congruence.
  - intros j m Hj Hm. rewrite Hst, list_lookup_insert_ne in Hm by lia.
    rewrite Hf. by apply (Hlater j m).
  - simpl. by apply bool_decide_eq_true_2.
  - exists f'. split; [exact Hout|]. simpl in *.
    rewrite H3. by repeat split.
Qed.

Lemma override_survives_remap_witness :
  exists f',
    Samples.remapped_fields !! 0%nat = Some f' /\
    f_name f' = "birth_date_v2" /\
    f_mapping_status f' = Some "manual_override" /\
    f_reviewed_by f' = Some "human".
Proof.
  destruct (override_survives_remap (Fixtures.service true)
              Fixtures.mapped_world Samples.form_overridden
              Samples.remapped_world "form.pdf" "txt_dob" "birth_date_v2"
              "manual_override" "human" Fixtures.form_fields
              Samples.remapped_fields 0 0
              (default (Fixtures.text_field "" "")
                 (Engine.stored_mappings Fixtures.mapped_world "form.pdf"
                    !! 0%nat))
              (Fixtures.text_field "txt_dob" "Date of Birth"))
    as (f' & Hout & Hname & Hstatus & _ & _ & Hby & _).
  - by vm_compute.
  - by vm_compute.
  - by vm_compute.
  - intros j g _ Hlt. lia.
  - intros [|[|[|j']]] m Hlt Hm; [lia| | |]; vm_compute in Hm;
      [injection Hm as <-; by vm_compute | discriminate | discriminate].
  - apply (bool_decide_unpack _). by vm_compute.
  - by vm_compute.
  - by vm_compute.
  - reflexivity.
  - reflexivity.
  - exists f'. split; [exact Hout|]. split; [exact Hname|].
    split; [exact Hstatus | exact Hby].
Defined.


(** X8.  Without a ready similarity service the pass still returns (given
    that the approved records of the store carry a proposal), and every
    field it does not preserve keeps its own id as name with confidence
    [Low], status [suggest_new] and source [Unmapped]. *)
Theorem not_ready_pass_degrades (svc : Rag.RealRAGService) (w : World)
    (template_id : string) (template_fields : list Field) :
  Rag.is_ready svc = false ->
  Forall (fun m => Engine.is_preserved_status (f_mapping_status m) = true ->
                   is_Some (f_mapping_proposal m))
         (Engine.stored_mappings w template_id) ->
  exists out w',
    Engine.map_template_fields svc w template_id template_fields
      = Some (out, w') /\
    forall i f,
      template_fields !! i = Some f ->
      Engine.preserved
        (Engine.build_saved_map (Engine.load_saved_params w template_id)) f
        = None ->
      exists f', out !! i = Some f' /\
        f_name f' = f_id f /\ f_confidence f' = Some "Low" /\
        f_mapping_status f' = Some "suggest_new" /\
        f_mapping_source f' = Some "Unmapped".
Proof.
  intros Hready Hstored.
  assert (Hsome : is_Some (Engine.map_template_fields svc w template_id
                             template_fields)).
  { unfold Engine.map_template_fields.
    destruct (first_loop_total
                (Engine.build_saved_map (Engine.load_saved_params w template_id))
                template_fields []) as [[[fs idxs] qs] E].
    { intros f ex _ Hp. unfold Engine.preserved in Hp.
      destruct (_ !! f_id f) as [e|] eqn:El; [|done].
      destruct (Engine.is_preserved_status (f_mapping_status e)) eqn:Es; [|done].
      injection Hp as <-. rewrite Forall_forall in Hstored.
      apply Hstored; [|exact Es].
      unfold Engine.build_saved_map, Engine.stored_mappings in *.
      destruct (Engine.load_saved_params w template_id) as [d|].
      - by eapply saved_map_values.
      - by rewrite lookup_empty in El. }
    rewrite app_nil_r in E. unfold Engine.first_loop. rewrite E.
    cbn [mbind option_bind]. destruct qs as [|q qs]; [by eexists|].
    rewrite search_not_ready by exact Hready. by eexists. }
  destruct Hsome as [[out w'] Hrun]. exists out, w'. split; [exact Hrun|].
  intros i f Hi Hp.
  by apply (not_ready_leaves_unmapped svc w w' template_id template_fields).
Qed.

Lemma not_ready_pass_degrades_witness :
  exists out w',
    Engine.map_template_fields (Fixtures.service false) Samples.form_overridden
      "form.pdf" Fixtures.form_fields = Some (out, w') /\
    exists f', out !! 1%nat = Some f' /\
      f_name f' = "cust" /\ f_mapping_status f' = Some "suggest_new".
Proof.
  destruct (not_ready_pass_degrades (Fixtures.service false)
              Samples.form_overridden "form.pdf" Fixtures.form_fields)
    as (out & w' & Hrun & Hlow).
  - reflexivity.
  - apply (bool_decide_unpack _). by vm_compute.
  - exists out, w'. split; [exact Hrun|].
    destruct (Hlow 1%nat (Fixtures.text_field "cust" "Customer"))
      as (f' & Hout & Hname & _ & Hstatus & _).
    + reflexivity.
    + by vm_compute.
    + exists f'. split; [exact Hout|]. split; [exact Hname | exact Hstatus].
Defined.


(** X9.  Repeating an [update_mapping] call is idempotent: the second call
    returns, logs no correction and leaves the stored list as the first
    call left it. *)
Theorem update_mapping_repeat (w w1 : World)
    (template_id field_id canonical_id status user : string) :
  Engine.update_mapping w template_id field_id canonical_id status user
    = Some (true, w1) ->
  exists w2,
    Engine.update_mapping w1 template_id field_id canonical_id status user
      = Some (true, w2) /\
    w_corrections w2 = w_corrections w1 /\
    Engine.stored_mappings w2 template_id = Engine.stored_mappings w1 template_id.
Proof.
  intros Hupd. unfold Engine.update_mapping in Hupd |- *. cbv zeta in Hupd |- *.
  destruct (list_find _ (Engine.stored_mappings w template_id))
    as [[i found]|] eqn:Ef.
  - pose proof Ef as Ef'. apply list_find_Some in Ef' as (Hi & Hkey & Hfirst).
    unfold Engine.overwrite in Hupd.
    destruct (f_mapping_proposal found) as [p|] eqn:Hp; [|discriminate].
    cbn [mbind option_bind] in Hupd. injection Hupd as <-.
    rewrite stored_after_save.
    pose proof (lookup_lt_Some _ _ _ Hi) as Hlt.
    set (found' := set_mapping found _ _ _ _ _ _ _).
    assert (Hfind : list_find (fun f => Engine.record_key f = field_id)
                      (<[i:=found']> (Engine.stored_mappings w template_id))
                    = Some (i, found')).
    { apply list_find_Some. split; [by apply list_lookup_insert_eq|].
      split; [exact Hkey|]. intros j y Hj Hlt'.
      rewrite list_lookup_insert_ne in Hj by lia. by apply (Hfirst j y). }
    rewrite Hfind. cbn.
    rewrite bool_decide_eq_true_2 by reflexivity.
    rewrite andb_false_r.
    eexists. split; [reflexivity|]. split.
    + simpl. by destruct (_ && _).
    + rewrite stored_after_save. by rewrite list_insert_insert_eq.
  - injection Hupd as <-. rewrite stored_after_save, Ef.
    eexists. split; [reflexivity|]. split; [done|].
    by rewrite stored_after_save.
Qed.

Lemma update_mapping_repeat_witness :
  exists w2,
    Engine.update_mapping Samples.form_overridden "form.pdf" "txt_dob"
      "birth_date_v2" "manual_override" "human" = Some (true, w2) /\
    w_corrections w2 = w_corrections Samples.form_overridden /\
    Engine.stored_mappings w2 "form.pdf"
    = Engine.stored_mappings Samples.form_overridden "form.pdf".
Proof.
  apply (update_mapping_repeat Fixtures.mapped_world Samples.form_overridden
           "form.pdf" "txt_dob" "birth_date_v2" "manual_override" "human").
  by vm_compute.
Defined.


(** ** Repeated analysis (main.analyze_template) *)

(** What an analysis that goes past the cache returns comes from a mapping
    pass over the template's file name, or is empty. *)
Lemma analyze_template_uncached (sc : Main.Scanners) (svc : Rag.RealRAGService)
    (w w' : World) (template_path : string) (fields : list Field) :
  Main.cached_mappings w template_path = None ->
  Main.analyze_template sc svc w template_path = Some (fields, w') ->
  (fields = [] /\ w' = with_event w (EvPdfRead template_path)) \/
  exists raw,
    Engine.map_template_fields svc (with_event w (EvPdfRead template_path))
      (Main.basename template_path) raw = Some (fields, w').
Proof.
  intros Hc Hrun. unfold Main.analyze_template in Hrun. rewrite Hc in Hrun.
  destruct (w_templates w !! template_path) as [[mt pdf]|]; [|discriminate].
  cbn [mbind option_bind] in Hrun. cbv zeta in Hrun.
  assert (Hstatic :
            forall r,
              r = Some (fields, w') ->
              r = match Main.scan_for_static_fields sc pdf with
                  | [] => Some ([], with_event w (EvPdfRead template_path))
                  | f :: l =>
                      Engine.map_template_fields svc
                        (with_event w (EvPdfRead template_path))
                        (Main.basename template_path) (f :: l)
                  end ->
              (fields = [] /\ w' = with_event w (EvPdfRead template_path)) \/
              exists raw,
                Engine.map_template_fields svc
                  (with_event w (EvPdfRead template_path))
                  (Main.basename template_path) raw = Some (fields, w')).
  { intros r -> Hr. destruct (Main.scan_for_static_fields sc pdf) as [|s l].
    - injection Hr as <- <-. by left.
    - right. by eexists. }
  destruct (Main.acroform_fields sc pdf) as [raw|];
    [|by eapply Hstatic].
  destruct (Engine.map_template_fields svc _ _ raw) as [r|] eqn:Em;
    [|by eapply Hstatic].
  injection Hrun as ->. right. by exists raw.
Qed.

(** X10.  Analysing a template twice in a row is stable: when an analysis
    finds fields for a template that is not newer than the clock, the next
    analysis returns the same fields and changes nothing (it is served from
    the mapping file just written). *)
Theorem analyze_template_idempotent (sc : Main.Scanners)
    (svc : Rag.RealRAGService) (w w' : World) (template_path : string)
    (fields : list Field) (pdf_mtime : nat) (pdf : Pdf) :
  Main.analyze_template sc svc w template_path = Some (fields, w') ->
  fields <> [] ->
  w_templates w !! template_path = Some (pdf_mtime, pdf) ->
  (pdf_mtime <= w_now w)%nat ->
  Main.analyze_template sc svc w' template_path = Some (fields, w').
Proof.
  intros Hrun Hne Htpl Hclock.
  destruct (Main.cached_mappings w template_path) as [cached|] eqn:Hc.
  - unfold Main.analyze_template in Hrun. rewrite Hc in Hrun.
    injection Hrun as <- <-. unfold Main.analyze_template. by rewrite Hc.
  - destruct (analyze_template_uncached _ _ _ _ _ _ Hc Hrun)
      as [[-> _] | [raw Hmap]]; [done|].
    destruct (map_pass_world _ _ _ _ _ _ Hmap)
      as (Hfile & _ & Ht & _ & _ & _ & _ & _).
    unfold Main.analyze_template, Main.cached_mappings.
    rewrite Hfile, Ht. simpl. rewrite Htpl. cbn [mbind option_bind].
    rewrite (proj2 (Nat.leb_le _ _) Hclock).
    destruct fields; [done|]. reflexivity.
Qed.

Lemma analyze_template_idempotent_witness :
  Samples.analysed_fields <> [] /\
  Main.analyze_template Fixtures.coords_scanners (Fixtures.service true)
    Samples.analysed_world "templates/form.pdf"
  = Some (Samples.analysed_fields, Samples.analysed_world).
Proof.
  split; [by vm_compute|].
  apply (analyze_template_idempotent Fixtures.coords_scanners
           (Fixtures.service true) Samples.header_world Samples.analysed_world
           "templates/form.pdf" Samples.analysed_fields 3 Fixtures.header_pdf).
  - by vm_compute.
  - by vm_compute.
  - by vm_compute.
  - vm_compute. lia.
Defined.


(** An analysis that finds no field is never cached. *)

(** ** Output file names (main.fill_single_record) *)

(** *** Replacing and stripping, character by character *)

Lemma all_chars_lstrip (p : ascii -> bool) (s : string) :
  PyStr.all_chars p s = true -> PyStr.all_chars p (PyStr.lstrip s) = true.
Proof.
  induction s as [|c s IH]; simpl; [done|].
  intros H. destruct (PyStr.is_space c); [|exact H].
  apply andb_true_iff in H as [_ H]. by apply IH.
Qed.

Lemma all_chars_rstrip (p : ascii -> bool) (s : string) :
  PyStr.all_chars p s = true -> PyStr.all_chars p (PyStr.rstrip s) = true.
Proof.
  induction s as [|c s IH]; simpl; [done|].
  intros [Hc Hs]%andb_true_iff. specialize (IH Hs).
  destruct (PyStr.rstrip s) as [|d r].
  - destruct (PyStr.is_space c); simpl; [done | by rewrite Hc].
  - simpl in *. by rewrite Hc, IH.
Qed.

Lemma all_chars_strip (p : ascii -> bool) (s : string) :
  PyStr.all_chars p s = true -> PyStr.all_chars p (PyStr.strip s) = true.
Proof. intros H. by apply all_chars_rstrip, all_chars_lstrip. Qed.

Lemma split_go_nonempty (sep : string) (skip : nat) (cur s : string) :
  PyStr.split_go sep skip cur s <> [].
Proof.
  revert skip cur. induction s as [|d s IH]; intros skip cur;
    cbn [PyStr.split_go]; [done|].
  destruct skip; [|apply IH].
  destruct (String.prefix sep (String d s)); [done | apply IH].
Qed.

(** Replacing one character by [new]: a property of characters that holds
    for [new] and for every other character of [s] holds for the result. *)
Lemma all_chars_replace_go (p : ascii -> bool) (c : ascii) (new cur s : string) :
  PyStr.all_chars p new = true ->
  PyStr.all_chars p cur = true ->
  PyStr.all_chars (fun d => Ascii.eqb c d || p d) s = true ->
  PyStr.all_chars p
    (PyStr.join new (PyStr.split_go (String c EmptyString) 0 cur s)) = true.
Proof.
  intros Hnew. revert cur. induction s as [|d s IH]; intros cur Hcur Hs.
  - exact Hcur.
  - simpl in Hs. apply andb_true_iff in Hs as [Hd Hs].
    cbn [PyStr.split_go String.prefix].
    destruct (ascii_dec c d) as [->|Hne].
    + assert (Hp : String.prefix EmptyString s = true) by (by destruct s).
      rewrite Hp. cbn [String.length Nat.sub].
      specialize (IH EmptyString eq_refl Hs).
      pose proof (split_go_nonempty (String d EmptyString) 0 EmptyString s) as Hn.
      destruct (PyStr.split_go (String d EmptyString) 0 EmptyString s)
        as [|x l]; [done|].
      change (PyStr.join new (cur :: x :: l))
        with (cur +:+ new +:+ PyStr.join new (x :: l)).
      by rewrite !all_chars_app, Hcur, Hnew, IH.
    + apply IH; [|exact Hs]. rewrite all_chars_app, Hcur. simpl.
      apply Ascii.eqb_neq in Hne. rewrite Hne in Hd. simpl in Hd.
      by rewrite Hd.
Qed.

Lemma all_chars_replace (p : ascii -> bool) (c : ascii) (new s : string) :
  PyStr.all_chars p new = true ->
  PyStr.all_chars (fun d => Ascii.eqb c d || p d) s = true ->
  PyStr.all_chars p (PyStr.replace (String c EmptyString) new s) = true.
Proof. intros Hnew Hs. by apply all_chars_replace_go. Qed.

(** X19.  The name part of an output file is made of letters, digits and
    underscores only, whatever [registered_name] holds. *)
Theorem safe_name_chars (record : Main.DataRecord) :
  PyStr.all_chars
    (fun c => PyStr.is_alpha c || PyStr.is_digit c || Ascii.eqb c "_")
    (Main.safe_name record) = true.
Proof.
  unfold Main.safe_name. apply all_chars_replace; [done|].
  apply all_chars_strip.
  eapply all_chars_impl; [|apply all_chars_filter].
  intros c Hc. simpl in Hc.
  apply orb_true_iff in Hc as [Hc | Hc].
  - rewrite Hc. apply orb_true_r.
  - apply bool_decide_eq_true in Hc as ->. reflexivity.
Qed.

(** ** Section headers (main.find_section_headers) *)

Lemma all_chars_true (p : ascii -> bool) (s : string) :
  (forall c, p c = true) -> PyStr.all_chars p s = true.
Proof. intros H. induction s as [|c s IH]; simpl; [done|]. by rewrite H, IH. Qed.

(** A header text has no colon left and comes from a run of at least three
    characters. *)
Lemma visitor_header_text (r : TextRun) (h : Q * string) :
  Main.visitor_header r = Some h ->
  fst h = run_y r /\
  (3 <= String.length (PyStr.strip (run_text r)))%nat /\
  PyStr.all_chars (fun c => negb (Ascii.eqb ":" c)) (snd h) = true.
Proof.
  unfold Main.visitor_header.
  destruct (String.length (PyStr.strip (run_text r)) <? 3)%nat eqn:El;
    [discriminate|].
  apply Nat.ltb_ge in El.
  destruct (_ || _ || _); [|discriminate].
  intros [= <-]. simpl. split; [done|]. split; [exact El|].
  apply all_chars_strip.
  apply (all_chars_replace (fun c => negb (Ascii.eqb ":" c)) ":" EmptyString);
    [reflexivity|].
  apply all_chars_true. intros c. by destruct (Ascii.eqb ":" c).
Qed.

(** X11.  The headers found for page [n] (pages count from 1) are exactly
    the header lines among the text runs of that page, ordered from the
    top of the page down, and no header text contains a colon. *)
Theorem section_headers_well_formed (pdf : Pdf) (n : nat)
    (headers : list (Q * string)) :
  Main.find_section_headers pdf !! n = Some headers ->
  exists page,
    (1 <= n)%nat /\ pdf_pages pdf !! (n - 1)%nat = Some page /\
    top_down headers /\
    (forall h, h ∈ headers <->
               exists r, r ∈ page_runs page /\ Main.visitor_header r = Some h) /\
    (forall h, h ∈ headers ->
               PyStr.all_chars (fun c => negb (Ascii.eqb ":" c)) (snd h) = true).
Proof.
  rewrite find_section_headers_lookup. destruct n as [|i]; [discriminate|].
  destruct (pdf_pages pdf !! i) as [page|] eqn:Ep; [|discriminate].
  intros [= <-]. exists page. split; [lia|].
  split; [by replace (S i - 1)%nat with i by lia|].
  split; [apply sort_desc_sorted|].
  assert (Hiff : forall h, h ∈ Main.page_headers page <->
                   exists r, r ∈ page_runs page /\ Main.visitor_header r = Some h).
  { intros h. unfold Main.page_headers.
    by rewrite sort_desc_elem, list_elem_of_omap. }
  split; [exact Hiff|].
  intros h Hh. apply Hiff in Hh as (r & _ & Hr).
  by apply visitor_header_text in Hr as (_ & _ & Hc).
Qed.

Lemma section_headers_well_formed_witness :
  exists page,
    pdf_pages Fixtures.header_pdf !! 0%nat = Some page /\
    forall h, h ∈ [(705%Q, "APPLICANT DETAILS")] ->
      PyStr.all_chars (fun c => negb (Ascii.eqb ":" c)) (snd h) = true.
Proof.
  destruct (section_headers_well_formed Fixtures.header_pdf 1
              [(705%Q, "APPLICANT DETAILS")])
    as (page & _ & Hpage & _ & _ & Hcolon).
  - by vm_compute.
  - exists page. split; [exact Hpage | exact Hcolon].
Defined.


(** ** Fill routing (main.UniversalDocumentFiller.fill) *)

Section DispatchShape.

Variable record : Main.DataRecord.

Local Abbreviation value_of f := (Main.record_get record (f_name f) "").
Local Abbreviation native f := (f_source f = "acroform" /\ f_id f <> "").
Local Abbreviation drawn f := (PyStr.strip (value_of f) <> "" /\ ~ native f).

Lemma dispatch_step_shape (st : gmap string string * list Field) (g : Field) :
  (Main.dispatch_step record st g).2
    = st.2 ++ (if decide (drawn g) then [g] else []) /\
  forall k v,
    (Main.dispatch_step record st g).1 !! k = Some v ->
    st.1 !! k = Some v \/
    (f_id g = k /\ native g /\ PyStr.strip (value_of g) <> "" /\
     (f_type g <> "checkbox" -> v = value_of g) /\
     (f_type g = "checkbox" ->
      PyStr.lower (value_of g) ∈ Main.truthy_tokens /\
      v = match default [] (f_export_options g) with
          | first :: _ => first
          | [] => "/Yes"
          end)).
Proof.
  destruct st as [m ov]. unfold Main.dispatch_step.
  case_bool_decide as Hv.
  { simpl. rewrite decide_False by tauto. rewrite app_nil_r. auto. }
  case_bool_decide as Hs; case_bool_decide as Hi; cbn [andb negb].
  - simpl. rewrite decide_True by tauto. auto.
  - assert (Hn : native g) by done.
    case_bool_decide as Ht.
    + case_bool_decide as Hy.
      * destruct (default [] (f_export_options g)) as [|o os] eqn:Eo; simpl;
          (rewrite decide_False by tauto; rewrite app_nil_r; split; [done|]);
          intros k v Hk;
          (destruct (decide (f_id g = k)) as [<-|Hne];
           [rewrite lookup_insert_eq in Hk; injection Hk as <-; right;
            repeat split; try done
           |rewrite lookup_insert_ne in Hk by done; by left]).
      * simpl. rewrite decide_False by tauto. rewrite app_nil_r. auto.
    + simpl. rewrite decide_False by tauto. rewrite app_nil_r. split; [done|].
      intros k v Hk. destruct (decide (f_id g = k)) as [<-|Hne].
      * rewrite lookup_insert_eq in Hk. injection Hk as <-. right.
        repeat split; try done.
      * rewrite lookup_insert_ne in Hk by done. by left.
  - simpl. rewrite decide_True by tauto. auto.
  - simpl. rewrite decide_True by tauto. auto.
Qed.

Lemma dispatch_fold_shape (fields : list Field)
    (st : gmap string string * list Field) :
  (foldl (Main.dispatch_step record) st fields).2
    = st.2 ++ filter (fun f => drawn f) fields /\
  forall k v,
    (foldl (Main.dispatch_step record) st fields).1 !! k = Some v ->
    st.1 !! k = Some v \/
    exists g, g ∈ fields /\ f_id g = k /\ native g /\
              PyStr.strip (value_of g) <> "" /\
              (f_type g <> "checkbox" -> v = value_of g) /\
              (f_type g = "checkbox" ->
               PyStr.lower (value_of g) ∈ Main.truthy_tokens /\
               v = match default [] (f_export_options g) with
                   | first :: _ => first
                   | [] => "/Yes"
                   end).
Proof.
  revert st. induction fields as [|g fields IH]; intros st.
  - simpl. rewrite app_nil_r. auto.
  - simpl. destruct (IH (Main.dispatch_step record st g)) as [Hov Hnat].
    destruct (dispatch_step_shape st g) as [Hov1 Hnat1]. split.
    + rewrite Hov, Hov1, <- app_assoc. f_equal.
      destruct (decide (drawn g)).
      * by rewrite filter_cons_True.
      * by rewrite filter_cons_False.
    + intros k v Hk. apply Hnat in Hk as [Hk | (g' & Hg' & H)].
      * apply Hnat1 in Hk as [Hk | H]; [by left|].
        right. exists g. split; [by left | exact H].
      * right. exists g'. split; [by right | exact H].
Qed.

(** X15.  The routing of a field list: the overlay list is exactly the
    fields with a non-blank value that are not interactive (source
    [acroform] with an id), in the order of the fields; every entry of the
    form data comes from an interactive field with a non-blank value, a
    text field giving the value as it is and a checkbox, only for a truthy
    value, its first export option or [/Yes]. *)
Theorem dispatch_partition (fields : list Field) :
  (Main.dispatch record fields).2 = filter (fun f => drawn f) fields /\
  forall k v,
    (Main.dispatch record fields).1 !! k = Some v ->
    exists g, g ∈ fields /\ f_id g = k /\ native g /\
              PyStr.strip (value_of g) <> "" /\
              (f_type g <> "checkbox" -> v = value_of g) /\
              (f_type g = "checkbox" ->
               PyStr.lower (value_of g) ∈ Main.truthy_tokens /\
               v = match default [] (f_export_options g) with
                   | first :: _ => first
                   | [] => "/Yes"
                   end).
Proof.
  unfold Main.dispatch. destruct (dispatch_fold_shape fields (∅, [])) as [H1 H2].
  split; [exact H1|]. intros k v Hk. apply H2 in Hk as [Hk|Hk]; [|exact Hk].
  simpl in Hk. by rewrite lookup_empty in Hk.
Qed.

End DispatchShape.

Lemma omap_ext_elem {A B} (f g : A -> option B) (l : list A) :
  (forall x, x ∈ l -> f x = g x) -> omap f l = omap g l.
Proof.
  intros H. apply list_omap_ext. induction l as [|a l IH]; constructor.
  - apply H. by left.
  - apply IH. intros x Hx. apply H. by right.
Qed.

(** X16.  Overlay drawing stays within the document: every page that gets
    an overlay is a page of the document and has a field on it, and overlay
    fields that name a page outside the document change nothing. *)
Theorem overlays_within_document (n_pages : nat) (overlay_fields : list Field)
    (record : Main.DataRecord) :
  (forall i cmds, (i, cmds) ∈ Main.overlays n_pages overlay_fields record ->
     (i < n_pages)%nat /\
     exists f, f ∈ overlay_fields /\ f_page f = S i) /\
  Main.overlays n_pages overlay_fields record
    = Main.overlays n_pages
        (filter (fun f => (1 <= f_page f <= n_pages)%nat) overlay_fields) record.
Proof.
  split.
  - intros i cmds Hin. unfold Main.overlays in Hin.
    apply list_elem_of_omap in Hin as (j & Hj & Hcmd).
    apply elem_of_seq in Hj as [_ Hj]. simpl in Hj.
    destruct (filter _ overlay_fields) as [|f fs] eqn:Ef; [discriminate|].
    injection Hcmd as <- _. split; [exact Hj|].
    exists f.
    assert (Hf : f ∈ filter (fun f => f_page f = S j) overlay_fields)
      by (rewrite Ef; by left).
    apply list_elem_of_filter in Hf as [H1 H2]. by split.
  - unfold Main.overlays. apply omap_ext_elem.
    intros i Hi. apply elem_of_seq in Hi as [_ Hi]. simpl in Hi.
    assert (Heq : filter (fun f => f_page f = S i) overlay_fields
                  = filter (fun f => f_page f = S i)
                      (filter (fun f => (1 <= f_page f <= n_pages)%nat)
                         overlay_fields)).
    { rewrite list_filter_filter. apply list_filter_iff. intros f. lia. }
    by rewrite <- Heq.
Qed.

(** ** What a fill writes (main.UniversalDocumentFiller.fill) *)

(** The output document of a returning [fill]. *)
Lemma fill_document (sc : Main.Scanners) (svc : Rag.RealRAGService)
    (w w' : World) (template_path : string) (record : Main.DataRecord)
    (output_path : string) (fields : list Field) :
  Main.fill sc svc w template_path record output_path = Some (fields, w') ->
  exists mt pdf doc,
    w_templates w !! template_path = Some (mt, pdf) /\
    w_filled w' !! output_path = Some doc /\
    fd_values doc = (Main.dispatch record fields).1 /\
    fd_overlays doc
    = Main.overlays (length (pdf_pages pdf)) (Main.dispatch record fields).2
        record.
Proof.
  intros Hfill.
  apply fill_inv in Hfill as (mt & pdf & wa & Ht & _ & _ & _ & ->).
  exists mt, pdf. eexists. split; [exact Ht|]. simpl.
  rewrite lookup_insert_eq. by repeat split.
Qed.





(** The overlay of a page: a field of the overlay list that sits on page
    [S i] of the document and is drawn has its command among those of
    page index [i]. *)
Lemma overlays_elem (n_pages : nat) (overlay_fields : list Field)
    (record : Main.DataRecord) (field : Field) (i : nat) (cmd : DrawCmd) :
  field ∈ overlay_fields -> f_page field = S i -> (i < n_pages)%nat ->
  Main.overlay_cmd record field = Some cmd ->
  exists cmds,
    (i, cmds) ∈ Main.overlays n_pages overlay_fields record /\ cmd ∈ cmds.
Proof.
  intros Hin Hpage Hlt Hcmd.
  assert (Hfs : field ∈ filter (fun f => f_page f = S i) overlay_fields).
  { by apply list_elem_of_filter. }
  exists (Main._apply_overlay (filter (fun f => f_page f = S i) overlay_fields)
            record).
  split.
  - unfold Main.overlays. apply list_elem_of_omap. exists i. split.
    + apply elem_of_seq. lia.
    + destruct (filter (fun f => f_page f = S i) overlay_fields) eqn:E;
        [by apply elem_of_nil in Hfs | done].
  - unfold Main._apply_overlay. apply list_elem_of_omap. by exists field.
Qed.

(** C8 as the code has it.  In a fill that returns, a field that is drawn
    over a page of the document (it has a non-blank value, a rectangle, and
    is not an acroform widget with an id) has its text among the commands
    of its page: clipped to its rectangle, in Helvetica of size
    [min(12, height * 0.8)], at [x + 2], on the baseline
    [y + height / 2 - size / 2 + 1].  That is one unit above the baseline
    that would centre the text band in the rectangle: the room under the
    band exceeds the room over it by 2.  For a height of 15 the font size
    is 12 and the baseline lies 2.5 above the lower edge, with 2.5 under
    the band and 0.5 over it. *)
Theorem overlay_text_geometry (sc : Main.Scanners) (svc : Rag.RealRAGService)
    (w w' : World) (template_path : string) (record : Main.DataRecord)
    (output_path : string) (fields : list Field) (mt : nat) (pdf : Pdf)
    (field : Field) (rect : Rect) (i : nat) :
  Main.fill sc svc w template_path record output_path = Some (fields, w') ->
  w_templates w !! template_path = Some (mt, pdf) ->
  field ∈ fields ->
  f_source field <> "acroform" \/ f_id field = "" ->
  f_rect field = Some rect ->
  PyStr.strip (Main.record_get record (f_name field) "") <> "" ->
  f_page field = S i -> (i < length (pdf_pages pdf))%nat ->
  let x := Main.py_min (rx1 rect) (rx2 rect) in
  let y := Main.py_min (ry1 rect) (ry2 rect) in
  let w := Qabs (rx2 rect - rx1 rect) in
  let h := Qabs (ry2 rect - ry1 rect) in
  exists doc cmds cmd,
    w_filled w' !! output_path = Some doc /\
    (i, cmds) ∈ fd_overlays doc /\ cmd ∈ cmds /\
    dc_clip cmd = (x, y, w, h) /\
    dc_text cmd = PyStr.strip (Main.record_get record (f_name field) "") /\
    dc_font cmd = "Helvetica" /\
    (dc_font_size cmd == Qmin 12 (h * 0.8))%Q /\
    (dc_x cmd == x + 2)%Q /\
    (dc_y cmd == y + h / 2 - dc_font_size cmd / 2 + 1)%Q /\
    ((dc_y cmd - y) - ((y + h) - (dc_y cmd + dc_font_size cmd)) == 2)%Q /\
    ((h == 15)%Q ->
     (dc_font_size cmd == 12)%Q /\ (dc_y cmd == y + 2.5)%Q /\
     (y < dc_y cmd)%Q /\ (dc_y cmd < y + h)%Q /\
     (dc_y cmd - y == 2.5)%Q /\
     ((y + h) - (dc_y cmd + dc_font_size cmd) == 0.5)%Q).
Proof.
  intros Hfill Ht Hin Hov Hrect Hval Hpage Hlt x y w0 h.
  destruct (fill_document _ _ _ _ _ _ _ _ Hfill)
    as (mt' & pdf' & doc & Ht' & Hdoc & _ & Hovs).
  rewrite Ht in Ht'. injection Ht' as <- <-.
  destruct (overlay_cmd_geometry record field rect Hrect Hval)
    as (cmd & Hcmd & Hgeo).
  assert (Hdrawn : field ∈ (Main.dispatch record fields).2).
  { unfold Main.dispatch.
    destruct (dispatch_fold_shape record fields (∅, [])) as [Hshape _].
    rewrite Hshape. simpl. apply list_elem_of_filter. split; [|exact Hin].
    split; [exact Hval|]. intros [Hs Hi]. destruct Hov; done. }
  destruct (overlays_elem (length (pdf_pages pdf)) _ record field i cmd
              Hdrawn Hpage Hlt Hcmd) as (cmds & Hcmds & Hc).
  exists doc, cmds, cmd. split; [exact Hdoc|]. rewrite Hovs.
  split; [exact Hcmds|]. split; [exact Hc|]. exact Hgeo.
Qed.

(** The value [John Doe] drawn into the zone [[100, 700, 250, 715]] of a
    flat document: size 12 on the baseline 702.5. *)
Lemma overlay_text_geometry_witness :
  exists fields w' doc cmds cmd,
    Main.fill Samples.flat_scanners (Fixtures.service true) Samples.flat_world
      "templates/flat.pdf" [("first_name", "John Doe")] "filled/out.pdf"
    = Some (fields, w') /\
    w_filled w' !! "filled/out.pdf" = Some doc /\
    (0%nat, cmds) ∈ fd_overlays doc /\ cmd ∈ cmds /\
    dc_text cmd = "John Doe" /\
    (dc_font_size cmd == 12)%Q /\ (dc_y cmd == 702.5)%Q.
Proof.
  destruct (Main.fill Samples.flat_scanners (Fixtures.service true)
              Samples.flat_world "templates/flat.pdf"
              [("first_name", "John Doe")] "filled/out.pdf")
    as [[fields w']|] eqn:Efill; [|by vm_compute in Efill].
  destruct fields as [|f fields]; [by vm_compute in Efill|].
  assert (Hf : f_source f = "static_scan" /\ f_name f = "first_name" /\
               f_rect f = Some Fixtures.name_rect /\ f_page f = 1%nat).
  { vm_compute in Efill. by injection Efill as <- _ _. }
  destruct Hf as (Hsrc & Hname & Hrect & Hpage).
  destruct (overlay_text_geometry _ _ _ _ _ _ _ _ 3 Fixtures.empty_pdf f
              Fixtures.name_rect 0 Efill)
    as (doc & cmds & cmd & Hdoc & Hcmds & Hc & _ & Htext & _ & _ & _ & _ & _
        & H15).
  - by vm_compute.
  - by left.
  - left. rewrite Hsrc. discriminate.
  - exact Hrect.
  - rewrite Hname. by vm_compute.
  - exact Hpage.
  - vm_compute. lia.
  - destruct H15 as (Hsize & Hy & _); [by vm_compute|].
    exists (f :: fields), w', doc, cmds, cmd. split; [reflexivity|].
    split; [exact Hdoc|]. split; [exact Hcmds|]. split; [exact Hc|].
    split; [by rewrite Htext, Hname|]. split; [exact Hsize|].
    rewrite Hy. by vm_compute.
Defined.

(** C8 as worded fails: the text drawn into the zone of height 15 has 2.5
    units under its band and 0.5 over it; it is not vertically centred. *)
Lemma overlay_text_geometry_counterexample :
  match Main.fill Samples.flat_scanners (Fixtures.service true)
          Samples.flat_world "templates/flat.pdf"
          [("first_name", "John Doe")] "filled/out.pdf"
  with
  | Some (_, w') =>
      match fd_overlays <$> w_filled w' !! "filled/out.pdf" with
      | Some [(0%nat, [cmd])] =>
          dc_clip cmd = (100, 700, 150, 15)%Q /\ dc_text cmd = "John Doe" /\
          (dc_font_size cmd == 12)%Q /\
          (dc_y cmd - 700 == 2.5)%Q /\
          ((700 + 15) - (dc_y cmd + dc_font_size cmd) == 0.5)%Q /\
          ~ Spec.vertically_centered 700 15 cmd
      | _ => False
      end
  | None => False
  end.
Proof. vm_compute. repeat split; try done. Qed.

(** ** Overlay text and the audit trail (main.UniversalDocumentFiller, main.fill_single_record) *)

(** The drawn text of an overlay field. *)
Lemma draw_text_baseline (text : string) (x y w h : Q) :
  (0 <= h)%Q ->
  let cmd := Main._draw_text_field text x y w h in
  (0 <= dc_font_size cmd)%Q /\ (dc_font_size cmd <= 12)%Q /\
  (dc_font_size cmd <= h)%Q /\
  (y + 1 <= dc_y cmd)%Q /\
  ((dc_y cmd <= y + h)%Q <-> (10 # 9 <= h)%Q).
Proof.
  intros Hh cmd. subst cmd. unfold Main._draw_text_field, Main.py_min. simpl.
  assert (E1 : (h / 2 == h * (1 # 2))%Q) by field.
  assert (E2 : (h * 0.8 / 2 == h * (2 # 5))%Q) by field.
  assert (E3 : (h * 0.8 == h * (4 # 5))%Q) by ring.
  assert (E4 : (12 / 2 == 6)%Q) by reflexivity.
  destruct (Qlt_bool (h * 0.8) 12) eqn:E.
  - apply Qlt_bool_iff in E. rewrite E3 in E. rewrite E1, E2, E3.
    repeat split; try lra.
  - apply Qlt_bool_false_iff in E. rewrite E3 in E. rewrite E1, E4.
    repeat split; try lra.
Qed.

(** X17.  The text drawn for an overlay field, whichever way round the
    corners of its rectangle are given: the font size is between 0 and 12
    and at most the height of the rectangle, the baseline is at least one
    unit above the lower edge, and it is within the rectangle exactly when
    the rectangle is at least 10/9 units high. *)
Theorem overlay_cmd_baseline (record : Main.DataRecord) (field : Field)
    (rect : Rect) (cmd : DrawCmd) :
  f_rect field = Some rect ->
  Main.overlay_cmd record field = Some cmd ->
  let y := Main.py_min (ry1 rect) (ry2 rect) in
  let h := Qabs (ry2 rect - ry1 rect) in
  (0 <= dc_font_size cmd)%Q /\ (dc_font_size cmd <= 12)%Q /\
  (dc_font_size cmd <= h)%Q /\
  (y + 1 <= dc_y cmd)%Q /\
  ((dc_y cmd <= y + h)%Q <-> (10 # 9 <= h)%Q).
Proof.
  intros Hrect Hcmd y h. unfold Main.overlay_cmd in Hcmd.
  destruct (bool_decide _); [discriminate|]. rewrite Hrect in Hcmd.
  cbn [mbind option_bind] in Hcmd. injection Hcmd as <-.
  apply draw_text_baseline. apply Qabs_nonneg.
Qed.

Lemma overlay_cmd_baseline_witness :
  exists cmd,
    Main.overlay_cmd [("registered_name", "John Doe")] Fixtures.overlay_field
      = Some cmd /\
    (dc_font_size cmd <= 12)%Q /\ (700 + 1 <= dc_y cmd)%Q.
Proof.
  destruct (Main.overlay_cmd [("registered_name", "John Doe")]
              Fixtures.overlay_field) as [cmd|] eqn:Ecmd;
    [|by vm_compute in Ecmd].
  destruct (overlay_cmd_baseline [("registered_name", "John Doe")]
              Fixtures.overlay_field
              {| rx1 := 100; ry1 := 700; rx2 := 250; ry2 := 715 |} cmd
              eq_refl Ecmd)
    as (_ & H12 & _ & Hy & _).
  exists cmd. split; [reflexivity|]. split; [exact H12 | exact Hy].
Defined.


(** What an analysis leaves alone. *)
Lemma analyze_template_frame (sc : Main.Scanners) (svc : Rag.RealRAGService)
    (w w' : World) (template_path : string) (fields : list Field) :
  Main.analyze_template sc svc w template_path = Some (fields, w') ->
  w_templates w' = w_templates w /\ w_corrections w' = w_corrections w /\
  w_run_history w' = w_run_history w /\ w_snapshots w' = w_snapshots w /\
  w_filled w' = w_filled w /\ w_now w' = w_now w /\
  (forall path,
      path <> Engine.get_mapping_file_path (Main.basename template_path) ->
      w_mapping_files w' !! path = w_mapping_files w !! path).
Proof.
  intros Hrun.
  destruct (Main.cached_mappings w template_path) as [cached|] eqn:Hc.
  - unfold Main.analyze_template in Hrun. rewrite Hc in Hrun.
    by injection Hrun as <- <-.
  - destruct (analyze_template_uncached _ _ _ _ _ _ Hc Hrun)
      as [[_ ->] | [raw Hmap]]; [done|].
    destruct (map_pass_world _ _ _ _ _ _ Hmap)
      as (_ & Hother & Ht & Hcr & Hh & Hs & Hf & Hn).
    by repeat split.
Qed.

Lemma append_cons_nonempty (s t : string) (c : ascii) :
  s +:+ String c t <> EmptyString.
Proof. by destruct s. Qed.

(** X18.  A fill run leaves exactly one new entry at the end of the run
    history, naming the run, the template, the output path and the keys of
    the record; it writes the filled document at that path and one snapshot
    file [filled_metadata/<name>_mapping.json] whose name part holds only
    letters, digits, [_] and [-]; the corrections log and the templates are
    untouched. *)
Theorem fill_single_record_audit (sc : Main.Scanners) (svc : Rag.RealRAGService)
    (w w' : World) (run_id : string) (record : Main.DataRecord)
    (template_filename output_path : string) :
  Main.fill_single_record sc svc w run_id record template_filename
    = Some (output_path, w') ->
  exists entry doc name,
    w_run_history w' = w_run_history w ++ [entry] /\
    rd_run_id entry = run_id /\ rd_template_id entry = template_filename /\
    rd_filled_pdf_path entry = output_path /\
    rd_input_payload_keys entry = record.*1 /\
    w_filled w' = <[output_path := doc]> (w_filled w) /\
    w_snapshots w'
      = <["filled_metadata/" +:+ name +:+ "_mapping.json"
            := rd_mapping_snapshot entry]> (w_snapshots w) /\
    PyStr.all_chars
      (fun c => PyStr.is_alnum c || bool_decide (c ∈ ["_"%char; "-"%char]))
      name = true /\
    w_corrections w' = w_corrections w /\ w_templates w' = w_templates w.
Proof.
  intros Hrun.
  apply fill_single_record_inv in Hrun as (fields & wf & -> & Hfill & ->).
  apply fill_inv in Hfill as (mt & pdf & wa & _ & Ea & _ & _ & ->).
  destruct (analyze_template_frame _ _ _ _ _ _ Ea)
    as (Ht & Hc & Hh & Hs & Hf & Hn & _).
  simpl in *. eexists _, _, _.
  unfold Main.log_run, Main.run_data_of. cbn [rd_mapping_snapshot_id].
  rewrite bool_decide_eq_false_2 by apply append_cons_nonempty.
  simpl. rewrite Hh, Hf, Hc, Ht, Hs.
  repeat split; try reflexivity. apply all_chars_filter.
Qed.

Lemma fill_single_record_audit_witness :
  exists output_path w' entry,
    Main.fill_single_record Fixtures.blind_scanners (Fixtures.service false)
      Samples.filed_world "6f1c2a9e-ab12cd" Fixtures.record_a "form.pdf"
      = Some (output_path, w') /\
    w_run_history w' = w_run_history Samples.filed_world ++ [entry] /\
    rd_input_payload_keys entry
    = ["registered_name"; "operator_id"; "date_of_birth"].
Proof.
  destruct (Main.fill_single_record Fixtures.blind_scanners
              (Fixtures.service false) Samples.filed_world "6f1c2a9e-ab12cd"
              Fixtures.record_a "form.pdf") as [[output_path w']|] eqn:Erun;
    [|by vm_compute in Erun].
  destruct (fill_single_record_audit _ _ _ _ _ _ _ _ Erun)
    as (entry & doc & name & Hh & _ & _ & _ & Hkeys & _).
  exists output_path, w', entry. split; [reflexivity|].
  split; [exact Hh | exact Hkeys].
Defined.


(** ** Passes that follow one another *)

(** The stored list after a pass is the list the pass returned. *)
Lemma stored_after_pass (svc : Rag.RealRAGService) (w w' : World)
    (template_id : string) (template_fields out : list Field) :
  Engine.map_template_fields svc w template_id template_fields = Some (out, w') ->
  Engine.stored_mappings w' template_id = out.
Proof.
  intros Hrun. destruct (map_pass_world _ _ _ _ _ _ Hrun) as (Hfile & _).
  unfold Engine.stored_mappings, Engine.load_saved_params. by rewrite Hfile.
Qed.

(** The sample index of [Fixtures] answers in shape. *)
Lemma index_answer_well_shaped (vq : list string) (n : nat) :
  Rag.well_shaped (Fixtures.index_answer vq n) (length vq).
Proof.
  intros i Hi. destruct (lookup_lt_is_Some_2 vq i Hi) as [q Hq].
  unfold Fixtures.index_answer. simpl. rewrite !list_lookup_fmap, Hq. simpl.
  eexists. split; [reflexivity|]. split.
  - eexists. split; [reflexivity|]. simpl. lia.
  - eexists. split; [reflexivity|]. simpl. lia.
Qed.

(** X28.  Once a mapping pass has returned, every later pass over the same
    template returns as well, whatever fields it is given, as long as the
    vector index answers in shape: the records the engine stores always
    carry the proposal that the preservation branch reads. *)
Theorem pass_after_pass_returns (svc svc' : Rag.RealRAGService) (w w' : World)
    (template_id : string) (template_fields out later_fields : list Field) :
  Engine.map_template_fields svc w template_id template_fields = Some (out, w') ->
  (forall vq,
     Rag.well_shaped (Rag.schema_collection_query svc' vq 5) (length vq)) ->
  exists out' w'',
    Engine.map_template_fields svc' w' template_id later_fields
    = Some (out', w'') /\
    length out' = length later_fields.
Proof.
  intros Hrun Hshape.
  destruct (map_template_fields_returns svc' w' template_id later_fields)
    as [[out' w''] Hrun'].
  - rewrite (stored_after_pass _ _ _ _ _ _ Hrun). apply Forall_forall.
    intros m Hm _. apply list_elem_of_lookup in Hm as [i Hi].
    destruct (lookup_lt_is_Some_2 template_fields i) as [f Hf].
    { destruct (map_pass_fields _ _ _ _ _ _ Hrun) as [Hlen _].
      rewrite <- Hlen. by eapply lookup_lt_Some. }
    destruct (map_pass_fields _ _ _ _ _ _ Hrun) as [_ Hall].
    destruct (Hall i f Hf) as (f' & Hf' & _ & Hm').
    rewrite Hi in Hf'. injection Hf' as <-. by destruct Hm' as (_ & _ & _ & ?).
  - exact Hshape.
  - exists out', w''. split; [exact Hrun'|].
    by destruct (map_pass_fields _ _ _ _ _ _ Hrun') as [Hlen _].
Qed.

Lemma pass_after_pass_returns_witness :
  exists out' w'',
    Engine.map_template_fields (Fixtures.service true) Fixtures.mapped_world
      "form.pdf" Fixtures.kyc_fields = Some (out', w'') /\
    length out' = length Fixtures.kyc_fields.
Proof.
  apply (pass_after_pass_returns (Fixtures.service true) (Fixtures.service true)
           Fixtures.empty_world Fixtures.mapped_world "form.pdf"
           Fixtures.form_fields
           (Engine.stored_mappings Fixtures.mapped_world "form.pdf")).
  - by vm_compute.
  - intros vq. apply index_answer_well_shaped.
Defined.


(** ** The label resolver (main.find_nearby_label) *)

Lemma insert_asc_elem (h x : Q * string) (l : list (Q * string)) :
  x ∈ Discovery.insert_asc h l <-> x = h \/ x ∈ l.
Proof.
  induction l as [|h' l IH]; simpl.
  - rewrite list_elem_of_singleton, elem_of_nil. tauto.
  - destruct (Qle_bool (fst h) (fst h')).
    + by rewrite elem_of_cons.
    + rewrite !elem_of_cons, IH. tauto.
Qed.

Lemma sort_asc_elem (x : Q * string) (l : list (Q * string)) :
  x ∈ Discovery.sort_asc l <-> x ∈ l.
Proof.
  induction l as [|h l IH]; simpl; [done|].
  by rewrite insert_asc_elem, IH, elem_of_cons.
Qed.

Lemma insert_asc_sorted (h : Q * string) (l : list (Q * string)) :
  StronglySorted (fun a b : Q * string => (fst a <= fst b)%Q) l ->
  StronglySorted (fun a b : Q * string => (fst a <= fst b)%Q)
    (Discovery.insert_asc h l).
Proof.
  induction l as [|h' l IH]; intros Hs; simpl.
  - repeat constructor.
  - apply StronglySorted_inv in Hs as [Hs Hall].
    destruct (Qle_bool (fst h) (fst h')) eqn:E.
    + apply Qle_bool_iff in E. constructor.
      * by constructor.
      * constructor; [exact E|].
        eapply Forall_impl; [exact Hall|]. simpl. intros a Ha.
        by eapply Qle_trans.
    + assert (Hlt : (fst h' < fst h)%Q).
      { apply Qnot_le_lt. intros Hle. apply Qle_bool_iff in Hle. congruence. }
      constructor; [by apply IH|].
      apply Forall_forall. intros x Hx. apply insert_asc_elem in Hx as [->|Hx].
      * by apply Qlt_le_weak.
      * rewrite Forall_forall in Hall. by apply Hall.
Qed.

Lemma sort_asc_sorted (l : list (Q * string)) :
  StronglySorted (fun a b : Q * string => (fst a <= fst b)%Q)
    (Discovery.sort_asc l).
Proof.
  induction l as [|h l IH]; simpl; [constructor | by apply insert_asc_sorted].
Qed.

(** The first text after the ascending sort belongs to an entry with the
    least key; after the descending sort, with the greatest. *)
Lemma first_text_asc (l : list (Q * string)) :
  match Discovery.first_text (Discovery.sort_asc l) with
  | Some t => exists k, (k, t) ∈ l /\ forall e, e ∈ l -> (k <= fst e)%Q
  | None => l = []
  end.
Proof.
  pose proof (sort_asc_sorted l) as Hs.
  pose proof (sort_asc_elem) as He.
  unfold Discovery.first_text.
  destruct (Discovery.sort_asc l) as [|[k t] rest] eqn:E; simpl.
  - destruct l as [|x l']; [done|]. exfalso.
    assert (Hx : x ∈ Discovery.sort_asc (x :: l')) by (apply He; by left).
    rewrite E in Hx. by apply elem_of_nil in Hx.
  - exists k. split; [apply He; rewrite E; by left|].
    intros e Hin. apply He in Hin. rewrite E in Hin.
    apply StronglySorted_inv in Hs as [_ Hall]. rewrite Forall_forall in Hall.
    apply elem_of_cons in Hin as [->|Hin]; [apply Qle_refl | by apply (Hall e)].
Qed.

Lemma first_text_desc (l : list (Q * string)) :
  match Discovery.first_text (Main.sort_desc l) with
  | Some t => exists k, (k, t) ∈ l /\ forall e, e ∈ l -> (fst e <= k)%Q
  | None => l = []
  end.
Proof.
  pose proof (sort_desc_sorted l) as Hs.
  pose proof (sort_desc_elem) as He.
  unfold Discovery.first_text.
  destruct (Main.sort_desc l) as [|[k t] rest] eqn:E; simpl.
  - destruct l as [|x l']; [done|]. exfalso.
    assert (Hx : x ∈ Main.sort_desc (x :: l')) by (apply He; by left).
    rewrite E in Hx. by apply elem_of_nil in Hx.
  - exists k. split; [apply He; rewrite E; by left|].
    intros e Hin. apply He in Hin. rewrite E in Hin.
    apply StronglySorted_inv in Hs as [_ Hall]. rewrite Forall_forall in Hall.
    apply elem_of_cons in Hin as [->|Hin]; [apply Qle_refl | by apply (Hall e)].
Qed.

(** What a zone's entries are. *)
Lemma matches_elem (zone : Discovery.Zone) (rect : Rect) (runs : list TextRun)
    (k : Q) (t : string) :
  (k, t) ∈ Discovery.matches zone (omap (Discovery.visitor_label rect) runs) <->
  exists r, r ∈ runs /\ Discovery.visitor_label rect r = Some (zone, k, t).
Proof.
  unfold Discovery.matches. rewrite list_elem_of_omap. split.
  - intros ([[z k'] t'] & Hin & Hz). apply list_elem_of_omap in Hin as (r & Hr & Hv).
    exists r. split; [exact Hr|]. rewrite Hv.
    destruct z, zone; try discriminate; by injection Hz as -> ->.
  - intros (r & Hr & Hv). exists (zone, k, t). split.
    + apply list_elem_of_omap. by exists r.
    + by destruct zone.
Qed.

Lemma visitor_label_text (rect : Rect) (r : TextRun) (z : Discovery.Zone)
    (k : Q) (t : string) :
  Discovery.visitor_label rect r = Some (z, k, t) ->
  t = PyStr.strip (run_text r) /\ (2 <= String.length t)%nat /\
  match z with
  | Discovery.Above =>
      k = run_y r /\ (ry2 rect < k)%Q /\ (k < ry2 rect + 40)%Q /\
      (rx1 rect - 10 < run_x r)%Q /\ (run_x r < rx2 rect + 10)%Q
  | Discovery.Left =>
      k = run_x r /\ (rx1 rect - 250 < k)%Q /\ (k < rx1 rect)%Q /\
      (ry1 rect - 5 < run_y r)%Q /\ (run_y r < ry2 rect + 15)%Q
  end.
Proof.
  unfold Discovery.visitor_label. cbv zeta.
  destruct (String.length (PyStr.strip (run_text r)) <? 2)%nat eqn:El;
    [discriminate|]. apply Nat.ltb_ge in El.
  destruct (_ && _ && (_ && _)) eqn:Ea.
  - intros H. injection H as Hz Hk Ht. subst z k t.
    split; [done|]. split; [exact El|].
    apply andb_true_iff in Ea as [[H1 H2]%andb_true_iff [H3 H4]%andb_true_iff].
    apply Qlt_bool_iff in H1, H2, H3, H4. done.
  - destruct (Qlt_bool (ry1 rect - 5) (run_y r) && _ && (_ && _)) eqn:Eb;
      [|discriminate].
    intros H. injection H as Hz Hk Ht. subst z k t.
    split; [done|]. split; [exact El|].
    apply andb_true_iff in Eb as [[H1 H2]%andb_true_iff [H3 H4]%andb_true_iff].
    apply Qlt_bool_iff in H1, H2, H3, H4. done.
Qed.

Section LabelPolicy.

Variables (page : Page) (rect : Rect).

Local Abbreviation nearby :=
  (omap (Discovery.visitor_label rect) (page_runs page)).
Local Abbreviation lefts := (Discovery.matches Discovery.Left nearby).
Local Abbreviation aboves := (Discovery.matches Discovery.Above nearby).
Local Abbreviation small :=
  (Qlt_bool (rx2 rect - rx1 rect) 20 && Qlt_bool (ry2 rect - ry1 rect) 20).
Local Abbreviation label := (Discovery.find_nearby_label page rect).

Lemma nearby_split : nearby = [] <-> lefts = [] /\ aboves = [].
Proof.
  unfold Discovery.matches. induction nearby as [|[[z k] t] l IH]; [done|].
  split; [done|]. intros [H1 H2]. destruct z; simpl in *; discriminate.
Qed.

Lemma label_eq :
  label = match (if small then Discovery.first_text (Main.sort_desc lefts)
                 else None) with
          | Some t => t
          | None =>
              match Discovery.first_text (Discovery.sort_asc aboves) with
              | Some t => t
              | None =>
                  match Discovery.first_text (Main.sort_desc lefts) with
                  | Some t => t
                  | None => ""
                  end
              end
          end.
Proof.
  unfold Discovery.find_nearby_label.
  destruct (omap (Discovery.visitor_label rect) (page_runs page)) eqn:En;
    [|reflexivity].
  simpl. by destruct (_ && _).
Qed.

(** X12.  The label of a widget rectangle.  With no text run in either
    zone the label is empty.  For a rectangle under 20 by 20 (a checkbox)
    with a run in the left zone, it is the left run with the greatest x;
    otherwise, with a run in the zone above, it is the run above with the
    least y; otherwise it is the left run with the greatest x.  A label
    that is found is the stripped text of a run of the page, at least two
    characters long. *)
Theorem nearby_label_policy :
  (nearby = [] -> label = "") /\
  (small = true -> lefts <> [] ->
   exists k, (k, label) ∈ lefts /\ forall e, e ∈ lefts -> (fst e <= k)%Q) /\
  (small = false \/ lefts = [] -> aboves <> [] ->
   exists k, (k, label) ∈ aboves /\ forall e, e ∈ aboves -> (k <= fst e)%Q) /\
  (small = false -> aboves = [] -> lefts <> [] ->
   exists k, (k, label) ∈ lefts /\ forall e, e ∈ lefts -> (fst e <= k)%Q) /\
  (nearby <> [] ->
   exists r, r ∈ page_runs page /\ label = PyStr.strip (run_text r) /\
             (2 <= String.length label)%nat).
Proof.
  pose proof (first_text_desc lefts) as Hl.
  pose proof (first_text_asc aboves) as Ha.
  pose proof label_eq as Hlabel.
  assert (Hrun : forall z k, (k, label) ∈ Discovery.matches z nearby ->
            exists r, r ∈ page_runs page /\ label = PyStr.strip (run_text r) /\
                      (2 <= String.length label)%nat).
  { intros z k Hin. apply matches_elem in Hin as (r & Hr & Hv).
    apply visitor_label_text in Hv as (Ht & Hlen & _). by exists r. }
  pose proof nearby_split as Hsplit.
  destruct (Discovery.first_text (Main.sort_desc lefts)) as [tl|];
    destruct (Discovery.first_text (Discovery.sort_asc aboves)) as [ta|].
  - (* both zones have entries *)
    destruct Hl as (kl & Hkl & Hmax). destruct Ha as (ka & Hka & Hmin).
    assert (Hl0 : lefts <> []) by (intros E; rewrite E in Hkl; by apply elem_of_nil in Hkl).
    assert (Ha0 : aboves <> []) by (intros E; rewrite E in Hka; by apply elem_of_nil in Hka).
    split; [intros Hn; apply Hsplit in Hn as [? ?]; done|].
    destruct small.
    + rewrite Hlabel in *. repeat split; try done.
      * intros _ _. by exists kl.
      * intros [?|?]; done.
      * intros _. by apply (Hrun Discovery.Left kl).
    + rewrite Hlabel in *. repeat split; try done.
      * intros _ _. by exists ka.
      * intros _. by apply (Hrun Discovery.Above ka).
  - destruct Hl as (kl & Hkl & Hmax).
    assert (Hl0 : lefts <> []) by (intros E; rewrite E in Hkl; by apply elem_of_nil in Hkl).
    split; [intros Hn; apply Hsplit in Hn as [? ?]; done|].
    assert (Hlab : label = tl) by (rewrite Hlabel; by destruct small).
    rewrite Hlab in *. repeat split; try done.
    + intros _ _. by exists kl.
    + intros _ _ _. by exists kl.
    + intros _. by apply (Hrun Discovery.Left kl).
  - destruct Ha as (ka & Hka & Hmin).
    assert (Ha0 : aboves <> []) by (intros E; rewrite E in Hka; by apply elem_of_nil in Hka).
    split; [intros Hn; apply Hsplit in Hn as [? ?]; done|].
    assert (Hlab : label = ta) by (rewrite Hlabel; by destruct small).
    rewrite Hlab in *. repeat split; try done.
    + intros _ _. by exists ka.
    + intros _. by apply (Hrun Discovery.Above ka).
  - assert (Hlab : label = "") by (rewrite Hlabel; by destruct small).
    split; [done|]. repeat split; try done.
    intros Hne. exfalso. apply Hne. by apply Hsplit.
Qed.

End LabelPolicy.

(** ** The flat-document scanner (main.scan_for_static_fields) *)

Lemma elem_of_concat {A} (x : A) (ls : list (list A)) :
  x ∈ concat ls <-> exists l, l ∈ ls /\ x ∈ l.
Proof.
  induction ls as [|l ls IH]; simpl.
  - split; [by intros ?%elem_of_nil | by intros (? & ?%elem_of_nil & _)].
  - rewrite elem_of_app, IH. split.
    + intros [H|(l' & H1 & H2)]; [exists l; split; [by left|done]|].
      exists l'. split; [by right|done].
    + intros (l' & [->|H1]%elem_of_cons & H2); [by left|]. right. by exists l'.
Qed.

(** The results of a loop whose body may raise: what it collects is what
    the body gives on each element. *)
Lemma mapM_concat_elem {A B} (f : A -> option (list B)) (l : list A)
    (out : list B) :
  @concat B <$> mapM f l = Some out ->
  forall y, y ∈ out <-> exists a ys, a ∈ l /\ f a = Some ys /\ y ∈ ys.
Proof.
  intros H y. apply fmap_Some in H as (yss & HM & ->).
  apply mapM_Some in HM. rewrite elem_of_concat. split.
  - intros (ys & Hys & Hy). apply list_elem_of_lookup in Hys as [i Hi].
    destruct (Forall2_lookup_r _ _ _ _ _ HM Hi) as (a & Ha & Hf).
    exists a, ys. split; [by eapply list_elem_of_lookup_2|done].
  - intros (a & ys & Ha & Hf & Hy). apply list_elem_of_lookup in Ha as [i Hi].
    destruct (Forall2_lookup_l _ _ _ _ _ HM Hi) as (ys' & Hys' & Hf').
    rewrite Hf in Hf'. injection Hf' as <-.
    exists ys. split; [by eapply list_elem_of_lookup_2|done].
Qed.

Lemma enumerate_elem {A} (l : list A) (i : nat) (a : A) :
  (i, a) ∈ Rag.enumerate l <-> l !! i = Some a.
Proof.
  unfold Rag.enumerate. split.
  - intros H. apply list_elem_of_lookup in H as [j Hj].
    apply lookup_zip_with_Some in Hj as (x & y & E & Hx & Hy).
    injection E as -> ->. apply lookup_seq in Hx as [-> _]. exact Hy.
  - intros H. apply list_elem_of_lookup. exists i.
    apply lookup_zip_with_Some. exists i, a. split; [done|]. split; [|done].
    apply lookup_seq. split; [done|]. by eapply lookup_lt_Some.
Qed.

Lemma all_chars_filter_chars (p : ascii -> bool) (s : string) :
  PyStr.all_chars p (PyStr.filter_chars p s) = true.
Proof. apply all_chars_filter. Qed.

(** What one item contributes. *)
Lemma static_field_spec (page : Discovery.StaticPage) (n : nat)
    (item : Discovery.Item) (fs : list Field) (f : Field) :
  Discovery.static_field page n item = Some fs -> f ∈ fs ->
  Discovery.is_label item = true /\
  (Discovery.it_x item + Discovery.it_w item + 5 <= Discovery.sp_width page - 20)%Q /\
  ~ (Discovery.sp_width page == 0)%Q /\ ~ (Discovery.sp_height page == 0)%Q /\
  f_id f = Discovery.static_field_id item n /\ f_name f = f_id f /\
  f_label f = Discovery.clean_text item /\ f_type f = "text" /\
  f_source f = "static_scan" /\ f_page f = S n /\
  f_rect f = Some {| rx1 := Discovery.it_x item + Discovery.it_w item + 5;
                     ry1 := Discovery.it_y item;
                     rx2 := Discovery.it_x item + Discovery.it_w item + 5 + 150;
                     ry2 := Discovery.it_y item + 15 |} /\
  f_mapping_status f = None.
Proof.
  unfold Discovery.static_field. cbv zeta.
  destruct (Discovery.is_label item); [|by intros [= <-] ?%elem_of_nil].
  destruct (Qlt_bool _ _) eqn:Efit; [by intros [= <-] ?%elem_of_nil|].
  destruct (Qeq_bool (Discovery.sp_width page) 0) eqn:Ew; [discriminate|].
  destruct (Qeq_bool (Discovery.sp_height page) 0) eqn:Eh; [discriminate|].
  simpl. intros [= <-] ->%list_elem_of_singleton. simpl.
  apply Qlt_bool_false_iff in Efit.
  apply Qeq_bool_neq in Ew. apply Qeq_bool_neq in Eh.
  repeat split; try done.
Qed.

Lemma static_field_returns (page : Discovery.StaticPage) (n : nat)
    (item : Discovery.Item) :
  ~ (Discovery.sp_width page == 0)%Q -> ~ (Discovery.sp_height page == 0)%Q ->
  is_Some (Discovery.static_field page n item).
Proof.
  intros Hw Hh. unfold Discovery.static_field. cbv zeta.
  destruct (Discovery.is_label item); [|done].
  destruct (Qlt_bool _ _); [done|].
  destruct (Qeq_bool (Discovery.sp_width page) 0) eqn:Ew;
    [by apply Qeq_bool_iff in Ew|].
  destruct (Qeq_bool (Discovery.sp_height page) 0) eqn:Eh;
    [by apply Qeq_bool_iff in Eh|]. done.
Qed.

Lemma visitor_body_spec (run : TextRun) (item : Discovery.Item) :
  Discovery.visitor_body run = Some item ->
  (2 <= String.length (PyStr.strip (run_text run)))%nat /\
  Discovery.it_text item = PyStr.strip (run_text run) /\
  Discovery.it_x item = run_x run /\ Discovery.it_y item = run_y run /\
  (0 <= run_font_size run -> 0 <= Discovery.it_w item)%Q.
Proof.
  unfold Discovery.visitor_body.
  destruct (1 <? _)%nat eqn:E; [|discriminate]. apply Nat.ltb_lt in E.
  intros [= <-]. simpl. repeat split; try done; try lia.
  intros Hf.
  assert (0 <= inject_Z (Z.of_nat (String.length (run_text run))))%Q.
  { change 0%Q with (inject_Z 0). rewrite <- Zle_Qle. lia. }
  destruct (Qeq_bool (run_font_size run) 0).
  - apply Qmult_le_0_compat; [|done]. apply Qmult_le_0_compat; done.
  - apply Qmult_le_0_compat; [|done]. apply Qmult_le_0_compat; done.
Qed.

(** X13.  Every field of a static scan is a well-formed text field on an
    existing page: source [static_scan], no mapping yet, name equal to an id
    of letters, digits and underscores, the run's text without colons as
    label, and a write zone of 150 by 15 at the height of the run that
    starts to the right of the run (for a font size that is not negative)
    and at most 20 units before the right edge of a page that has an
    area. *)
Theorem static_scan_fields (pages : list Discovery.StaticPage)
    (fields : list Field) (f : Field) :
  Discovery.scan_for_static_fields pages = Some fields -> f ∈ fields ->
  exists n page run x,
    pages !! n = Some page /\ run ∈ Discovery.sp_runs page /\
    f_page f = S n /\ f_type f = "text" /\ f_source f = "static_scan" /\
    f_mapping_status f = None /\
    f_name f = f_id f /\ PyStr.all_chars (fun c => PyStr.is_alnum c || Ascii.eqb c "_") (f_id f)
      = true /\
    f_label f = PyStr.strip (PyStr.replace ":" "" (PyStr.strip (run_text run))) /\
    (2 <= String.length (PyStr.strip (run_text run)))%nat /\
    f_rect f = Some {| rx1 := x; ry1 := run_y run;
                       rx2 := x + 150; ry2 := run_y run + 15 |} /\
    (x <= Discovery.sp_width page - 20)%Q /\
    (0 <= run_font_size run -> run_x run + 5 <= x)%Q /\
    ~ (Discovery.sp_width page == 0)%Q /\ ~ (Discovery.sp_height page == 0)%Q.
Proof.
  intros Hscan Hf. unfold Discovery.scan_for_static_fields in Hscan.
  apply (mapM_concat_elem _ _ _ Hscan) in Hf as ([n page] & fs & Hp & Hpage & Hf).
  apply enumerate_elem in Hp. simpl in Hpage. unfold Discovery.scan_page in Hpage.
  apply (mapM_concat_elem _ _ _ Hpage) in Hf as (item & fs' & Hi & Hitem & Hf).
  apply list_elem_of_omap in Hi as (run & Hrun & Hbody).
  apply visitor_body_spec in Hbody as (Hlen & Ht & Hx & Hy & Hw).
  destruct (static_field_spec _ _ _ _ _ Hitem Hf)
    as (_ & Hfit & Hw0 & Hh0 & Hid & Hname & Hlab & Hty & Hsrc & Hpg & Hrect & Hst).
  exists n, page, run, (Discovery.it_x item + Discovery.it_w item + 5)%Q.
  repeat split; try done.
  - rewrite Hid. apply all_chars_filter_chars.
  - rewrite Hlab. unfold Discovery.clean_text. by rewrite Ht.
  - rewrite Hrect, Hy. done.
  - intros Hfs. specialize (Hw Hfs). rewrite <- Hx. lra.
Qed.

Lemma static_scan_fields_witness :
  exists f n page run x,
    f ∈ Samples.flat_fields /\
    Samples.flat_pages !! n = Some page /\ run ∈ Discovery.sp_runs page /\
    f_page f = S n /\ f_label f = "Name" /\
    f_rect f = Some {| rx1 := x; ry1 := run_y run;
                       rx2 := x + 150; ry2 := run_y run + 15 |} /\
    (x <= Discovery.sp_width page - 20)%Q.
Proof.
  destruct (Samples.flat_fields) as [|f fs] eqn:Ef; [by vm_compute in Ef|].
  destruct (static_scan_fields Samples.flat_pages Samples.flat_fields f)
    as (n & page & run & x & Hp & Hr & Hpg & _ & _ & _ & _ & _ & Hlab & _ &
        Hrect & Hfit & _).
  - by vm_compute.
  - rewrite Ef. by left.
  - exists f, n, page, run, x. split; [by left|].
    split; [exact Hp|]. split; [exact Hr|]. split; [exact Hpg|].
    split; [|split; [exact Hrect | exact Hfit]].
    vm_compute in Ef. injection Ef as <- _. reflexivity.
Defined.


(** X14.  On a document whose pages all have an area the static scan
    returns, and it misses no label: every text run of at least two
    characters that ends in a colon, and whose write zone starts at most 20
    units before the right edge of its page, has a field on that page with
    the run's text without colons as label. *)
Theorem static_scan_complete (pages : list Discovery.StaticPage) :
  (forall page, page ∈ pages ->
     ~ (Discovery.sp_width page == 0)%Q /\ ~ (Discovery.sp_height page == 0)%Q) ->
  exists fields,
    Discovery.scan_for_static_fields pages = Some fields /\
    forall n page run item,
      pages !! n = Some page -> run ∈ Discovery.sp_runs page ->
      Discovery.visitor_body run = Some item ->
      Discovery.ends_with_colon (PyStr.strip (Discovery.it_text item)) = true ->
      (Discovery.it_x item + Discovery.it_w item + 5
         <= Discovery.sp_width page - 20)%Q ->
      exists f, f ∈ fields /\ f_page f = S n /\
                f_label f = Discovery.clean_text item /\
                f_id f = Discovery.static_field_id item n.
Proof.
  intros Hdims.
  assert (Hsome : is_Some (Discovery.scan_for_static_fields pages)).
  { unfold Discovery.scan_for_static_fields. apply fmap_is_Some, mapM_is_Some.
    apply Forall_forall. intros [n page] Hin. apply enumerate_elem in Hin.
    apply list_elem_of_lookup_2 in Hin. destruct (Hdims page Hin) as [Hw Hh].
    simpl. unfold Discovery.scan_page. apply fmap_is_Some, mapM_is_Some.
    apply Forall_forall. intros item _. by apply static_field_returns. }
  destruct Hsome as [fields Hscan]. exists fields. split; [exact Hscan|].
  intros n page run item Hpage Hrun Hbody Hcolon Hfit.
  destruct (Hdims page (list_elem_of_lookup_2 _ _ _ Hpage)) as [Hw Hh].
  destruct (static_field_returns page n item Hw Hh) as [fs Hfs].
  pose proof Hfs as Hfs'.
  unfold Discovery.static_field in Hfs'. cbv zeta in Hfs'.
  assert (Hlab : Discovery.is_label item = true).
  { unfold Discovery.is_label. cbv zeta. by rewrite Hcolon. }
  rewrite Hlab in Hfs'.
  destruct (Qlt_bool _ _) eqn:Efit in Hfs'.
  { apply Qlt_bool_iff in Efit. exfalso. lra. }
  destruct (Qeq_bool (Discovery.sp_width page) 0) eqn:Ew;
    [by apply Qeq_bool_iff in Ew|].
  destruct (Qeq_bool (Discovery.sp_height page) 0) eqn:Eh;
    [by apply Qeq_bool_iff in Eh|].
  simpl in Hfs'. injection Hfs' as <-.
  assert (Hp : is_Some (Discovery.scan_page n page)).
  { unfold Discovery.scan_page. apply fmap_is_Some, mapM_is_Some.
    apply Forall_forall. intros it _. by apply static_field_returns. }
  destruct Hp as [pfs Hpfs].
  eexists. split.
  - apply (mapM_concat_elem _ _ _ Hscan). exists (n, page), pfs.
    split; [by apply enumerate_elem|]. split; [exact Hpfs|].
    apply (mapM_concat_elem _ _ _ Hpfs). exists item. eexists.
    split; [apply list_elem_of_omap; by exists run|].
    split; [exact Hfs|]. by left.
  - done.
Qed.

Lemma static_scan_complete_witness :
  exists fields f,
    Discovery.scan_for_static_fields Samples.flat_pages = Some fields /\
    f ∈ fields /\ f_page f = 1%nat /\ f_id f = "static_Name_0_72".
Proof.
  destruct (static_scan_complete Samples.flat_pages) as (fields & Hscan & Hall).
  - intros page ->%list_elem_of_singleton. split; by vm_compute.
  - destruct (Hall 0%nat
                {| Discovery.sp_width := 612; Discovery.sp_height := 792;
                   Discovery.sp_runs := [Samples.name_run] |}
                Samples.name_run
                {| Discovery.it_text := "Name:"; Discovery.it_x := 72;
                   Discovery.it_y := 700; Discovery.it_w := 5 * 12 * 0.5 |})
      as (f & Hin & Hpage & _ & Hid).
    + reflexivity.
    + by left.
    + by vm_compute.
    + by vm_compute.
    + by vm_compute.
    + exists fields, f. split; [exact Hscan|]. split; [exact Hin|].
      split; [exact Hpage|]. rewrite Hid. by vm_compute.
Defined.


(** ** The canonical schema store (canonical_schema.CanonicalSchemaService) *)

Section Dict.

Context {V : Type}.
Implicit Types (d : Schema.Dict V) (k : string) (v : V).

Lemma dict_get_None d k : Schema.dict_get d k = None <-> k ∉ d.*1.
Proof.
  induction d as [|[k' v'] d IH]; simpl.
  - split; [intros _ ?%elem_of_nil; done | done].
  - rewrite not_elem_of_cons. destruct (bool_decide (k' = k)) eqn:E.
    + apply bool_decide_eq_true in E. split; [done|]. intros [? _]. congruence.
    + apply bool_decide_eq_false in E. rewrite IH. split; [|tauto].
      intros ?. split; [congruence|done].
Qed.

Lemma dict_get_Some_elem d k v : Schema.dict_get d k = Some v -> (k, v) ∈ d.
Proof.
  induction d as [|[k' v'] d IH]; simpl; [done|].
  destruct (bool_decide (k' = k)) eqn:E.
  - apply bool_decide_eq_true in E. intros [= ->]. subst. by left.
  - intros H. right. by apply IH.
Qed.

Lemma dict_get_set_eq d k v : Schema.dict_get (Schema.dict_set d k v) k = Some v.
Proof.
  induction d as [|[k' v'] d IH]; simpl.
  - by rewrite bool_decide_eq_true_2.
  - destruct (bool_decide (k' = k)) eqn:E; simpl; by rewrite E.
Qed.

Lemma dict_get_set_ne d k k' v :
  k <> k' -> Schema.dict_get (Schema.dict_set d k v) k' = Schema.dict_get d k'.
Proof.
  intros Hne. induction d as [|[k0 v0] d IH]; simpl.
  - by rewrite bool_decide_eq_false_2.
  - destruct (bool_decide (k0 = k)) eqn:E; simpl.
    + apply bool_decide_eq_true in E. subst k0.
      by rewrite !bool_decide_eq_false_2.
    + by rewrite IH.
Qed.

Lemma dict_set_fresh d k v :
  Schema.dict_get d k = None -> Schema.dict_set d k v = d ++ [(k, v)].
Proof.
  induction d as [|[k' v'] d IH]; simpl; [done|].
  destruct (bool_decide (k' = k)); [done|]. intros H. by rewrite IH.
Qed.

Lemma dict_set_keys d k v v0 :
  Schema.dict_get d k = Some v0 -> (Schema.dict_set d k v).*1 = d.*1.
Proof.
  induction d as [|[k' v'] d IH]; [done|]. cbn [Schema.dict_get Schema.dict_set].
  destruct (bool_decide (k' = k)); [done|]. intros H.
  rewrite !fmap_cons. f_equal. by apply IH.
Qed.

Lemma dict_set_Forall (P : string * V -> Prop) d k v :
  Forall P d -> P (k, v) -> Forall P (Schema.dict_set d k v).
Proof.
  intros Hd Hp. induction Hd as [|[k' v'] d Hh Hd IH]; simpl.
  - by constructor.
  - destruct (bool_decide (k' = k)) eqn:E.
    + apply bool_decide_eq_true in E. subst k'. by constructor.
    + by constructor.
Qed.

Lemma dict_get_del_eq d k : Schema.dict_get (Schema.dict_del d k) k = None.
Proof.
  apply dict_get_None. intros H. apply list_elem_of_fmap in H as ([k' v'] & -> & H).
  by apply list_elem_of_filter in H as [H _].
Qed.

Lemma dict_get_del_ne d k k' :
  k <> k' -> Schema.dict_get (Schema.dict_del d k) k' = Schema.dict_get d k'.
Proof.
  intros Hne. unfold Schema.dict_del, Schema.Dict in *.
  induction d as [|[k0 v0] d IH]; [done|].
  destruct (decide (k0 = k)) as [->|Hk].
  - rewrite filter_cons_False by (simpl; tauto). simpl.
    by rewrite bool_decide_eq_false_2.
  - rewrite filter_cons_True by done. simpl. by rewrite IH.
Qed.

Lemma dict_del_absent d k :
  Schema.dict_get d k = None -> Schema.dict_del d k = d.
Proof.
  intros H. apply dict_get_None in H. unfold Schema.dict_del, Schema.Dict in *.
  induction d as [|[k0 v0] d IH]; [done|].
  simpl in H. apply not_elem_of_cons in H as [H1 H2].
  rewrite filter_cons_True by (simpl; congruence). by rewrite IH.
Qed.

End Dict.






Lemma save_schema_file (svc : Schema.Service) :
  Schema.schema_file (Schema.save_schema svc)
  = Some (Schema.item_of_field <$> Schema.get_all_fields (Schema.save_schema svc)).
Proof. done. Qed.

(** X21.  [add_field]: an id that is taken raises [ValueError] and a record
    without a canonical name raises [KeyError]; otherwise the new field goes
    to the end of the store under its id, the other fields stay, the file is
    rewritten with every field, and a store that keeps each field once
    under its own id still does. *)
Theorem add_field_spec (svc : Schema.Service) (field_data : Schema.Item)
    (fid : string) :
  Schema.i_field_id field_data = Some fid ->
  (is_Some (Schema.get_field svc fid) ->
   Schema.add_field svc field_data = Schema.Raise "ValueError") /\
  (Schema.get_field svc fid = None ->
   Schema.i_canonical_name field_data = None ->
   Schema.add_field svc field_data = Schema.Raise "KeyError") /\
  (Schema.get_field svc fid = None ->
   forall cname, Schema.i_canonical_name field_data = Some cname ->
   exists f svc',
     Schema.add_field svc field_data = Schema.Ok (f, svc') /\
     Schema.field_id f = fid /\ Schema.canonical_name f = cname /\
     Schema.get_field svc' fid = Some f /\
     (forall k, k <> fid -> Schema.get_field svc' k = Schema.get_field svc k) /\
     Schema.get_all_fields svc' = Schema.get_all_fields svc ++ [f] /\
     Schema.schema_file svc'
     = Some (Schema.item_of_field <$> Schema.get_all_fields svc') /\
     (Schema.keyed svc -> Schema.keyed svc')).
Proof.
  intros Hid. unfold Schema.add_field, Schema.get_field. rewrite Hid.
  cbn [Schema.required]. split; [|split].
  - intros Hs. by rewrite bool_decide_eq_true_2.
  - intros Hn Hc. rewrite bool_decide_eq_false_2 by (rewrite Hn; by intros [? ?]).
    unfold Schema.field_of_new_item. by rewrite Hid, Hc.
  - intros Hn cname Hc.
    rewrite bool_decide_eq_false_2 by (rewrite Hn; by intros [? ?]).
    unfold Schema.field_of_new_item. rewrite Hid, Hc. cbn [Schema.required].
    eexists. eexists. split; [reflexivity|].
    unfold Schema.keyed, Schema.get_all_fields, Schema.save_schema.
    cbn [Schema.field_id Schema.canonical_name Schema.fields Schema.schema_file].
    split; [done|]. split; [done|]. split; [apply dict_get_set_eq|].
    split; [intros k Hk; by apply dict_get_set_ne|].
    split.
    { unfold Schema.get_all_fields. cbn [Schema.fields].
      by rewrite (dict_set_fresh _ _ _ Hn), fmap_app. }
    split; [reflexivity|].
    intros [Hk Hnd]. unfold Schema.keyed. cbn [Schema.fields].
    rewrite (dict_set_fresh _ _ _ Hn). split.
    + apply Forall_app. split; [exact Hk|]. by repeat constructor.
    + rewrite fmap_app. apply NoDup_app. split; [exact Hnd|]. split.
      * intros k Hin ->%list_elem_of_singleton. by apply dict_get_None in Hn.
      * apply NoDup_singleton.
Qed.

Lemma add_field_spec_witness :
  exists f svc',
    Schema.add_field Samples.schema Samples.loan_amount = Schema.Ok (f, svc') /\
    Schema.get_field svc' "loan_amount_requested" = Some f /\
    Schema.add_field svc' Samples.loan_amount = Schema.Raise "ValueError".
Proof.
  destruct (add_field_spec Samples.schema Samples.loan_amount
              "loan_amount_requested" eq_refl) as (_ & _ & Hnew).
  destruct (Hnew eq_refl "Loan Amount" eq_refl)
    as (f & svc' & Hadd & _ & _ & Hget & _).
  exists f, svc'. split; [exact Hadd|]. split; [exact Hget|].
  destruct (add_field_spec svc' Samples.loan_amount
              "loan_amount_requested" eq_refl) as (Hdup & _).
  apply Hdup. rewrite Hget. by eexists.
Defined.


Lemma apply_updates_snoc (f : Schema.CanonicalField)
    (updates : list Schema.Assign) (a : Schema.Assign) :
  Schema.apply_updates f (updates ++ [a])
  = Schema.apply_updates f updates ≫= fun g => Schema.setattr g a.
Proof. unfold Schema.apply_updates. by rewrite foldl_app. Qed.

(** The loop goes through on updates that stay within the embedding, and
    keeps the field's id unless one of them assigns it. *)
Lemma apply_updates_embedded (f : Schema.CanonicalField)
    (updates : list Schema.Assign) :
  Forall (fun a => Schema.embedded a = true) updates ->
  exists f',
    Schema.apply_updates f updates = Some f' /\
    (Forall (fun a => Schema.assigns_field_id a = false) updates ->
     Schema.field_id f' = Schema.field_id f).
Proof.
  induction updates as [|a updates IH] using rev_ind; intros Hemb.
  - exists f. by split.
  - apply Forall_app in Hemb as [Hemb Ha]. apply Forall_inv in Ha.
    destruct (IH Hemb) as (g & Hg & Hid). rewrite apply_updates_snoc, Hg.
    cbn [mbind option_bind].
    destruct (Schema.setattr g a) as [f'|] eqn:Es;
      [|destruct g, a; cbv in Es, Ha; discriminate].
    exists f'. split; [done|]. intros Hno.
    apply Forall_app in Hno as [Hno Hna]. apply Forall_inv in Hna.
    rewrite <- (Hid Hno).
    destruct g, a; cbv in Es, Hna; try discriminate; by injection Es as <-.
Qed.

(** X22.  [update_field]: an id that is not in the store raises
    [KeyError], whatever the updates are.  For updates that name
    attributes of the dataclass or names the object does not have (the
    updates this embedding follows), the field changes in place: the keys
    of the store and their order stay, the other fields stay, and the file
    is rewritten.  The store keeps the field under the id it was asked for,
    so it still keeps every field under its own id exactly when the updates
    leave the field's id as it was (they do when none of them assigns
    [field_id]). *)
Theorem update_field_spec (svc : Schema.Service) (fid : string)
    (updates : list Schema.Assign) :
  (Schema.get_field svc fid = None ->
   Schema.update_field svc fid updates = Some (Schema.Raise "KeyError")) /\
  (forall field, Schema.get_field svc fid = Some field ->
   Forall (fun a => Schema.embedded a = true) updates ->
   exists field' svc',
     Schema.update_field svc fid updates = Some (Schema.Ok (field', svc')) /\
     Schema.apply_updates field updates = Some field' /\
     Schema.get_field svc' fid = Some field' /\
     (forall k, k <> fid -> Schema.get_field svc' k = Schema.get_field svc k) /\
     (Schema.fields svc').*1 = (Schema.fields svc).*1 /\
     Schema.schema_file svc'
     = Some (Schema.item_of_field <$> Schema.get_all_fields svc') /\
     (Forall (fun a => Schema.assigns_field_id a = false) updates ->
      Schema.field_id field' = Schema.field_id field) /\
     (Schema.keyed svc -> (Schema.keyed svc' <-> Schema.field_id field' = fid))).
Proof.
  unfold Schema.update_field, Schema.get_field. split.
  - by intros ->.
  - intros field Hf Hemb. rewrite Hf.
    destruct (apply_updates_embedded field updates Hemb) as (field' & Hup & Hid).
    rewrite Hup. cbn [mbind option_bind]. eexists. eexists.
    split; [reflexivity|].
    unfold Schema.keyed, Schema.get_all_fields, Schema.save_schema.
    cbn [Schema.fields Schema.schema_file].
    split; [done|]. split; [apply dict_get_set_eq|].
    split; [intros k Hk; by apply dict_get_set_ne|].
    split; [by eapply dict_set_keys|]. split; [done|].
    split; [exact Hid|].
    intros [Hk Hnd]. split.
    + intros [Hk' _]. rewrite Forall_forall in Hk'.
      symmetry. apply (Hk' (fid, field')).
      apply dict_get_Some_elem, dict_get_set_eq.
    + intros Hfid. split.
      * apply dict_set_Forall; [exact Hk | by simpl].
      * by rewrite (dict_set_keys _ _ _ _ Hf).
Qed.

(** X23.  [delete_field]: afterwards the id is gone, every other id gives
    the field it gave before and the remaining fields keep their order; an
    id that was not there changes nothing at all, a deletion rewrites the
    file with the fields that are left, and a store that keeps each field
    once under its own id still does. *)
Theorem delete_field_spec (svc : Schema.Service) (fid : string) :
  Schema.get_field (Schema.delete_field svc fid) fid = None /\
  (forall k, k <> fid ->
     Schema.get_field (Schema.delete_field svc fid) k = Schema.get_field svc k) /\
  Schema.get_all_fields (Schema.delete_field svc fid)
    `sublist_of` Schema.get_all_fields svc /\
  (Schema.get_field svc fid = None -> Schema.delete_field svc fid = svc) /\
  (is_Some (Schema.get_field svc fid) ->
   Schema.schema_file (Schema.delete_field svc fid)
   = Some (Schema.item_of_field
             <$> Schema.get_all_fields (Schema.delete_field svc fid))) /\
  (Schema.keyed svc -> Schema.keyed (Schema.delete_field svc fid)).
Proof.
  unfold Schema.delete_field, Schema.get_field.
  destruct (bool_decide (is_Some (Schema.dict_get (Schema.fields svc) fid))) eqn:E.
  - apply bool_decide_eq_true in E.
    unfold Schema.keyed, Schema.get_all_fields, Schema.save_schema.
    cbn [Schema.fields Schema.schema_file].
    split; [apply dict_get_del_eq|].
    split; [intros k Hk; by apply dict_get_del_ne|].
    split; [apply fmap_sublist, sublist_filter|].
    split; [intros Hn; rewrite Hn in E; by destruct E|].
    split; [done|].
    intros [Hk Hnd]. split.
    + rewrite Forall_forall in Hk. apply Forall_forall. intros kv Hin.
      apply Hk. by apply list_elem_of_filter in Hin as [_ Hin].
    + eapply sublist_NoDup; [exact Hnd|]. apply fmap_sublist, sublist_filter.
  - apply bool_decide_eq_false in E.
    assert (Hn : Schema.dict_get (Schema.fields svc) fid = None).
    { destruct (Schema.dict_get _ _) eqn:Eg; [|done]. exfalso. by apply E. }
    split; [exact Hn|]. split; [done|]. split; [done|]. split; [done|].
    split; [|done]. intros Hs. by destruct E.
Qed.

(** ** Validation and enrichment (rag_service.validate_and_enrich) *)

(** X24.  The age is the number of birthdays reached: for a date of birth
    that parses, the age is at least [n] exactly when the [n]-th anniversary
    of the date of birth is today or earlier. *)
Theorem age_counts_anniversaries (env : Validation.Env) (dob_str : string)
    (y m d n : Z) :
  Validation.strptime env dob_str = Some (y, m, d) ->
  (n <= Validation.calculate_age env dob_str)%Z <->
  Validation.on_or_before ((y + n)%Z, m, d) (Validation.today env).
Proof.
  intros Hp. unfold Validation.calculate_age, Validation.on_or_before.
  rewrite Hp. destruct (Validation.today env) as [[ty tm] td].
  unfold Validation.pair_lt. simpl.
  destruct (tm <? m)%Z eqn:E1; destruct (tm =? m)%Z eqn:E2;
    destruct (td <? d)%Z eqn:E3; simpl; lia.
Qed.

Lemma age_counts_anniversaries_witness :
  (15 <= Validation.calculate_age Samples.env "2010-06-15")%Z <->
  Validation.on_or_before (2010 + 15, 6, 15)%Z (Validation.today Samples.env).
Proof.
  apply (age_counts_anniversaries Samples.env "2010-06-15" 2010 6 15 15).
  reflexivity.
Defined.


Lemma payload_get_set_eq (data : Validation.Payload) (k : string)
    (v : Validation.Value) :
  Validation.payload_get (Validation.payload_set data k v) k = Some v.
Proof.
  induction data as [|[k' v'] data IH]; simpl.
  - by rewrite bool_decide_eq_true_2.
  - destruct (bool_decide (k' = k)) eqn:E; simpl; by rewrite E.
Qed.

Lemma payload_get_set_ne (data : Validation.Payload) (k k' : string)
    (v : Validation.Value) :
  k <> k' ->
  Validation.payload_get (Validation.payload_set data k v) k'
  = Validation.payload_get data k'.
Proof.
  intros Hne. induction data as [|[k0 v0] data IH]; simpl.
  - by rewrite bool_decide_eq_false_2.
  - destruct (bool_decide (k0 = k)) eqn:E; simpl.
    + apply bool_decide_eq_true in E. subst k0.
      by rewrite !bool_decide_eq_false_2.
    + by rewrite IH.
Qed.

Lemma alnum_match_spec (s : string) :
  Validation.alnum_match s = true <->
  exists body, PyStr.all_chars PyStr.is_alnum body = true /\
               (s = body \/ s = body +:+ Validation.newline).
Proof.
  induction s as [|c s IH]; simpl.
  - split; [|done]. intros _. exists "". split; [done|by left].
  - destruct (PyStr.is_alnum c) eqn:Ec.
    + rewrite IH. split.
      * intros (body & Hb & Hs). exists (String c body). simpl. rewrite Ec, Hb.
        split; [done|]. destruct Hs as [->| ->]; [by left | by right].
      * intros ([|c' body] & Hb & Hs).
        -- destruct Hs as [Hs|Hs]; [done|]. injection Hs as -> ->.
           by vm_compute in Ec.
        -- simpl in Hb. apply andb_true_iff in Hb as [_ Hb]. exists body.
           split; [done|]. destruct Hs as [Hs|Hs]; injection Hs as -> ->;
             [by left | by right].
    + rewrite bool_decide_eq_true. split.
      * intros ->. exists "". split; [done | by right].
      * intros ([|c' body] & Hb & Hs).
        -- by destruct Hs as [Hs|Hs].
        -- simpl in Hb. apply andb_true_iff in Hb as [Hc _].
           destruct Hs as [Hs|Hs]; injection Hs as -> ->; congruence.
Qed.

(** What a rule reads. *)
Lemma checked_Text (v : option Validation.Value) (s : string) :
  Validation.checked v = Validation.Text s <->
  v = Some (Validation.Str s) /\ s <> "".
Proof.
  split.
  - destruct v as [[[|c t]|[|] r]|]; simpl; try discriminate.
    intros [= <-]. by split.
  - intros [-> Hne]. by destruct s.
Qed.

Lemma checked_NotText (v : option Validation.Value) :
  Validation.checked v = Validation.NotText <->
  exists rendered, v = Some (Validation.Other true rendered).
Proof.
  split.
  - destruct v as [[[|c t]|[|] r]|]; simpl; try discriminate.
    intros _. by exists r.
  - by intros [r ->].
Qed.

Section Verdict.

Variables (svc : Rag.RealRAGService) (env : Validation.Env)
  (all_fields : list Schema.CanonicalField) (data : Validation.Payload).

Local Abbreviation dob := (Validation.picked_value Validation.is_dob_key data).
Local Abbreviation acc_num :=
  (Validation.picked_value Validation.is_account_key data).

(** The verdict and the data by the three places where the method can
    stop early or raise. *)
Lemma validate_and_enrich_outcome :
  fst <$> Validation.validate_and_enrich svc env all_fields data
  = match Validation.age_rule env data with
    | None => None
    | Some (inr _) => Some (false, data)
    | Some (inl _) =>
        match Validation.account_rule data with
        | None => None
        | Some (inr _) => Some (false, data)
        | Some (inl _) =>
            match Validation.nationality_lower data with
            | None => None
            | Some nationality =>
                Some (true,
                      Validation.payload_set data "fatca_status"
                        (Validation.Str
                           (if bool_decide (nationality = "us")
                               || Validation.country_is_US data
                            then "W-9" else "W-8BEN")))
            end
        end
    end.
Proof.
  unfold Validation.validate_and_enrich. cbv zeta.
  destruct (Validation.age_rule env data) as [[?|?]|]; cbn [mbind option_bind];
    [|done|done].
  destruct (Validation.account_rule data) as [[?|?]|]; cbn [mbind option_bind];
    [|done|done].
  by destruct (Validation.nationality_lower data).
Qed.

Lemma age_rule_rejects :
  (exists failure, Validation.age_rule env data = Some (inr failure)) <->
  exists s y m d,
    dob = Some (Validation.Str s) /\ s <> "" /\
    Validation.strptime env s = Some (y, m, d) /\
    Validation.on_or_before (y, m, d) (Validation.today env) /\
    ~ Validation.on_or_before ((y + 18)%Z, m, d) (Validation.today env).
Proof.
  unfold Validation.age_rule.
  destruct (Validation.checked dob) as [|s|] eqn:Ec.
  - split; [by intros [? [=]]|]. intros (s & y & m & d & Hd & Hne & _).
    assert (Validation.checked dob = Validation.Text s) by by apply checked_Text.
    congruence.
  - apply checked_Text in Ec as [Hd Hne]. cbv zeta.
    destruct (Validation.strptime env s) as [[[y m] d]|] eqn:Ep.
    + pose proof (age_counts_anniversaries env s y m d 0 Ep) as H0.
      pose proof (age_counts_anniversaries env s y m d 18 Ep) as H18.
      rewrite Z.add_0_r in H0.
      destruct (Validation.calculate_age env s <? 0)%Z eqn:E0;
        [apply Z.ltb_lt in E0 | apply Z.ltb_ge in E0].
      * split; [by intros [? [=]]|].
        intros (s' & y' & m' & d' & Hd' & _ & Hp' & Ha & _).
        rewrite Hd in Hd'. injection Hd' as <-. rewrite Ep in Hp'.
        injection Hp' as <- <- <-. apply H0 in Ha. lia.
      * destruct (Validation.calculate_age env s <? 18)%Z eqn:E18;
          [apply Z.ltb_lt in E18 | apply Z.ltb_ge in E18].
        -- split; [intros _|by eexists].
           exists s, y, m, d. repeat split; try done; [by apply H0|].
           intros Hb. apply H18 in Hb. lia.
        -- split; [by intros [? [=]]|].
           intros (s' & y' & m' & d' & Hd' & _ & Hp' & _ & Hb).
           rewrite Hd in Hd'. injection Hd' as <-. rewrite Ep in Hp'.
           injection Hp' as <- <- <-. exfalso. by apply Hb, H18.
    + assert (Hage : Validation.calculate_age env s = (-1)%Z).
      { unfold Validation.calculate_age. by rewrite Ep. }
      rewrite Hage. simpl. split; [by intros [? [=]]|].
      intros (s' & y' & m' & d' & Hd' & _ & Hp' & _).
      rewrite Hd in Hd'. injection Hd' as <-. congruence.
  - split; [by intros [? [=]]|]. intros (s & y & m & d & Hd & Hne & _).
    assert (Validation.checked dob = Validation.Text s) by by apply checked_Text.
    congruence.
Qed.

Lemma age_rule_raises :
  Validation.age_rule env data = None <->
  exists rendered, dob = Some (Validation.Other true rendered).
Proof.
  rewrite <- checked_NotText. unfold Validation.age_rule.
  destruct (Validation.checked dob) as [|s|]; [done| |done].
  cbv zeta. destruct (_ <? 0)%Z; [done|]. by destruct (_ <? 18)%Z.
Qed.

Lemma account_rule_rejects :
  (exists failure, Validation.account_rule data = Some (inr failure)) <->
  exists a,
    acc_num = Some (Validation.Str a) /\ a <> "" /\
    ~ exists body, PyStr.all_chars PyStr.is_alnum body = true /\
                   (a = body \/ a = body +:+ Validation.newline).
Proof.
  unfold Validation.account_rule.
  destruct (Validation.checked acc_num) as [|s|] eqn:Ec.
  - split; [by intros [? [=]]|]. intros (s & Hd & Hne & _).
    assert (Validation.checked acc_num = Validation.Text s)
      by by apply checked_Text.
    congruence.
  - apply checked_Text in Ec as [Hd Hne]. cbv zeta.
    destruct (Validation.alnum_match s) eqn:Em.
    + split; [by intros [? [=]]|]. intros (s' & Hd' & _ & Hbad).
      rewrite Hd in Hd'. injection Hd' as <-. exfalso.
      by apply Hbad, alnum_match_spec.
    + split; [intros _|by eexists]. exists s. repeat split; try done.
      intros Hb. apply alnum_match_spec in Hb. congruence.
  - split; [by intros [? [=]]|]. intros (s & Hd & Hne & _).
    assert (Validation.checked acc_num = Validation.Text s)
      by by apply checked_Text.
    congruence.
Qed.

Lemma account_rule_raises :
  Validation.account_rule data = None <->
  exists rendered, acc_num = Some (Validation.Other true rendered).
Proof.
  rewrite <- checked_NotText. unfold Validation.account_rule.
  destruct (Validation.checked acc_num) as [|s|]; [done| |done].
  cbv zeta. by destruct (Validation.alnum_match s).
Qed.

Lemma nationality_lower_raises :
  Validation.nationality_lower data = None <->
  exists truth rendered,
    Validation.payload_get data "nationality"
    = Some (Validation.Other truth rendered).
Proof.
  unfold Validation.nationality_lower.
  destruct (Validation.payload_get data "nationality") as [[s|b r]|]; split;
    try discriminate; try (by intros (? & ? & [=])); try done.
  intros _. by exists b, r.
Qed.

End Verdict.

(** X25.  An application is rejected (the call returns [False], with the
    data as it was) in exactly two cases: the value under the first
    date-of-birth key is a string that parses to a date that is not in the
    future and whose eighteenth anniversary is still to come; or it is not
    a truthy value of another type and the value under the first
    account-number key is a non-empty string that is not made of letters
    and digits (one line break at the end apart).  The call raises in
    exactly three cases: a truthy value that is no string under the
    date-of-birth key; no rejection for age and such a value under the
    account-number key; or no rejection at all and a nationality that is
    there and is no string.  A date that does not parse, a date of birth in
    the future, missing required fields or an unusual account-number length
    neither reject nor raise. *)
Theorem rejection_cases (svc : Rag.RealRAGService) (env : Validation.Env)
    (all_fields : list Schema.CanonicalField) (data : Validation.Payload) :
  let dob := Validation.picked_value Validation.is_dob_key data in
  let acc_num := Validation.picked_value Validation.is_account_key data in
  let minor :=
    exists s y m d,
      dob = Some (Validation.Str s) /\ s <> "" /\
      Validation.strptime env s = Some (y, m, d) /\
      Validation.on_or_before (y, m, d) (Validation.today env) /\
      ~ Validation.on_or_before ((y + 18)%Z, m, d) (Validation.today env) in
  let bad_account :=
    exists a,
      acc_num = Some (Validation.Str a) /\ a <> "" /\
      ~ exists body, PyStr.all_chars PyStr.is_alnum body = true /\
                     (a = body \/ a = body +:+ Validation.newline) in
  let not_text (v : option Validation.Value) :=
    exists rendered, v = Some (Validation.Other true rendered) in
  ((exists logs,
       Validation.validate_and_enrich svc env all_fields data
       = Some (false, data, logs)) <->
   minor \/ (~ not_text dob /\ bad_account)) /\
  (Validation.validate_and_enrich svc env all_fields data = None <->
   not_text dob \/ (~ minor /\ not_text acc_num) \/
   (~ minor /\ ~ bad_account /\
    exists truth rendered,
      Validation.payload_get data "nationality"
      = Some (Validation.Other truth rendered))).
Proof.
  intros dob acc_num minor bad_account not_text.
  pose proof (validate_and_enrich_outcome svc env all_fields data) as Hout.
  pose proof (age_rule_rejects env data) as Ha1.
  pose proof (age_rule_raises env data) as Ha2.
  pose proof (account_rule_rejects data) as Hb1.
  pose proof (account_rule_raises data) as Hb2.
  pose proof (nationality_lower_raises data) as Hn.
  fold dob in Ha1, Ha2. fold acc_num in Hb1, Hb2.
  fold minor in Ha1. fold bad_account in Hb1.
  change (exists rendered, dob = Some (Validation.Other true rendered))
    with (not_text dob) in Ha2.
  change (exists rendered, acc_num = Some (Validation.Other true rendered))
    with (not_text acc_num) in Hb2.
  assert (Hfalse : (exists logs,
             Validation.validate_and_enrich svc env all_fields data
             = Some (false, data, logs)) <->
           fst <$> Validation.validate_and_enrich svc env all_fields data
           = Some (false, data)).
  { destruct (Validation.validate_and_enrich svc env all_fields data)
      as [[[v d] l]|]; simpl; split.
    - by intros [logs [= -> -> _]].
    - intros [= -> ->]. by exists l.
    - by intros [? [=]].
    - discriminate. }
  assert (Hnone : Validation.validate_and_enrich svc env all_fields data = None
                  <-> fst <$> Validation.validate_and_enrich svc env all_fields
                                data = None).
  { by destruct (Validation.validate_and_enrich svc env all_fields data). }
  rewrite Hfalse, Hnone, Hout. clear Hfalse Hnone Hout.
  destruct (Validation.age_rule env data) as [[la|fa]|].
  - assert (Hnm : ~ minor) by (intros H; apply Ha1 in H as [? [=]]).
    assert (Hnd : ~ not_text dob) by (intros H; by apply Ha2 in H).
    destruct (Validation.account_rule data) as [[lb|fb]|].
    + assert (Hnb : ~ bad_account) by (intros H; apply Hb1 in H as [? [=]]).
      assert (Hnt : ~ not_text acc_num) by (intros H; by apply Hb2 in H).
      destruct (Validation.nationality_lower data) as [n|].
      * split; split; try discriminate; [tauto|].
        intros [?|[[_ ?]|(_ & _ & Hx)]]; [done|done|]. by apply Hn in Hx.
      * split; split; try discriminate; try done; [tauto|].
        intros _. right. right. split; [done|]. split; [done|]. by apply Hn.
    + assert (Hb : bad_account) by (apply Hb1; by eexists).
      assert (Hnt : ~ not_text acc_num) by (intros H; by apply Hb2 in H).
      split; split; try discriminate; try done; [tauto|tauto].
    + assert (Hnb : ~ bad_account) by (intros H; apply Hb1 in H as [? [=]]).
      assert (Ht : not_text acc_num) by by apply Hb2.
      split; split; try discriminate; try done; [tauto|tauto].
  - assert (Hm : minor) by (apply Ha1; by eexists).
    assert (Hnd : ~ not_text dob) by (intros H; by apply Ha2 in H).
    split; split; try discriminate; try done; [tauto|tauto].
  - assert (Hnm : ~ minor) by (intros H; apply Ha1 in H as [? [=]]).
    assert (Hd : not_text dob) by by apply Ha2.
    split; split; try discriminate; try done; [tauto|tauto].
Qed.

(** X26.  Of every call that returns: a rejected application comes back as
    it was; an accepted one differs in one key only, [fatca_status], set to
    [W-9] when the nationality is [us] in any letter case or the country is
    [US], and to [W-8BEN] otherwise. *)
Theorem enrichment_sets_fatca_only (svc : Rag.RealRAGService)
    (env : Validation.Env) (all_fields : list Schema.CanonicalField)
    (data enriched : Validation.Payload) (verdict : bool)
    (logs : list string) :
  Validation.validate_and_enrich svc env all_fields data
  = Some (verdict, enriched, logs) ->
  (verdict = false -> enriched = data) /\
  (verdict = true ->
   (forall k, k <> "fatca_status" ->
      Validation.payload_get enriched k = Validation.payload_get data k) /\
   ((exists s, Validation.payload_get data "nationality"
               = Some (Validation.Str s) /\ PyStr.lower s = "us") \/
    Validation.payload_get data "country" = Some (Validation.Str "US") ->
    Validation.payload_get enriched "fatca_status"
    = Some (Validation.Str "W-9")) /\
   ((forall s, Validation.payload_get data "nationality"
               = Some (Validation.Str s) -> PyStr.lower s <> "us") ->
    Validation.payload_get data "country" <> Some (Validation.Str "US") ->
    Validation.payload_get enriched "fatca_status"
    = Some (Validation.Str "W-8BEN"))).
Proof.
  intros Hrun.
  pose proof (validate_and_enrich_outcome svc env all_fields data) as Hout.
  rewrite Hrun in Hout. simpl in Hout.
  destruct (Validation.age_rule env data) as [[la|fa]|]; [| |discriminate].
  2: { injection Hout as -> ->. split; [done|discriminate]. }
  destruct (Validation.account_rule data) as [[lb|fb]|]; [| |discriminate].
  2: { injection Hout as -> ->. split; [done|discriminate]. }
  unfold Validation.nationality_lower, Validation.country_is_US in Hout.
  destruct (Validation.payload_get data "nationality") as [[n|b r]|] eqn:En;
    [| discriminate |].
  - injection Hout as -> ->. split; [discriminate|]. intros _. split.
    { intros k Hk. by apply payload_get_set_ne. }
    rewrite payload_get_set_eq. split.
    + intros [(s & [= <-] & Hs)|Hc].
      * by rewrite (bool_decide_eq_true_2 _ Hs).
      * rewrite Hc. rewrite (bool_decide_eq_true_2 ("US" = "US")) by done.
        by rewrite orb_true_r.
    + intros Hn Hc. rewrite (bool_decide_eq_false_2 _ (Hn n eq_refl)).
      destruct (Validation.payload_get data "country") as [[c|? ?]|]; try done.
      rewrite bool_decide_eq_false_2; [done|]. intros ->. by apply Hc.
  - injection Hout as -> ->. split; [discriminate|]. intros _. split.
    { intros k Hk. by apply payload_get_set_ne. }
    rewrite payload_get_set_eq. split.
    + intros [(s & [=] & _)|Hc].
      rewrite Hc. by rewrite (bool_decide_eq_true_2 ("US" = "US")).
    + intros _ Hc.
      destruct (Validation.payload_get data "country") as [[c|? ?]|]; try done.
      rewrite bool_decide_eq_false_2; [done|]. intros ->. by apply Hc.
Qed.

Lemma enrichment_sets_fatca_only_witness :
  exists enriched logs,
    Validation.validate_and_enrich (Fixtures.service false) Samples.env []
      Samples.applicant = Some (true, enriched, logs) /\
    Validation.payload_get enriched "fatca_status"
    = Some (Validation.Str "W-9") /\
    Validation.payload_get enriched "account_number"
    = Some (Validation.Str "AB12345678").
Proof.
  destruct (Validation.validate_and_enrich (Fixtures.service false) Samples.env
              [] Samples.applicant) as [[[verdict enriched] logs]|] eqn:Erun;
    [|by vm_compute in Erun].
  destruct (enrichment_sets_fatca_only _ _ _ _ _ _ _ Erun) as [_ Hacc].
  assert (Hv : verdict = true).
  { vm_compute in Erun. by injection Erun as <- _ _. }
  subst verdict. destruct (Hacc eq_refl) as (Hother & Hus & _).
  exists enriched, logs. split; [reflexivity|]. split.
  - apply Hus. left. exists "US". split; reflexivity.
  - rewrite Hother; [reflexivity | discriminate].
Defined.

(** X27.  Whether the call returns, its verdict and the returned data
    depend on the data, on today's date and on how dates parse, and on
    nothing else: neither the readiness of the similarity service, nor what
    the policy collection returns, nor the canonical schema changes them;
    those only add lines to the log. *)
Theorem verdict_ignores_knowledge_base (svc svc' : Rag.RealRAGService)
    (today : Validation.Date) (strptime : string -> option Validation.Date)
    (policy_query policy_query' : list string -> nat -> list (list string))
    (all_fields all_fields' : list Schema.CanonicalField)
    (data : Validation.Payload) :
  fst <$> Validation.validate_and_enrich svc
            {| Validation.today := today; Validation.strptime := strptime;
               Validation.policy_query := policy_query |} all_fields data
  = fst <$> Validation.validate_and_enrich svc'
              {| Validation.today := today; Validation.strptime := strptime;
                 Validation.policy_query := policy_query' |} all_fields' data.
Proof. by rewrite !validate_and_enrich_outcome. Qed.
